(** * Hotspot record page: a shallow embedding of [src/recordpage.cpp]

    The record page of Hotspot is a Qt widget.  Its behaviour lives in a
    handful of slots that read and write widget properties, the shared
    configuration, the process model and the recorder.  Every slot is
    embedded here as a function on an explicit page state; what the page
    obtains from Qt, KDE and the operating system (file queries, url
    parsing, shell splitting) is taken from a [Platform] record. *)

From Stdlib Require Import ZArith List Bool Ascii String DecimalString Lia.
From stdpp Require Import base option list strings gmap.
Import ListNotations.

Local Open Scope string_scope.
Local Open Scope Z_scope.
Local Open Scope list_scope.

(** ** QString *)

Module QString.

Definition isEmpty (s : string) : bool :=
    match s with EmptyString => true | String _ _ => false end.

  (** [QString::endsWith], case sensitive. *)
Definition endsWith (s suffix : string) : bool :=
    (String.length suffix <=? String.length s)%nat
    && String.eqb
         (substring (String.length s - String.length suffix)
                    (String.length suffix) s)
         suffix.

  (** [QString::arg] for a format with the single place marker [%1]:
      every occurrence of the marker is replaced by the argument. *)
Fixpoint arg (format a : string) : string :=
    match format with
    | String "%"%char (String "1"%char rest) => a +:+ arg rest a
    | String c rest => String c (arg rest a)
    | EmptyString => EmptyString
    end.

  (** [tr] without an installed translation returns its source text. *)
Definition tr (s : string) : string := s.

  (** [QString::number] of a process id, in decimal. *)
Definition number (n : N) : string :=
    NilZero.string_of_uint (N.to_uint n).

End QString.

(** ** QList element access and null pointers

    [operator[]] of a [const QList] requires a valid index; outside the
    bounds the access is a failed assertion (undefined behaviour in a release
    build).  A call through a pointer that is null is undefined behaviour
    as well.  Code that indexes a list or calls through a pointer that may
    be null therefore runs in [Access]. *)

Inductive Access (A : Type) : Type :=
| Ok (a : A)
| IndexOutOfRange (index : Z) (size : nat)
| NullPointer (callee : string).
Arguments Ok {A} a.
Arguments IndexOutOfRange {A} index size.
Arguments NullPointer {A} callee.

Definition bind {A B} (m : Access A) (k : A -> Access B) : Access B :=
  match m with
  | Ok a => k a
  | IndexOutOfRange i n => IndexOutOfRange i n
  | NullPointer callee => NullPointer callee
  end.

(** A call through the pointer [callee] returns, which is null unless
    [present]. *)
Definition deref (present : bool) (callee : string) : Access unit :=
  if present then Ok tt else NullPointer callee.

Notation "'let*' x ':=' m 'in' k" := (bind m (fun x => k))
  (at level 10, x name, m at level 100, k at level 200).

Module QList.

Definition at_ {A} (l : list A) (i : Z) : Access A :=
    if (i <? 0) then IndexOutOfRange i (length l)
    else match nth_error l (Z.to_nat i) with
         | Some a => Ok a
         | None => IndexOutOfRange i (length l)
         end.

Definition empty {A} (l : list A) : bool :=
    match l with [] => true | _ :: _ => false end.

End QList.

(** ** Solid: the processor devices of the host *)

Module Solid.

Inductive InstructionSet :=
  | IntelMmx | IntelSse | IntelSse2 | IntelSse3 | IntelSsse3
  | IntelSse4 | IntelSse41 | IntelSse42 | Amd3DNow | AltiVec.

Definition InstructionSet_eqb (a b : InstructionSet) : bool :=
    match a, b with
    | IntelMmx, IntelMmx | IntelSse, IntelSse | IntelSse2, IntelSse2
    | IntelSse3, IntelSse3 | IntelSsse3, IntelSsse3 | IntelSse4, IntelSse4
    | IntelSse41, IntelSse41 | IntelSse42, IntelSse42
    | Amd3DNow, Amd3DNow | AltiVec, AltiVec => true
    | _, _ => false
    end.

  (** [QFlags<InstructionSet>] as the list of the flags that are set. *)
Definition InstructionSets := list InstructionSet.

Definition testFlag (flags : InstructionSets) (f : InstructionSet) : bool :=
    existsb (InstructionSet_eqb f) flags.

Record Processor := { instructionSets : InstructionSets }.

  (** A device offers the processor interface or it does not:
      [is<Processor>()] and [as<Processor>()]. *)
Record Device := { as_Processor : option Processor }.

Definition is_Processor (d : Device) : bool :=
    match as_Processor d with Some _ => true | None => false end.

End Solid.

(** [isIntel], given the result of
    [Solid::Device::listFromType(Solid::DeviceInterface::Processor)].
    The first element is read before the list is tested for emptiness, in
    the order of the source. *)
Definition isIntel (list : list Solid.Device) : Access bool :=
  let* device := QList.at_ list 0 in
  if QList.empty list || negb (Solid.is_Processor device) then Ok false
  else
    match Solid.as_Processor device with
    | None => Ok false
    | Some processor =>
        let instructionSets := Solid.instructionSets processor in
        Ok (Solid.testFlag instructionSets Solid.IntelMmx
            || Solid.testFlag instructionSets Solid.IntelSse
            || Solid.testFlag instructionSets Solid.IntelSse2
            || Solid.testFlag instructionSets Solid.IntelSse3
            || Solid.testFlag instructionSets Solid.IntelSsse3
            || Solid.testFlag instructionSets Solid.IntelSse4
            || Solid.testFlag instructionSets Solid.IntelSse41
            || Solid.testFlag instructionSets Solid.IntelSse42)
    end.

(** ** Widgets

    Each widget class keeps the properties the page reads or writes.  The
    setters carry the names of the Qt methods the source calls. *)

Inductive QVariant :=
| Invalid
| StringData (s : string)
| IntData (n : Z).

Definition QVariant_eqb (a b : QVariant) : bool :=
  match a, b with
  | Invalid, Invalid => true
  | StringData x, StringData y => String.eqb x y
  | IntData x, IntData y => Z.eqb x y
  | _, _ => false
  end.

(** [QVariant::toString]. *)
Definition QVariant_toString (v : QVariant) : string :=
  match v with
  | Invalid => ""
  | StringData s => s
  | IntData n =>
      match n with
      | Zneg p => "-" +:+ QString.number (Npos p)
      | _ => QString.number (Z.to_N n)
      end
  end.

Module QPushButton.
Record t := { enabled : bool; checked : bool; text : string; icon : string }.
Definition setEnabled (b : bool) (w : t) : t :=
    {| enabled := b; checked := checked w; text := text w; icon := icon w |}.
Definition setChecked (b : bool) (w : t) : t :=
    {| enabled := enabled w; checked := b; text := text w; icon := icon w |}.
Definition setText (s : string) (w : t) : t :=
    {| enabled := enabled w; checked := checked w; text := s; icon := icon w |}.
Definition setIcon (s : string) (w : t) : t :=
    {| enabled := enabled w; checked := checked w; text := text w; icon := s |}.
End QPushButton.

Module KMessageWidget.
Record t := { text : string; visible : bool }.
Definition setText (s : string) (w : t) : t :=
    {| text := s; visible := visible w |}.
Definition setVisible (b : bool) (w : t) : t :=
    {| text := text w; visible := b |}.
Definition show := setVisible true.
Definition hide := setVisible false.
End KMessageWidget.

(** [QTextCursor::MoveOperation], as far as the page uses it. *)
Inductive MoveOperation := QTextCursor_Start | QTextCursor_End.

(** A text edit holds its text and its text cursor: [position] is where
    the cursor is, [anchor] where a selection starts (the two are equal
    when nothing is selected), both counted in characters from the start of
    the text. *)
Module QTextEdit.
Record t := {
    plainText : string;
    visible : bool;
    anchor : nat;
    position : nat
  }.

  (** [insertPlainText]: the text is inserted at the cursor and replaces
      the selection if there is one; the cursor is behind the inserted text
      afterwards. *)
Definition insertPlainText (s : string) (w : t) : t :=
    let first := Nat.min (anchor w) (position w) in
    let last := Nat.max (anchor w) (position w) in
    let text := plainText w in
    {| plainText := substring 0 first text +:+ s
                    +:+ substring last (String.length text - last) text;
       visible := visible w;
       anchor := (Nat.min first (String.length text) + String.length s)%nat;
       position := (Nat.min first (String.length text) + String.length s)%nat |}.

Definition clear (w : t) : t :=
    {| plainText := ""; visible := visible w; anchor := 0; position := 0 |}.

Definition setVisible (b : bool) (w : t) : t :=
    {| plainText := plainText w; visible := b;
       anchor := anchor w; position := position w |}.
Definition show := setVisible true.
Definition hide := setVisible false.

  (** [moveCursor] with the default mode, which moves the anchor too. *)
Definition moveCursor (operation : MoveOperation) (w : t) : t :=
    let target := match operation with
                  | QTextCursor_Start => 0%nat
                  | QTextCursor_End => String.length (plainText w)
                  end in
    {| plainText := plainText w; visible := visible w;
       anchor := target; position := target |}.

  (** The user clicks into the text or selects a part of it. *)
Definition setTextCursor (a p : nat) (w : t) : t :=
    {| plainText := plainText w; visible := visible w;
       anchor := Nat.min a (String.length (plainText w));
       position := Nat.min p (String.length (plainText w)) |}.
End QTextEdit.

(** A url requester built on a line edit: the working directory and the
    output file. *)
Module KUrlRequester.
Record t := { text : string; placeholderText : string }.
Definition setText (s : string) (w : t) : t :=
    {| text := s; placeholderText := placeholderText w |}.
Definition setPlaceholderText (s : string) (w : t) : t :=
    {| text := text w; placeholderText := s |}.
End KUrlRequester.

(** A combo box: the items (text and user data), the current index
    ([-1] when there is none) and, for an editable box, the text of its line
    edit. *)
Module QComboBox.
Record t := {
    items : list (string * QVariant);
    currentIndex : Z;
    editable : bool;
    lineEdit : string;
    enabled : bool
  }.

Definition count (w : t) : Z := Z.of_nat (length (items w)).

Definition item (w : t) (i : Z) : option (string * QVariant) :=
    if i <? 0 then None else nth_error (items w) (Z.to_nat i).

Definition itemText (w : t) (i : Z) : string :=
    match item w i with Some (s, _) => s | None => "" end.

Definition itemData (w : t) (i : Z) : QVariant :=
    match item w i with Some (_, d) => d | None => Invalid end.

Definition currentText (w : t) : string :=
    if editable w then lineEdit w else itemText w (currentIndex w).

Definition currentData (w : t) : QVariant := itemData w (currentIndex w).

  (** Index of the first item that satisfies [p], [-1] when none does. *)
Fixpoint find (p : string * QVariant -> bool) (l : list (string * QVariant))
    : Z :=
    match l with
    | [] => -1
    | x :: l' => if p x then 0 else
                   let r := find p l' in if r <? 0 then -1 else r + 1
    end.

  (** [findText] with the default flags: exact, case sensitive. *)
Definition findText (w : t) (s : string) : Z :=
    find (fun x => String.eqb (fst x) s) (items w).

Definition findData (w : t) (d : QVariant) : Z :=
    find (fun x => QVariant_eqb (snd x) d) (items w).

Definition with_items (l : list (string * QVariant)) (cur : Z) (w : t) : t :=
    {| items := l; currentIndex := cur; editable := editable w;
       lineEdit := if editable w
                   then match (if cur <? 0 then None
                               else nth_error l (Z.to_nat cur)) with
                        | Some (s, _) => s
                        | None => ""
                        end
                   else lineEdit w;
       enabled := enabled w |}.

Definition setCurrentIndex (i : Z) (w : t) : t :=
    if (0 <=? i) && (i <? count w) then with_items (items w) i w
    else with_items (items w) (-1) w.

  (** The current item follows the rows: removing a row before it shifts it,
      and the line edit is set to the text of the current item again;
      removing the current row selects its neighbour. *)
Definition removeItem (i : Z) (w : t) : t :=
    if (0 <=? i) && (i <? count w) then
      let l := delete (Z.to_nat i) (items w) in
      let cur := currentIndex w in
      if i <? cur then with_items l (cur - 1) w
      else if i =? cur then
        with_items l (Z.min (Z.of_nat (length l) - 1) cur) w
      else
        {| items := l; currentIndex := cur; editable := editable w;
           lineEdit := lineEdit w; enabled := enabled w |}
    else w.

  (** [insertItem]: the index is clamped to the item count; the first item
      of an empty box becomes current. *)
Definition insertItemData (i : Z) (s : string) (d : QVariant) (w : t) : t :=
    let n := Z.to_nat (Z.max 0 (Z.min i (count w))) in
    let l := (take n (items w) ++ (s, d) :: drop n (items w))%list in
    match items w with
    | [] => with_items l 0 w
    | _ :: _ =>
        {| items := l;
           currentIndex := if (Z.of_nat n <=? currentIndex w)
                           then currentIndex w + 1 else currentIndex w;
           editable := editable w; lineEdit := lineEdit w;
           enabled := enabled w |}
    end.

Definition insertItem (i : Z) (s : string) (w : t) : t :=
    insertItemData i s Invalid w.

Definition addItemData (s : string) (d : QVariant) (w : t) : t :=
    insertItemData (count w) s d w.

Definition addItem (s : string) (w : t) : t := addItemData s Invalid w.

Definition clear (w : t) : t := with_items [] (-1) w.

Definition setEnabled (b : bool) (w : t) : t :=
    {| items := items w; currentIndex := currentIndex w;
       editable := editable w; lineEdit := lineEdit w; enabled := b |}.

Definition setEditable (b : bool) (w : t) : t :=
    {| items := items w; currentIndex := currentIndex w;
       editable := b; lineEdit := lineEdit w; enabled := enabled w |}.

  (** The user (or a completion) replaces the text of the line edit. *)
Definition setEditText (s : string) (w : t) : t :=
    {| items := items w; currentIndex := currentIndex w;
       editable := editable w; lineEdit := s; enabled := enabled w |}.

Definition texts (w : t) : list string := map fst (items w).
End QComboBox.

(** ** The shared configuration

    [KSharedConfig::openConfig()] is one store for the whole application.
    An entry is addressed by the path of its group and its key. *)

Inductive ConfigValue :=
| Entry (s : string)
| EntryList (l : list string).

Abbreviation KConfig := (gmap (list string * string) ConfigValue).

Definition KConfigGroup := list string.

Definition config : KConfigGroup := ["RecordPage"].

Definition applicationConfig (application : string) : KConfigGroup :=
  (config ++ ["Application " +:+ application])%list.

Definition writeEntry (group : KConfigGroup) (key : string) (v : ConfigValue)
  (c : KConfig) : KConfig :=
  <[(group, key) := v]> c.

Definition readEntry (group : KConfigGroup) (key : string) (default : string)
  (c : KConfig) : string :=
  match c !! (group, key) with
  | Some (Entry s) => s
  | Some (EntryList l) => String.concat "," l
  | None => default
  end.

Definition readListEntry (group : KConfigGroup) (key : string)
  (default : list string) (c : KConfig) : list string :=
  match c !! (group, key) with
  | Some (EntryList l) => l
  | Some (Entry s) => [s]
  | None => default
  end.

(** ** Combo box history *)

Definition MAX_COMBO_ENTRIES : Z := 10.

(** The texts an editable combo box announces through [textChanged] of its
    line edit when an operation takes it from [before] to [after]. *)
Definition textChanged (before after : QComboBox.t) : list string :=
  if String.eqb (QComboBox.lineEdit before) (QComboBox.lineEdit after)
  then [] else [QComboBox.lineEdit after].

(** [rememberCombobox].  The loop that collects the values to store runs
    over the indices [0 .. min(MAX_COMBO_ENTRIES, count) - 1].  Besides the
    configuration and the combo box the result lists what the line edit of
    the box announced on the way, for the slots connected to it. *)
Definition rememberCombobox (group : KConfigGroup) (entryName value : string)
  (c : KConfig) (combo : QComboBox.t) : KConfig * QComboBox.t * list string :=
  (* remove the value if it exists already *)
  let idx := QComboBox.findText combo value in
  let combo1 := if negb (idx =? -1) then QComboBox.removeItem idx combo
                else combo in
  (* insert value on front *)
  let combo2 := QComboBox.insertItem 0 value combo1 in
  let combo3 := QComboBox.setCurrentIndex 0 combo2 in
  (* store the values in the config *)
  let c_ := Z.min MAX_COMBO_ENTRIES (QComboBox.count combo3) in
  let values :=
    map (fun i => QComboBox.itemText combo3 (Z.of_nat i))
        (seq 0 (Z.to_nat c_)) in
  (writeEntry group entryName (EntryList values) c, combo3,
   (textChanged combo combo1 ++ textChanged combo1 combo2
    ++ textChanged combo2 combo3)%list).

(** [restoreCombobox]. *)
Definition restoreCombobox (group : KConfigGroup) (entryName : string)
  (defaults : list string) (c : KConfig) (combo : QComboBox.t) : QComboBox.t :=
  let combo := QComboBox.clear combo in
  let values := readListEntry group entryName defaults c in
  fold_left (fun combo application => QComboBox.addItem application combo)
            values combo.

(** ** What the page asks of its platform *)

Record QFileInfo := {
  exists_ : bool;
  isFile : bool;
  isDir : bool;
  isExecutable : bool;
  isWritable : bool;
  path : string;
  absolutePath : string;
  absoluteFilePath : string
}.

Record QUrl := {
  isValid : bool;
  (** the local path, empty when the url does not name a local file *)
  toLocalFile : string
}.

Record Platform := {
  (** [KShell::tildeExpand] *)
  tildeExpand : string -> string;
  (** [KShell::splitArgs] *)
  splitArgs : string -> list string;
  (** [QStandardPaths::findExecutable], empty when nothing is found *)
  findExecutable : string -> string;
  (** [QFileInfo(path)] *)
  fileInfo : string -> QFileInfo;
  (** [KUrlRequester::url()] for the text the requester holds *)
  url : string -> QUrl;
  (** [QDir::currentPath()] *)
  currentPath : string
}.

(** ** Processes

    [processmodel.h] and [processmodel.cpp] are not part of the sources; the
    process records, the table and its merge follow the specification. *)

(** Modelled from the spec: the states of a process, spec section 3
    (the header that declares them is missing). *)
Inductive ProcState := Running | Sleeping | Zombie | OtherState.

(** Modelled from the spec: a process record with the fields of spec
    section 3 (the declaration of [ProcData] is missing). *)
Record ProcData := { pid : N; name : string; state : ProcState }.

(** Modelled from the spec: the process table and a snapshot are ordered
    lists of records, keyed by process id (the declaration of
    [ProcDataList] is missing). *)
Definition ProcDataList := list ProcData.

Definition hasPid (p : N) (l : ProcDataList) : bool :=
  existsb (fun r => N.eqb (pid r) p) l.

(** Modelled from the spec: one incoming record is applied to the table; a
    known process id has its record updated in place, a new one is
    inserted (at the end: the row order is a matter of presentation). *)
Definition upsert (t : ProcDataList) (r : ProcData) : ProcDataList :=
  if hasPid (pid r) t
  then map (fun old => if N.eqb (pid old) (pid r) then r else old) t
  else (t ++ [r])%list.

(** Modelled from the spec: [ProcessModel::mergeProcesses] of spec section 3:
    update or insert every incoming record, then remove the rows whose
    process id is absent from the snapshot. *)
Definition mergeProcesses (incoming t : ProcDataList) : ProcDataList :=
  List.filter (fun old => hasPid (pid old) incoming) (fold_left upsert incoming t).

(** Modelled from the spec: the selection is bound to the identity of a row,
    its process id; the selection of a removed row is dropped and the
    selection of the rows that stay is kept (spec section 8). *)
Definition mergeSelection (incoming : ProcDataList) (sel : list N) : list N :=
  List.filter (fun p => hasPid p incoming) sel.

(** Modelled from the spec: the columns of the process table are the per-row
    fields of spec section 4.2; the process id is column 0, as the source
    reads it. *)
Definition ProcessModel_columns : list Z := [0; 1; 2].

Record QModelIndex := { row : N; column : Z }.

(** [QModelIndex::data(ProcessModel::PIDRole)]: the process id of the row. *)
Definition PIDRole (item : QModelIndex) : QVariant :=
  IntData (Z.of_N (row item)).

(** [QItemSelectionModel::selectedIndexes] under
    [QAbstractItemView::SelectRows]: every selected row contributes the
    index of each of its columns. *)
Definition selectedIndexes (sel : list N) : list QModelIndex :=
  flat_map (fun p => map (fun c => {| row := p; column := c |})
                         ProcessModel_columns) sel.

(** ** The recorder

    [PerfRecord] is a collaborator; the page state keeps the calls made on
    it, in order. *)
Inductive PerfRecordCall :=
| record_launch (perfOptions : list string) (outputPath exePath : string)
    (exeOptions : list string) (workingDirectory : string)
| record_attach (perfOptions : list string) (outputPath : string)
    (pids : list string)
| stopRecording.

(** ** Snapshot requests

    A [Future] is one call of [processList] running on the thread pool; it
    was given the process list of that moment.  The watcher follows the
    future it was last set to and holds its result once that has finished. *)
Record Future := { futureId : nat; previous : ProcDataList }.

Record QFutureWatcher := { future : option nat; result : ProcDataList }.

(** ** The page *)

Inductive Page := launchAppPage | attachAppPage.

Definition Page_eqb (a b : Page) : bool :=
  match a, b with
  | launchAppPage, launchAppPage | attachAppPage, attachAppPage => true
  | _, _ => false
  end.

(** Modelled from the spec: [recordpage.h] is not part of the sources; the
    two record types are numbered in the order in which the constructor
    adds them to the mode selector, so that the index of an entry is its
    record type. *)
Definition LaunchApplication : Z := 0.

(** Modelled from the spec: the second record type of [recordpage.h], see
    [LaunchApplication]. *)
Definition AttachToProcess : Z := 1.

(** The widgets of [Ui::RecordPage] the page works with. *)
Module Ui.
Record t := {
    stackedWidget : Page;
    recordTypeComboBox : QComboBox.t;
    startRecordingButton : QPushButton.t;
    viewPerfRecordResultsButton : QPushButton.t;
    applicationRecordErrorMessage : KMessageWidget.t;
    applicationName : QComboBox.t;
    applicationParametersBox : string;
    workingDirectory : KUrlRequester.t;
    outputFile : KUrlRequester.t;
    eventTypeBox : QComboBox.t;
    callGraphComboBox : QComboBox.t;
    perfResultsTextEdit : QTextEdit.t;
    perfResultsLabel : bool
  }.

Definition on_stackedWidget (g : Page -> Page) (w : t) : t :=
    {| stackedWidget := g (stackedWidget w);
       recordTypeComboBox := recordTypeComboBox w;
       startRecordingButton := startRecordingButton w;
       viewPerfRecordResultsButton := viewPerfRecordResultsButton w;
       applicationRecordErrorMessage := applicationRecordErrorMessage w;
       applicationName := applicationName w;
       applicationParametersBox := applicationParametersBox w;
       workingDirectory := workingDirectory w; outputFile := outputFile w;
       eventTypeBox := eventTypeBox w;
       callGraphComboBox := callGraphComboBox w;
       perfResultsTextEdit := perfResultsTextEdit w;
       perfResultsLabel := perfResultsLabel w |}.
Definition on_recordTypeComboBox (g : QComboBox.t -> QComboBox.t) (w : t) : t :=
    {| stackedWidget := stackedWidget w;
       recordTypeComboBox := g (recordTypeComboBox w);
       startRecordingButton := startRecordingButton w;
       viewPerfRecordResultsButton := viewPerfRecordResultsButton w;
       applicationRecordErrorMessage := applicationRecordErrorMessage w;
       applicationName := applicationName w;
       applicationParametersBox := applicationParametersBox w;
       workingDirectory := workingDirectory w; outputFile := outputFile w;
       eventTypeBox := eventTypeBox w;
       callGraphComboBox := callGraphComboBox w;
       perfResultsTextEdit := perfResultsTextEdit w;
       perfResultsLabel := perfResultsLabel w |}.
Definition on_startRecordingButton (g : QPushButton.t -> QPushButton.t) (w : t) : t :=
    {| stackedWidget := stackedWidget w;
       recordTypeComboBox := recordTypeComboBox w;
       startRecordingButton := g (startRecordingButton w);
       viewPerfRecordResultsButton := viewPerfRecordResultsButton w;
       applicationRecordErrorMessage := applicationRecordErrorMessage w;
       applicationName := applicationName w;
       applicationParametersBox := applicationParametersBox w;
       workingDirectory := workingDirectory w; outputFile := outputFile w;
       eventTypeBox := eventTypeBox w;
       callGraphComboBox := callGraphComboBox w;
       perfResultsTextEdit := perfResultsTextEdit w;
       perfResultsLabel := perfResultsLabel w |}.
Definition on_viewPerfRecordResultsButton (g : QPushButton.t -> QPushButton.t) (w : t) : t :=
    {| stackedWidget := stackedWidget w;
       recordTypeComboBox := recordTypeComboBox w;
       startRecordingButton := startRecordingButton w;
       viewPerfRecordResultsButton := g (viewPerfRecordResultsButton w);
       applicationRecordErrorMessage := applicationRecordErrorMessage w;
       applicationName := applicationName w;
       applicationParametersBox := applicationParametersBox w;
       workingDirectory := workingDirectory w; outputFile := outputFile w;
       eventTypeBox := eventTypeBox w;
       callGraphComboBox := callGraphComboBox w;
       perfResultsTextEdit := perfResultsTextEdit w;
       perfResultsLabel := perfResultsLabel w |}.
Definition on_applicationRecordErrorMessage (g : KMessageWidget.t -> KMessageWidget.t) (w : t) : t :=
    {| stackedWidget := stackedWidget w;
       recordTypeComboBox := recordTypeComboBox w;
       startRecordingButton := startRecordingButton w;
       viewPerfRecordResultsButton := viewPerfRecordResultsButton w;
       applicationRecordErrorMessage := g (applicationRecordErrorMessage w);
       applicationName := applicationName w;
       applicationParametersBox := applicationParametersBox w;
       workingDirectory := workingDirectory w; outputFile := outputFile w;
       eventTypeBox := eventTypeBox w;
       callGraphComboBox := callGraphComboBox w;
       perfResultsTextEdit := perfResultsTextEdit w;
       perfResultsLabel := perfResultsLabel w |}.
Definition on_applicationName (g : QComboBox.t -> QComboBox.t) (w : t) : t :=
    {| stackedWidget := stackedWidget w;
       recordTypeComboBox := recordTypeComboBox w;
       startRecordingButton := startRecordingButton w;
       viewPerfRecordResultsButton := viewPerfRecordResultsButton w;
       applicationRecordErrorMessage := applicationRecordErrorMessage w;
       applicationName := g (applicationName w);
       applicationParametersBox := applicationParametersBox w;
       workingDirectory := workingDirectory w; outputFile := outputFile w;
       eventTypeBox := eventTypeBox w;
       callGraphComboBox := callGraphComboBox w;
       perfResultsTextEdit := perfResultsTextEdit w;
       perfResultsLabel := perfResultsLabel w |}.
Definition on_applicationParametersBox (g : string -> string) (w : t) : t :=
    {| stackedWidget := stackedWidget w;
       recordTypeComboBox := recordTypeComboBox w;
       startRecordingButton := startRecordingButton w;
       viewPerfRecordResultsButton := viewPerfRecordResultsButton w;
       applicationRecordErrorMessage := applicationRecordErrorMessage w;
       applicationName := applicationName w;
       applicationParametersBox := g (applicationParametersBox w);
       workingDirectory := workingDirectory w; outputFile := outputFile w;
       eventTypeBox := eventTypeBox w;
       callGraphComboBox := callGraphComboBox w;
       perfResultsTextEdit := perfResultsTextEdit w;
       perfResultsLabel := perfResultsLabel w |}.
Definition on_workingDirectory (g : KUrlRequester.t -> KUrlRequester.t) (w : t) : t :=
    {| stackedWidget := stackedWidget w;
       recordTypeComboBox := recordTypeComboBox w;
       startRecordingButton := startRecordingButton w;
       viewPerfRecordResultsButton := viewPerfRecordResultsButton w;
       applicationRecordErrorMessage := applicationRecordErrorMessage w;
       applicationName := applicationName w;
       applicationParametersBox := applicationParametersBox w;
       workingDirectory := g (workingDirectory w);
       outputFile := outputFile w; eventTypeBox := eventTypeBox w;
       callGraphComboBox := callGraphComboBox w;
       perfResultsTextEdit := perfResultsTextEdit w;
       perfResultsLabel := perfResultsLabel w |}.
Definition on_outputFile (g : KUrlRequester.t -> KUrlRequester.t) (w : t) : t :=
    {| stackedWidget := stackedWidget w;
       recordTypeComboBox := recordTypeComboBox w;
       startRecordingButton := startRecordingButton w;
       viewPerfRecordResultsButton := viewPerfRecordResultsButton w;
       applicationRecordErrorMessage := applicationRecordErrorMessage w;
       applicationName := applicationName w;
       applicationParametersBox := applicationParametersBox w;
       workingDirectory := workingDirectory w;
       outputFile := g (outputFile w); eventTypeBox := eventTypeBox w;
       callGraphComboBox := callGraphComboBox w;
       perfResultsTextEdit := perfResultsTextEdit w;
       perfResultsLabel := perfResultsLabel w |}.
Definition on_eventTypeBox (g : QComboBox.t -> QComboBox.t) (w : t) : t :=
    {| stackedWidget := stackedWidget w;
       recordTypeComboBox := recordTypeComboBox w;
       startRecordingButton := startRecordingButton w;
       viewPerfRecordResultsButton := viewPerfRecordResultsButton w;
       applicationRecordErrorMessage := applicationRecordErrorMessage w;
       applicationName := applicationName w;
       applicationParametersBox := applicationParametersBox w;
       workingDirectory := workingDirectory w; outputFile := outputFile w;
       eventTypeBox := g (eventTypeBox w);
       callGraphComboBox := callGraphComboBox w;
       perfResultsTextEdit := perfResultsTextEdit w;
       perfResultsLabel := perfResultsLabel w |}.
Definition on_callGraphComboBox (g : QComboBox.t -> QComboBox.t) (w : t) : t :=
    {| stackedWidget := stackedWidget w;
       recordTypeComboBox := recordTypeComboBox w;
       startRecordingButton := startRecordingButton w;
       viewPerfRecordResultsButton := viewPerfRecordResultsButton w;
       applicationRecordErrorMessage := applicationRecordErrorMessage w;
       applicationName := applicationName w;
       applicationParametersBox := applicationParametersBox w;
       workingDirectory := workingDirectory w; outputFile := outputFile w;
       eventTypeBox := eventTypeBox w;
       callGraphComboBox := g (callGraphComboBox w);
       perfResultsTextEdit := perfResultsTextEdit w;
       perfResultsLabel := perfResultsLabel w |}.
Definition on_perfResultsTextEdit (g : QTextEdit.t -> QTextEdit.t) (w : t) : t :=
    {| stackedWidget := stackedWidget w;
       recordTypeComboBox := recordTypeComboBox w;
       startRecordingButton := startRecordingButton w;
       viewPerfRecordResultsButton := viewPerfRecordResultsButton w;
       applicationRecordErrorMessage := applicationRecordErrorMessage w;
       applicationName := applicationName w;
       applicationParametersBox := applicationParametersBox w;
       workingDirectory := workingDirectory w; outputFile := outputFile w;
       eventTypeBox := eventTypeBox w;
       callGraphComboBox := callGraphComboBox w;
       perfResultsTextEdit := g (perfResultsTextEdit w);
       perfResultsLabel := perfResultsLabel w |}.
Definition on_perfResultsLabel (g : bool -> bool) (w : t) : t :=
    {| stackedWidget := stackedWidget w;
       recordTypeComboBox := recordTypeComboBox w;
       startRecordingButton := startRecordingButton w;
       viewPerfRecordResultsButton := viewPerfRecordResultsButton w;
       applicationRecordErrorMessage := applicationRecordErrorMessage w;
       applicationName := applicationName w;
       applicationParametersBox := applicationParametersBox w;
       workingDirectory := workingDirectory w; outputFile := outputFile w;
       eventTypeBox := eventTypeBox w;
       callGraphComboBox := callGraphComboBox w;
       perfResultsTextEdit := perfResultsTextEdit w;
       perfResultsLabel := g (perfResultsLabel w) |}.
End Ui.

(** The page object with its members, and the parts of the application
    around it that its slots reach: the shared configuration, the thread
    pool with the snapshot requests in flight, the armed single-shot
    timers (by deadline, in milliseconds) and the clock. *)
Module RecordPage.
Record t := {
    ui : Ui.t;
    windowTitle : string;
    m_resultsFile : string;
    m_processModel : ProcDataList;
    selectionModel : list N;
    m_watcher : QFutureWatcher;
    m_perfRecord : list PerfRecordCall;
    sharedConfig : KConfig;
    threadPool : list Future;
    futuresStarted : nat;
    timers : list N;
    clock : N
  }.

Definition on_ui (g : Ui.t -> Ui.t) (w : t) : t :=
    {| ui := g (ui w); windowTitle := windowTitle w;
       m_resultsFile := m_resultsFile w; m_processModel := m_processModel w;
       selectionModel := selectionModel w; m_watcher := m_watcher w;
       m_perfRecord := m_perfRecord w; sharedConfig := sharedConfig w;
       threadPool := threadPool w; futuresStarted := futuresStarted w;
       timers := timers w; clock := clock w |}.
Definition on_windowTitle (g : string -> string) (w : t) : t :=
    {| ui := ui w; windowTitle := g (windowTitle w);
       m_resultsFile := m_resultsFile w; m_processModel := m_processModel w;
       selectionModel := selectionModel w; m_watcher := m_watcher w;
       m_perfRecord := m_perfRecord w; sharedConfig := sharedConfig w;
       threadPool := threadPool w; futuresStarted := futuresStarted w;
       timers := timers w; clock := clock w |}.
Definition on_m_resultsFile (g : string -> string) (w : t) : t :=
    {| ui := ui w; windowTitle := windowTitle w;
       m_resultsFile := g (m_resultsFile w);
       m_processModel := m_processModel w;
       selectionModel := selectionModel w; m_watcher := m_watcher w;
       m_perfRecord := m_perfRecord w; sharedConfig := sharedConfig w;
       threadPool := threadPool w; futuresStarted := futuresStarted w;
       timers := timers w; clock := clock w |}.
Definition on_m_processModel (g : ProcDataList -> ProcDataList) (w : t) : t :=
    {| ui := ui w; windowTitle := windowTitle w;
       m_resultsFile := m_resultsFile w;
       m_processModel := g (m_processModel w);
       selectionModel := selectionModel w; m_watcher := m_watcher w;
       m_perfRecord := m_perfRecord w; sharedConfig := sharedConfig w;
       threadPool := threadPool w; futuresStarted := futuresStarted w;
       timers := timers w; clock := clock w |}.
Definition on_selectionModel (g : list N -> list N) (w : t) : t :=
    {| ui := ui w; windowTitle := windowTitle w;
       m_resultsFile := m_resultsFile w; m_processModel := m_processModel w;
       selectionModel := g (selectionModel w); m_watcher := m_watcher w;
       m_perfRecord := m_perfRecord w; sharedConfig := sharedConfig w;
       threadPool := threadPool w; futuresStarted := futuresStarted w;
       timers := timers w; clock := clock w |}.
Definition on_m_watcher (g : QFutureWatcher -> QFutureWatcher) (w : t) : t :=
    {| ui := ui w; windowTitle := windowTitle w;
       m_resultsFile := m_resultsFile w; m_processModel := m_processModel w;
       selectionModel := selectionModel w; m_watcher := g (m_watcher w);
       m_perfRecord := m_perfRecord w; sharedConfig := sharedConfig w;
       threadPool := threadPool w; futuresStarted := futuresStarted w;
       timers := timers w; clock := clock w |}.
Definition on_m_perfRecord (g : list PerfRecordCall -> list PerfRecordCall) (w : t) : t :=
    {| ui := ui w; windowTitle := windowTitle w;
       m_resultsFile := m_resultsFile w; m_processModel := m_processModel w;
       selectionModel := selectionModel w; m_watcher := m_watcher w;
       m_perfRecord := g (m_perfRecord w); sharedConfig := sharedConfig w;
       threadPool := threadPool w; futuresStarted := futuresStarted w;
       timers := timers w; clock := clock w |}.
Definition on_sharedConfig (g : KConfig -> KConfig) (w : t) : t :=
    {| ui := ui w; windowTitle := windowTitle w;
       m_resultsFile := m_resultsFile w; m_processModel := m_processModel w;
       selectionModel := selectionModel w; m_watcher := m_watcher w;
       m_perfRecord := m_perfRecord w; sharedConfig := g (sharedConfig w);
       threadPool := threadPool w; futuresStarted := futuresStarted w;
       timers := timers w; clock := clock w |}.
Definition on_threadPool (g : list Future -> list Future) (w : t) : t :=
    {| ui := ui w; windowTitle := windowTitle w;
       m_resultsFile := m_resultsFile w; m_processModel := m_processModel w;
       selectionModel := selectionModel w; m_watcher := m_watcher w;
       m_perfRecord := m_perfRecord w; sharedConfig := sharedConfig w;
       threadPool := g (threadPool w); futuresStarted := futuresStarted w;
       timers := timers w; clock := clock w |}.
Definition on_futuresStarted (g : nat -> nat) (w : t) : t :=
    {| ui := ui w; windowTitle := windowTitle w;
       m_resultsFile := m_resultsFile w; m_processModel := m_processModel w;
       selectionModel := selectionModel w; m_watcher := m_watcher w;
       m_perfRecord := m_perfRecord w; sharedConfig := sharedConfig w;
       threadPool := threadPool w; futuresStarted := g (futuresStarted w);
       timers := timers w; clock := clock w |}.
Definition on_timers (g : list N -> list N) (w : t) : t :=
    {| ui := ui w; windowTitle := windowTitle w;
       m_resultsFile := m_resultsFile w; m_processModel := m_processModel w;
       selectionModel := selectionModel w; m_watcher := m_watcher w;
       m_perfRecord := m_perfRecord w; sharedConfig := sharedConfig w;
       threadPool := threadPool w; futuresStarted := futuresStarted w;
       timers := g (timers w); clock := clock w |}.
Definition on_clock (g : N -> N) (w : t) : t :=
    {| ui := ui w; windowTitle := windowTitle w;
       m_resultsFile := m_resultsFile w; m_processModel := m_processModel w;
       selectionModel := selectionModel w; m_watcher := m_watcher w;
       m_perfRecord := m_perfRecord w; sharedConfig := sharedConfig w;
       threadPool := threadPool w; futuresStarted := futuresStarted w;
       timers := timers w; clock := g (clock w) |}.
End RecordPage.

(** ** The slots of the page *)

Definition errorText (s : RecordPage.t) : string :=
  KMessageWidget.text (Ui.applicationRecordErrorMessage (RecordPage.ui s)).

Definition setErrorText (msg : string) : RecordPage.t -> RecordPage.t :=
  RecordPage.on_ui
    (Ui.on_applicationRecordErrorMessage (KMessageWidget.setText msg)).

(** [ui->applicationRecordErrorMessage->setVisible(!text().isEmpty())] *)
Definition showErrorIfAny : RecordPage.t -> RecordPage.t :=
  RecordPage.on_ui
    (Ui.on_applicationRecordErrorMessage
       (fun w => KMessageWidget.setVisible
                   (negb (QString.isEmpty (KMessageWidget.text w))) w)).

(** [updateStartRecordingButtonState] *)
Definition updateStartRecordingButtonState (P : Platform) (s : RecordPage.t)
  : RecordPage.t :=
  let u := RecordPage.ui s in
  let enabled :=
    if Page_eqb (Ui.stackedWidget u) launchAppPage
    then isValid (url P (QComboBox.currentText (Ui.applicationName u)))
    else negb (QList.empty (RecordPage.selectionModel s)) in
  let enabled := enabled && QString.isEmpty (errorText s) in
  RecordPage.on_ui
    (Ui.on_startRecordingButton (QPushButton.setEnabled enabled)) s.

(** [RecordPage::onWorkingDirectoryNameChanged] *)
Definition onWorkingDirectoryNameChanged (P : Platform) (folderPath : string)
  (s : RecordPage.t) : RecordPage.t :=
  let folder :=
    fileInfo P (toLocalFile
      (url P (KUrlRequester.text (Ui.workingDirectory (RecordPage.ui s))))) in
  let s :=
    if negb (exists_ folder) then
      setErrorText (QString.arg
        (QString.tr "Working directory folder cannot be found: %1") folderPath) s
    else if negb (isDir folder) then
      setErrorText (QString.arg
        (QString.tr "Working directory folder is not valid: %1") folderPath) s
    else if negb (isWritable folder) then
      setErrorText (QString.arg
        (QString.tr "Working directory folder is not writable: %1") folderPath) s
    else setErrorText "" s in
  let s := showErrorIfAny s in
  updateStartRecordingButtonState P s.

(** [ui->workingDirectory->setText]: the line edit announces a text that
    differs from the one it held, and the page has connected
    [onWorkingDirectoryNameChanged] to that. *)
Definition workingDirectory_setText (P : Platform) (text : string)
  (s : RecordPage.t) : RecordPage.t :=
  if String.eqb (KUrlRequester.text (Ui.workingDirectory (RecordPage.ui s))) text
  then s
  else onWorkingDirectoryNameChanged P text
         (RecordPage.on_ui
            (Ui.on_workingDirectory (KUrlRequester.setText text)) s).

(** [RecordPage::onApplicationNameChanged] *)
Definition onApplicationNameChanged (P : Platform) (filePath : string)
  (s : RecordPage.t) : RecordPage.t :=
  let application := fileInfo P (findExecutable P (tildeExpand P filePath)) in
  let s :=
    if negb (exists_ application) then
      setErrorText (QString.arg
        (QString.tr "Application file cannot be found: %1") filePath) s
    else if negb (isFile application) then
      setErrorText (QString.arg
        (QString.tr "Application file is not valid: %1") filePath) s
    else if negb (isExecutable application) then
      setErrorText (QString.arg
        (QString.tr "Application file is not executable: %1") filePath) s
    else
      let config := applicationConfig filePath in
      let s := workingDirectory_setText P
                 (readEntry config "workingDir" "" (RecordPage.sharedConfig s)) s in
      let s := RecordPage.on_ui
                 (Ui.on_applicationParametersBox
                    (fun _ => readEntry config "params" ""
                                (RecordPage.sharedConfig s))) s in
      let s := RecordPage.on_ui
                 (Ui.on_workingDirectory
                    (KUrlRequester.setPlaceholderText (path application))) s in
      setErrorText "" s in
  let s := showErrorIfAny s in
  updateStartRecordingButtonState P s.

(** [RecordPage::onOutputFileNameChanged] *)
Definition onOutputFileNameChanged (P : Platform) (filePath : string)
  (s : RecordPage.t) : RecordPage.t :=
  let perfDataExtension := ".data" in
  let file :=
    fileInfo P (toLocalFile
      (url P (KUrlRequester.text (Ui.outputFile (RecordPage.ui s))))) in
  let folder := fileInfo P (absolutePath file) in
  let s :=
    if negb (exists_ folder) then
      setErrorText (QString.arg
        (QString.tr "Output file directory folder cannot be found: %1")
        (path folder)) s
    else if negb (isDir folder) then
      setErrorText (QString.arg
        (QString.tr "Output file directory folder is not valid: %1")
        (path folder)) s
    else if negb (isWritable folder) then
      setErrorText (QString.arg
        (QString.tr "Output file directory folder is not writable: %1")
        (path folder)) s
    else if negb (QString.endsWith (absoluteFilePath file) perfDataExtension) then
      setErrorText (QString.arg
        (QString.tr "Output file must end with %1") perfDataExtension) s
    else setErrorText "" s in
  let s := showErrorIfAny s in
  updateStartRecordingButtonState P s.

(** [ui->outputFile->setText], with [onOutputFileNameChanged] connected to
    the text of the requester. *)
Definition outputFile_setText (P : Platform) (text : string)
  (s : RecordPage.t) : RecordPage.t :=
  if String.eqb (KUrlRequester.text (Ui.outputFile (RecordPage.ui s))) text
  then s
  else onOutputFileNameChanged P text
         (RecordPage.on_ui (Ui.on_outputFile (KUrlRequester.setText text)) s).

(** [RecordPage::onOutputFileNameSelected] *)
Definition onOutputFileNameSelected (P : Platform) (filePath : string)
  (s : RecordPage.t) : RecordPage.t :=
  let perfDataExtension := ".data" in
  if negb (QString.endsWith filePath perfDataExtension)
  then outputFile_setText P (filePath +:+ perfDataExtension) s
  else s.

(** [RecordPage::onOutputFileUrlChanged] *)
Definition onOutputFileUrlChanged (P : Platform) (fileUrl : QUrl)
  (s : RecordPage.t) : RecordPage.t :=
  onOutputFileNameSelected P (toLocalFile fileUrl) s.

(** [RecordPage::showRecordPage] *)
Definition showRecordPage (s : RecordPage.t) : RecordPage.t :=
  let s := RecordPage.on_windowTitle (fun _ => QString.tr "Hotspot - Record") s in
  let s := RecordPage.on_m_resultsFile (fun _ => "") s in
  let s := RecordPage.on_ui
             (Ui.on_applicationRecordErrorMessage KMessageWidget.hide) s in
  let s := RecordPage.on_ui (Ui.on_perfResultsTextEdit QTextEdit.clear) s in
  let s := RecordPage.on_ui (Ui.on_perfResultsTextEdit QTextEdit.hide) s in
  let s := RecordPage.on_ui (Ui.on_perfResultsLabel (fun _ => false)) s in
  RecordPage.on_ui
    (Ui.on_viewPerfRecordResultsButton (QPushButton.setEnabled false)) s.

(** [rememberApplication].  The slot connected to the text of the
    application combo box runs for every text the box announces; it reads
    neither the combo box items nor the [applications] entry, so running it
    once [rememberCombobox] has returned leaves the same state as running it
    in between. *)
Definition rememberApplication (P : Platform)
  (application appParameters workingDir : string) (s : RecordPage.t)
  : RecordPage.t :=
  let options := applicationConfig application in
  let s := RecordPage.on_sharedConfig
             (writeEntry options "params" (Entry appParameters)) s in
  let s := RecordPage.on_sharedConfig
             (writeEntry options "workingDir" (Entry workingDir)) s in
  let '(c, combo, announced) :=
    rememberCombobox config "applications" application
      (RecordPage.sharedConfig s) (Ui.applicationName (RecordPage.ui s)) in
  let s := RecordPage.on_sharedConfig (fun _ => c) s in
  let s := RecordPage.on_ui (Ui.on_applicationName (fun _ => combo)) s in
  fold_left (fun s text => onApplicationNameChanged P text s) announced s.

(** The process ids handed to the recorder: the loop over the selected
    indexes of [onStartRecordingButtonClicked]. *)
Definition selectedPids (indexes : list QModelIndex) : list string :=
  fold_left
    (fun pids item =>
       if column item =? 0
       then (pids ++ [QVariant_toString (PIDRole item)])%list
       else pids)
    indexes [].

(** [RecordPage::onStartRecordingButtonClicked] *)
Definition onStartRecordingButtonClicked (P : Platform) (checked : bool)
  (s : RecordPage.t) : RecordPage.t :=
  if checked then
    let s := showRecordPage s in
    let s := RecordPage.on_ui
               (Ui.on_startRecordingButton
                  (QPushButton.setIcon "media-playback-stop")) s in
    let s := RecordPage.on_ui
               (Ui.on_startRecordingButton
                  (QPushButton.setText (QString.tr "Stop Recording"))) s in
    let perfOptions : list string := [] in
    let callGraphOption :=
      QVariant_toString
        (QComboBox.currentData (Ui.callGraphComboBox (RecordPage.ui s))) in
    let s := RecordPage.on_sharedConfig
               (writeEntry config "callGraph" (Entry callGraphOption)) s in
    let perfOptions :=
      if negb (QString.isEmpty callGraphOption)
      then (perfOptions ++ ["--call-graph"; callGraphOption])%list
      else perfOptions in
    let eventType :=
      QComboBox.currentText (Ui.eventTypeBox (RecordPage.ui s)) in
    let '(c, combo, _) :=
      rememberCombobox config "eventType" eventType
        (RecordPage.sharedConfig s) (Ui.eventTypeBox (RecordPage.ui s)) in
    let s := RecordPage.on_sharedConfig (fun _ => c) s in
    let s := RecordPage.on_ui (Ui.on_eventTypeBox (fun _ => combo)) s in
    let perfOptions :=
      if negb (QString.isEmpty eventType)
      then (perfOptions ++ ["--event"; eventType])%list
      else perfOptions in
    let s :=
      if QVariant_eqb
           (QComboBox.currentData (Ui.recordTypeComboBox (RecordPage.ui s)))
           (IntData LaunchApplication)
      then
        let applicationName :=
          tildeExpand P
            (QComboBox.currentText (Ui.applicationName (RecordPage.ui s))) in
        let appParameters := Ui.applicationParametersBox (RecordPage.ui s) in
        let workingDir :=
          KUrlRequester.text (Ui.workingDirectory (RecordPage.ui s)) in
        let workingDir :=
          if QString.isEmpty workingDir
          then KUrlRequester.placeholderText
                 (Ui.workingDirectory (RecordPage.ui s))
          else workingDir in
        let s := rememberApplication P applicationName appParameters
                   workingDir s in
        RecordPage.on_m_perfRecord
          (fun calls =>
             (calls ++
              [record_launch perfOptions
                 (toLocalFile
                    (url P (KUrlRequester.text
                              (Ui.outputFile (RecordPage.ui s)))))
                 applicationName (splitArgs P appParameters) workingDir])%list)
          s
      else
        let pids :=
          selectedPids (selectedIndexes (RecordPage.selectionModel s)) in
        RecordPage.on_m_perfRecord
          (fun calls =>
             (calls ++
              [record_attach perfOptions
                 (toLocalFile
                    (url P (KUrlRequester.text
                              (Ui.outputFile (RecordPage.ui s)))))
                 pids])%list)
          s in
    RecordPage.on_ui (Ui.on_recordTypeComboBox (QComboBox.setEnabled false)) s
  else
    let s := RecordPage.on_ui
               (Ui.on_startRecordingButton
                  (QPushButton.setIcon "media-playback-start")) s in
    let s := RecordPage.on_ui
               (Ui.on_startRecordingButton
                  (QPushButton.setText (QString.tr "Start Recording"))) s in
    let s := RecordPage.on_m_perfRecord
               (fun calls => (calls ++ [stopRecording])%list) s in
    RecordPage.on_ui (Ui.on_recordTypeComboBox (QComboBox.setEnabled true)) s.

(** [ui->startRecordingButton->setChecked]: a change of the checked state
    is announced by [toggled], which the page has connected to
    [onStartRecordingButtonClicked]. *)
Definition startRecordingButton_setChecked (P : Platform) (checked : bool)
  (s : RecordPage.t) : RecordPage.t :=
  if Bool.eqb (QPushButton.checked (Ui.startRecordingButton (RecordPage.ui s)))
              checked
  then s
  else onStartRecordingButtonClicked P checked
         (RecordPage.on_ui
            (Ui.on_startRecordingButton (QPushButton.setChecked checked)) s).

(** The slot connected to [PerfRecord::recordingFinished]. *)
Definition recordingFinished (P : Platform) (fileLocation : string)
  (s : RecordPage.t) : RecordPage.t :=
  let s := startRecordingButton_setChecked P false s in
  let s := RecordPage.on_ui
             (Ui.on_applicationRecordErrorMessage KMessageWidget.hide) s in
  let s := RecordPage.on_m_resultsFile (fun _ => fileLocation) s in
  let s := RecordPage.on_ui
             (Ui.on_viewPerfRecordResultsButton (QPushButton.setEnabled true)) s in
  RecordPage.on_ui (Ui.on_recordTypeComboBox (QComboBox.setEnabled true)) s.

(** The slot connected to [PerfRecord::recordingFailed]. *)
Definition recordingFailed (P : Platform) (errorMessage : string)
  (s : RecordPage.t) : RecordPage.t :=
  let s := startRecordingButton_setChecked P false s in
  let s := setErrorText errorMessage s in
  let s := RecordPage.on_ui
             (Ui.on_applicationRecordErrorMessage KMessageWidget.show) s in
  let s := RecordPage.on_ui
             (Ui.on_viewPerfRecordResultsButton (QPushButton.setEnabled false)) s in
  RecordPage.on_ui (Ui.on_recordTypeComboBox (QComboBox.setEnabled true)) s.

(** The slot connected to [PerfRecord::recordingOutput]. *)
Definition recordingOutput (outputMessage : string) (s : RecordPage.t)
  : RecordPage.t :=
  let s := RecordPage.on_ui
             (Ui.on_perfResultsTextEdit
                (QTextEdit.insertPlainText outputMessage)) s in
  let s := RecordPage.on_ui (Ui.on_perfResultsTextEdit QTextEdit.show) s in
  let s := RecordPage.on_ui (Ui.on_perfResultsLabel (fun _ => true)) s in
  RecordPage.on_ui
    (Ui.on_perfResultsTextEdit (QTextEdit.moveCursor QTextCursor_End)) s.

(** ** Polling the process list *)

(** [RecordPage::updateProcesses]: a new call of [processList] is handed to
    the thread pool and the watcher is set to its future. *)
Definition updateProcesses (s : RecordPage.t) : RecordPage.t :=
  let f := {| futureId := RecordPage.futuresStarted s;
              previous := RecordPage.m_processModel s |} in
  let s := RecordPage.on_threadPool (fun pool => (pool ++ [f])%list) s in
  let s := RecordPage.on_futuresStarted S s in
  RecordPage.on_m_watcher
    (fun _ => {| future := Some (futureId f); result := [] |}) s.

(** The slot connected to [selectionChanged] of the selection model of the
    process table. *)
Definition selectionChanged (P : Platform) (s : RecordPage.t) : RecordPage.t :=
  updateStartRecordingButtonState P s.

(** [m_processModel->mergeProcesses] on the page: the table is merged, the
    selection follows the rows, and a selection that changed is announced to
    the slot above. *)
Definition ProcessModel_mergeProcesses (P : Platform) (processes : ProcDataList)
  (s : RecordPage.t) : RecordPage.t :=
  let before := RecordPage.selectionModel s in
  let s := RecordPage.on_m_processModel (mergeProcesses processes) s in
  let s := RecordPage.on_selectionModel (mergeSelection processes) s in
  if bool_decide (RecordPage.selectionModel s = before) then s
  else selectionChanged P s.

(** [RecordPage::updateProcessesFinished].  [QTimer::singleShot(1000, ...)]
    arms a timer whose deadline is the present time plus 1000 ms. *)
Definition updateProcessesFinished (P : Platform) (s : RecordPage.t)
  : RecordPage.t :=
  let s := ProcessModel_mergeProcesses P (result (RecordPage.m_watcher s)) s in
  if Page_eqb (Ui.stackedWidget (RecordPage.ui s)) attachAppPage then
    (* only update the state when we show the attach app page *)
    let s := updateStartRecordingButtonState P s in
    RecordPage.on_timers
      (fun armed => (armed ++ [(RecordPage.clock s + 1000)%N])%list) s
  else s.

(** The slot connected to [currentIndexChanged] of the mode selector.
    [updateStackedSizePolicy], which it calls last, only sets the size
    policies of the pages of the stacked widget. *)
Definition currentIndexChanged (P : Platform) (index : Z) (s : RecordPage.t)
  : RecordPage.t :=
  let s :=
    if index =? LaunchApplication then
      RecordPage.on_ui (Ui.on_stackedWidget (fun _ => launchAppPage)) s
    else if index =? AttachToProcess then
      let s := RecordPage.on_ui
                 (Ui.on_stackedWidget (fun _ => attachAppPage)) s in
      updateProcesses s
    else s in
  updateStartRecordingButtonState P s.

(** ** The constructor

    [form] is the state of the widgets after [ui->setupUi(this)]; the form
    itself ([ui_recordpage.h]) is not part of the sources.  [devices] is the
    processor list of the host and [c] the stored configuration.  The slots
    are connected before the histories are restored, so the text the
    application combo box takes on is validated.

    Two calls of the constructor go through a pointer that the form
    decides: [ui->eventTypeBox->lineEdit()] is null for a box that is not
    editable, and the first [updateStartRecordingButtonState(ui)] runs
    before the table view has a model, so that
    [ui->processesTableView->selectionModel()], which it calls when the
    launch page is not in front, is null. *)
Definition RecordPage_new (P : Platform) (form : Ui.t)
  (devices : list Solid.Device) (c : KConfig) : Access RecordPage.t :=
  let u := Ui.on_applicationName (QComboBox.setEditable true) form in
  let u := Ui.on_outputFile
             (KUrlRequester.setText (currentPath P +:+ "/" +:+ "perf.data")) u in
  let* lineEdit := deref (QComboBox.editable (Ui.eventTypeBox u))
                     "ui->eventTypeBox->lineEdit()" in
  let u := Ui.on_recordTypeComboBox
             (QComboBox.addItemData (QString.tr "Launch Application")
                (IntData LaunchApplication)) u in
  let u := Ui.on_recordTypeComboBox
             (QComboBox.addItemData (QString.tr "Attach To Process(es)")
                (IntData AttachToProcess)) u in
  let s := {| RecordPage.ui := u;
              RecordPage.windowTitle := "";
              RecordPage.m_resultsFile := "";
              RecordPage.m_processModel := [];
              RecordPage.selectionModel := [];
              RecordPage.m_watcher := {| future := None; result := [] |};
              RecordPage.m_perfRecord := [];
              RecordPage.sharedConfig := c;
              RecordPage.threadPool := [];
              RecordPage.futuresStarted := 0%nat;
              RecordPage.timers := [];
              RecordPage.clock := 0%N |} in
  let* selectionModel :=
    deref (Page_eqb (Ui.stackedWidget u) launchAppPage)
      "ui->processesTableView->selectionModel()" in
  let s := updateStartRecordingButtonState P s in
  let s := RecordPage.on_ui
             (Ui.on_callGraphComboBox
                (QComboBox.addItemData (QString.tr "None") (StringData ""))) s in
  let dwarfIdx := QComboBox.count (Ui.callGraphComboBox (RecordPage.ui s)) in
  let s := RecordPage.on_ui
             (Ui.on_callGraphComboBox
                (QComboBox.addItemData (QString.tr "DWARF")
                   (StringData "dwarf"))) s in
  let s := RecordPage.on_ui
             (Ui.on_callGraphComboBox
                (QComboBox.addItemData (QString.tr "Frame Pointer")
                   (StringData "fp"))) s in
  let* intel := isIntel devices in
  let s :=
    if intel then
      RecordPage.on_ui
        (Ui.on_callGraphComboBox
           (QComboBox.addItemData (QString.tr "Last Branch Record")
              (StringData "lbr"))) s
    else s in
  let s := RecordPage.on_ui
             (Ui.on_callGraphComboBox (QComboBox.setCurrentIndex dwarfIdx)) s in
  let s := showRecordPage s in
  let before := Ui.applicationName (RecordPage.ui s) in
  let restored := restoreCombobox config "applications" [] c before in
  let s := RecordPage.on_ui (Ui.on_applicationName (fun _ => restored)) s in
  let s := fold_left (fun s text => onApplicationNameChanged P text s)
             (textChanged before (QComboBox.clear before)
              ++ textChanged (QComboBox.clear before) restored)%list s in
  let s := RecordPage.on_ui
             (Ui.on_eventTypeBox
                (fun box => restoreCombobox config "eventType"
                              [QComboBox.currentText box] c box)) s in
  let callGraph :=
    match c !! (config, "callGraph") with
    | Some (Entry v) => StringData v
    | Some (EntryList l) => StringData (String.concat "," l)
    | None => QComboBox.currentData (Ui.callGraphComboBox (RecordPage.ui s))
    end in
  let callGraphIdx :=
    QComboBox.findData (Ui.callGraphComboBox (RecordPage.ui s)) callGraph in
  Ok (if negb (callGraphIdx =? -1)
      then RecordPage.on_ui
             (Ui.on_callGraphComboBox (QComboBox.setCurrentIndex callGraphIdx)) s
      else s).

(** ** Running the page

    What happens to the page between two returns to the event loop: an
    action of the user on an enabled widget, the completion of a snapshot
    request on the thread pool, a timer that is due, the passing of time,
    or a signal of the recorder.  An event that cannot occur in a state
    (a click on a disabled button, a timer that is not due, the completion
    of a request that is not running) leaves the state as it is.  The
    constructor connects [onApplicationNameChanged] to the text of the
    application requester and, as a workaround, to the text of its line
    edit; the slot is run once per change of the text here. *)
Inductive Event :=
| ModeSelected (index : Z)
| ApplicationNameEdited (text : string)
| ApplicationParametersEdited (text : string)
| WorkingDirectoryEdited (text : string)
| OutputFileEdited (text : string)
| OutputFileReturnPressed
| OutputFileUrlSelected (fileUrl : QUrl)
| EventTypeEdited (text : string)
| CallGraphSelected (index : Z)
| ProcessRowClicked (p : N)
| StartRecordingButtonClicked
| ProcessListFinished (id : nat) (processes : ProcDataList)
| TimerTimeout
| TimePassed (ms : N)
| PerfRecordingFinished (fileLocation : string)
| PerfRecordingFailed (errorMessage : string)
| PerfRecordingOutput (outputMessage : string)
| OutputPaneCursorSet (anchor position : nat).

Definition isRunning (id : nat) (pool : list Future) : bool :=
  existsb (fun f => Nat.eqb (futureId f) id) pool.

Definition toggle (p : N) (sel : list N) : list N :=
  if existsb (N.eqb p) sel then List.filter (fun q => negb (N.eqb p q)) sel
  else (sel ++ [p])%list.

Definition step (P : Platform) (e : Event) (s : RecordPage.t) : RecordPage.t :=
  let u := RecordPage.ui s in
  match e with
  | ModeSelected index =>
      let box := Ui.recordTypeComboBox u in
      if QComboBox.enabled box && (0 <=? index) && (index <? QComboBox.count box)
         && negb (index =? QComboBox.currentIndex box)
      then currentIndexChanged P index
             (RecordPage.on_ui
                (Ui.on_recordTypeComboBox (QComboBox.setCurrentIndex index)) s)
      else s
  | ApplicationNameEdited text =>
      if String.eqb (QComboBox.lineEdit (Ui.applicationName u)) text then s
      else onApplicationNameChanged P text
             (RecordPage.on_ui
                (Ui.on_applicationName (QComboBox.setEditText text)) s)
  | ApplicationParametersEdited text =>
      RecordPage.on_ui (Ui.on_applicationParametersBox (fun _ => text)) s
  | WorkingDirectoryEdited text => workingDirectory_setText P text s
  | OutputFileEdited text => outputFile_setText P text s
  | OutputFileReturnPressed =>
      onOutputFileNameSelected P (KUrlRequester.text (Ui.outputFile u)) s
  | OutputFileUrlSelected fileUrl =>
      onOutputFileUrlChanged P fileUrl
        (outputFile_setText P (toLocalFile fileUrl) s)
  | EventTypeEdited text =>
      RecordPage.on_ui (Ui.on_eventTypeBox (QComboBox.setEditText text)) s
  | CallGraphSelected index =>
      if (0 <=? index) && (index <? QComboBox.count (Ui.callGraphComboBox u))
      then RecordPage.on_ui
             (Ui.on_callGraphComboBox (QComboBox.setCurrentIndex index)) s
      else s
  | ProcessRowClicked p =>
      if Page_eqb (Ui.stackedWidget u) attachAppPage
         && hasPid p (RecordPage.m_processModel s)
      then selectionChanged P (RecordPage.on_selectionModel (toggle p) s)
      else s
  | StartRecordingButtonClicked =>
      let button := Ui.startRecordingButton u in
      if QPushButton.enabled button
      then startRecordingButton_setChecked P (negb (QPushButton.checked button)) s
      else s
  | ProcessListFinished id processes =>
      if isRunning id (RecordPage.threadPool s) then
        let s := RecordPage.on_threadPool
                   (List.filter (fun f => negb (Nat.eqb (futureId f) id))) s in
        match future (RecordPage.m_watcher s) with
        | Some watched =>
            if Nat.eqb watched id then
              updateProcessesFinished P
                (RecordPage.on_m_watcher
                   (fun w => {| future := future w; result := processes |}) s)
            else s
        | None => s
        end
      else s
  | TimerTimeout =>
      match RecordPage.timers s with
      | deadline :: armed =>
          if (deadline <=? RecordPage.clock s)%N
          then updateProcesses (RecordPage.on_timers (fun _ => armed) s)
          else s
      | [] => s
      end
  | TimePassed ms => RecordPage.on_clock (fun now => (now + ms)%N) s
  | PerfRecordingFinished fileLocation => recordingFinished P fileLocation s
  | PerfRecordingFailed errorMessage => recordingFailed P errorMessage s
  | PerfRecordingOutput outputMessage => recordingOutput outputMessage s
  | OutputPaneCursorSet anchor position =>
      RecordPage.on_ui
        (Ui.on_perfResultsTextEdit (QTextEdit.setTextCursor anchor position)) s
  end.

Definition run (P : Platform) (events : list Event) (s : RecordPage.t)
  : RecordPage.t :=
  fold_left (fun s e => step P e s) events s.

(** The number of snapshot requests in flight. *)
Definition inFlight (s : RecordPage.t) : nat := length (RecordPage.threadPool s).

(** ** A small host for worked examples

    One executable ([/usr/bin/ls]), one writable directory ([/tmp]) and a
    home directory; every other path does not exist. *)

Fixpoint splitLast (s : string) : option string * string :=
  match s with
  | EmptyString => (None, EmptyString)
  | String c r =>
      match splitLast r with
      | (Some d, n) => (Some (String c d), n)
      | (None, n) =>
          if Ascii.eqb c "/"%char then (Some EmptyString, n)
          else (None, String c n)
      end
  end.

Definition dirName (s : string) : string :=
  match s, fst (splitLast s) with
  | EmptyString, _ => ""
  | _, Some EmptyString => "/"
  | _, Some d => d
  | _, None => "."
  end.

Definition member (s : string) (l : list string) : bool :=
  existsb (String.eqb s) l.

Definition demoFileInfo (p : string) : QFileInfo :=
  let dirs := ["/"; "/tmp"; "/usr"; "/usr/bin"; "/home/user"] in
  let files := ["/usr/bin/ls"; "/home/user/notes.txt"] in
  {| exists_ := member p dirs || member p files;
     isFile := member p files;
     isDir := member p dirs;
     isExecutable := member p dirs || String.eqb p "/usr/bin/ls";
     isWritable := member p ["/tmp"; "/home/user"; "/home/user/notes.txt"];
     path := dirName p;
     absolutePath := dirName p;
     absoluteFilePath := p |}.

Definition demoTildeExpand (s : string) : string :=
  match s with
  | String "~"%char rest => "/home/user" +:+ rest
  | _ => s
  end.

Fixpoint words (s current : string) : list string :=
  match s with
  | EmptyString => if QString.isEmpty current then [] else [current]
  | String c r =>
      if Ascii.eqb c " "%char
      then (if QString.isEmpty current then words r ""
            else current :: words r "")
      else words r (current +:+ String c EmptyString)
  end.

Definition demo : Platform :=
  {| tildeExpand := demoTildeExpand;
     splitArgs := fun s => words s "";
     findExecutable := fun p =>
       if isFile (demoFileInfo p) && isExecutable (demoFileInfo p) then p
       else "";
     fileInfo := demoFileInfo;
     url := fun text => {| isValid := negb (QString.isEmpty text);
                           toLocalFile := demoTildeExpand text |};
     currentPath := "/tmp" |}.

Definition emptyBox : QComboBox.t :=
  {| QComboBox.items := []; QComboBox.currentIndex := -1;
     QComboBox.editable := false; QComboBox.lineEdit := "";
     QComboBox.enabled := true |}.

(** A form with empty fields and the launch page in front. *)
Definition blankForm : Ui.t :=
  {| Ui.stackedWidget := launchAppPage;
     Ui.recordTypeComboBox := emptyBox;
     Ui.startRecordingButton :=
       {| QPushButton.enabled := true; QPushButton.checked := false;
          QPushButton.text := "Start Recording";
          QPushButton.icon := "media-playback-start" |};
     Ui.viewPerfRecordResultsButton :=
       {| QPushButton.enabled := true; QPushButton.checked := false;
          QPushButton.text := "View Results"; QPushButton.icon := "" |};
     Ui.applicationRecordErrorMessage :=
       {| KMessageWidget.text := ""; KMessageWidget.visible := true |};
     Ui.applicationName := emptyBox;
     Ui.applicationParametersBox := "";
     Ui.workingDirectory :=
       {| KUrlRequester.text := ""; KUrlRequester.placeholderText := "" |};
     Ui.outputFile :=
       {| KUrlRequester.text := ""; KUrlRequester.placeholderText := "" |};
     Ui.eventTypeBox := QComboBox.setEditable true emptyBox;
     Ui.callGraphComboBox := emptyBox;
     Ui.perfResultsTextEdit :=
       {| QTextEdit.plainText := ""; QTextEdit.visible := true;
          QTextEdit.anchor := 0; QTextEdit.position := 0 |};
     Ui.perfResultsLabel := true |}.

Definition intelHost : list Solid.Device :=
  [ {| Solid.as_Processor :=
         Some {| Solid.instructionSets :=
                   [Solid.IntelMmx; Solid.IntelSse; Solid.IntelSse2] |} |} ].

(** The page as constructed on the example host with no stored
    configuration. *)
Definition freshPage : RecordPage.t :=
  match RecordPage_new demo blankForm intelHost ∅ with
  | Ok s => s
  | IndexOutOfRange _ _ | NullPointer _ =>
      {| RecordPage.ui := blankForm; RecordPage.windowTitle := "";
         RecordPage.m_resultsFile := ""; RecordPage.m_processModel := [];
         RecordPage.selectionModel := [];
         RecordPage.m_watcher := {| future := None; result := [] |};
         RecordPage.m_perfRecord := []; RecordPage.sharedConfig := ∅;
         RecordPage.threadPool := []; RecordPage.futuresStarted := 0%nat;
         RecordPage.timers := []; RecordPage.clock := 0%N |}
  end.

(** ** Notions used in the statements *)

Definition shownPage (s : RecordPage.t) : Page :=
  Ui.stackedWidget (RecordPage.ui s).

Definition startEnabled (s : RecordPage.t) : bool :=
  QPushButton.enabled (Ui.startRecordingButton (RecordPage.ui s)).

Definition startChecked (s : RecordPage.t) : bool :=
  QPushButton.checked (Ui.startRecordingButton (RecordPage.ui s)).

(** The list without the first occurrence of [value]. *)
Fixpoint removeFirst (value : string) (l : list string) : list string :=
  match l with
  | [] => []
  | x :: l' => if String.eqb x value then l' else x :: removeFirst value l'
  end.

(** The history a combo box shows, most recent entry first. *)
Definition history (combo : QComboBox.t) : list string := QComboBox.texts combo.

(** [a] directly followed by [b] in [l]. *)
Definition adjacent {A} (a b : A) (l : list A) : Prop :=
  exists l1 l2, l = (l1 ++ a :: b :: l2)%list.

(** The directory of the executable named by [application], computed the
    way [onApplicationNameChanged] computes it for the placeholder of the
    working directory. *)
Definition executableDirectory (P : Platform) (application : string) : string :=
  path (fileInfo P (findExecutable P (tildeExpand P application))).

Definition singleFlight (s : RecordPage.t) : Prop := (inFlight s <= 1)%nat.

(** No snapshot request is running and no poll timer is armed. *)
Definition quiet (s : RecordPage.t) : bool :=
  QList.empty (RecordPage.threadPool s) && QList.empty (RecordPage.timers s).

(** The event is a choice of the attach entry of the mode selector that
    takes effect. *)
Definition switchesToAttach (e : Event) (s : RecordPage.t) : bool :=
  match e with
  | ModeSelected index =>
      let box := Ui.recordTypeComboBox (RecordPage.ui s) in
      (index =? AttachToProcess) && QComboBox.enabled box
      && (index <? QComboBox.count box)
      && negb (index =? QComboBox.currentIndex box)
  | _ => false
  end.

(** Along [events] the user switches to attach mode only in quiet states. *)
Fixpoint switchesOnlyWhenQuiet (P : Platform) (events : list Event)
  (s : RecordPage.t) : bool :=
  match events with
  | [] => true
  | e :: events' =>
      (if switchesToAttach e s then quiet s else true)
      && switchesOnlyWhenQuiet P events' (step P e s)
  end.

(** The states the page passes through, the first one included. *)
Fixpoint visited (P : Platform) (events : list Event) (s : RecordPage.t)
  : list RecordPage.t :=
  s :: match events with
       | [] => []
       | e :: events' => visited P events' (step P e s)
       end.

(** The oldest poll timer is due. *)
Definition due (s : RecordPage.t) : bool :=
  match RecordPage.timers s with
  | deadline :: _ => (deadline <=? RecordPage.clock s)%N
  | [] => false
  end.

Definition process (p : N) (n : string) : ProcData :=
  {| pid := p; name := n; state := Running |}.

(** [value] heads the history and occurs nowhere else in it. *)
Definition rememberedOnce (value : string) (h : list string) : Prop :=
  exists rest, h = value :: rest /\ ~ In value rest.

(** An event type box restored from a stored history that lists one
    event type twice. *)
Definition twiceStoredBox : QComboBox.t :=
  restoreCombobox config "eventType" []
    {[ (config, "eventType") := EntryList ["cycles"; "instructions"; "cycles"] ]}
    (QComboBox.setEditable true emptyBox).

(** The snapshot requests in flight and the armed poll timers. *)
Definition pending (s : RecordPage.t) : list Future * list N :=
  (RecordPage.threadPool s, RecordPage.timers s).

(** Everything the validation of the input fields leaves alone: the members
    of the page, the world around it, and the widgets other than the error
    message, the working directory, the parameters and the enabled state of
    the start button. *)
Definition behindValidation (s : RecordPage.t) :=
  let u := RecordPage.ui s in
  (pending s, RecordPage.clock s, RecordPage.futuresStarted s,
   RecordPage.m_watcher s, RecordPage.m_processModel s,
   RecordPage.selectionModel s, RecordPage.m_perfRecord s,
   RecordPage.sharedConfig s, RecordPage.windowTitle s,
   RecordPage.m_resultsFile s,
   (Ui.stackedWidget u, Ui.recordTypeComboBox u,
    Ui.viewPerfRecordResultsButton u, Ui.applicationName u, Ui.outputFile u,
    Ui.eventTypeBox u, Ui.callGraphComboBox u, Ui.perfResultsTextEdit u,
    Ui.perfResultsLabel u,
    QPushButton.checked (Ui.startRecordingButton u),
    QPushButton.text (Ui.startRecordingButton u),
    QPushButton.icon (Ui.startRecordingButton u))).

(** The output path the page holds: the text of the output file requester. *)
Definition storedOutputPath (s : RecordPage.t) : string :=
  KUrlRequester.text (Ui.outputFile (RecordPage.ui s)).

(** The example page while it records [/usr/bin/ls]. *)
Definition recordingPage : RecordPage.t :=
  run demo [ApplicationNameEdited "/usr/bin/ls"; StartRecordingButtonClicked]
    freshPage.

(** The last record of a snapshot for a process id. *)
Fixpoint lookupLast (incoming : ProcDataList) (p : N) : option ProcData :=
  match incoming with
  | [] => None
  | r :: incoming' =>
      match lookupLast incoming' p with
      | Some x => Some x
      | None => if N.eqb (pid r) p then Some r else None
      end
  end.

(** A row as a snapshot leaves it: replaced by the last record the snapshot
    has for its process id, if it has one. *)
Definition latest (incoming : ProcDataList) (old : ProcData) : ProcData :=
  match lookupLast incoming (pid old) with
  | Some r => r
  | None => old
  end.

(** The recorder options as the specification words them: the call graph
    option when an unwind method is chosen, then the event option when an
    event type is given. *)
Definition perfOptionsFor (callGraphOption eventType : string) : list string :=
  (if QString.isEmpty callGraphOption then []
   else ["--call-graph"; callGraphOption])
  ++ (if QString.isEmpty eventType then [] else ["--event"; eventType]).

(** A launch with an empty working directory field runs in the directory
    of the executable it launches: the directory of the executable found
    for the path, or the directory part of the path itself. *)
Definition fallsBackToExecutableDirectory (P : Platform) (s : RecordPage.t)
  : Prop :=
  KUrlRequester.text (Ui.workingDirectory (RecordPage.ui s)) = "" ->
  forall perfOptions outputPath exePath exeOptions workingDirectory,
    In (record_launch perfOptions outputPath exePath exeOptions workingDirectory)
       (RecordPage.m_perfRecord (onStartRecordingButtonClicked P true s)) ->
    workingDirectory = executableDirectory P exePath
    \/ workingDirectory = path (fileInfo P exePath).

(** The example page after the user has entered an executable, replaced it
    by a path that does not exist, and then edited the output file. *)
Definition stalePage : RecordPage.t :=
  run demo [ApplicationNameEdited "/usr/bin/ls";
            ApplicationNameEdited "/opt/tool/run";
            OutputFileEdited "/tmp/out.data"] freshPage.

(** At most one snapshot request or poll timer is pending. *)
Definition onePending (s : RecordPage.t) : Prop :=
  (inFlight s + length (RecordPage.timers s) <= 1)%nat.

(** A snapshot result that arrives while the attach page is not shown
    changes no widget and arms no timer. *)
Definition hiddenResultUnseen (P : Platform) (id : nat)
  (processes : ProcDataList) (s : RecordPage.t) : Prop :=
  shownPage s <> attachAppPage ->
  RecordPage.ui (step P (ProcessListFinished id processes) s) = RecordPage.ui s
  /\ RecordPage.timers (step P (ProcessListFinished id processes) s)
     = RecordPage.timers s.

(** The example page after: attach mode, a first snapshot, the selection of
    process 7, the next poll, a switch to launch mode while that poll is
    running, and a recording of [/usr/bin/ls] that fails. *)
Definition failedPage : RecordPage.t :=
  run demo [ModeSelected AttachToProcess;
            ProcessListFinished 0 [process 7 "vim"; process 9 "bash"];
            ProcessRowClicked 7;
            TimePassed 1000;
            TimerTimeout;
            ModeSelected LaunchApplication;
            ApplicationNameEdited "/usr/bin/ls";
            StartRecordingButtonClicked;
            PerfRecordingFailed "perf: no permission"] freshPage.

(** The user enters attach mode, leaves it and enters it again while the
    first snapshot request is still running. *)
Definition toggling : list Event :=
  [ModeSelected AttachToProcess; ModeSelected LaunchApplication;
   ModeSelected AttachToProcess].

(** The user enters attach mode, two polls complete, the user leaves, the
    poll that was armed completes in launch mode, and the user comes
    back. *)
Definition patient : list Event :=
  [ModeSelected AttachToProcess;
   ProcessListFinished 0 [process 7 "vim"];
   TimePassed 1000; TimerTimeout;
   ProcessListFinished 1 [process 7 "vim"; process 9 "bash"];
   ModeSelected LaunchApplication;
   TimePassed 1500; TimerTimeout;
   ProcessListFinished 2 [process 9 "bash"];
   ModeSelected AttachToProcess].

(** The user enters attach mode, the first snapshot completes and arms the
    poll timer, and the user leaves and re-enters attach mode before the
    timer is due. *)
Definition impatient : list Event :=
  [ModeSelected AttachToProcess;
   ProcessListFinished 0 [process 7 "vim"];
   ModeSelected LaunchApplication;
   ModeSelected AttachToProcess;
   TimePassed 1000; TimerTimeout].

(** A non-empty error message keeps the start button disabled. *)
Definition blocked (s : RecordPage.t) : Prop :=
  errorText s <> "" -> startEnabled s = false.

(** The error text and the enabled state of the start button. *)
Definition startGuard (s : RecordPage.t) : string * bool :=
  (errorText s, startEnabled s).

(** ** More of the page: size policies and the signals it emits *)

(** [QSizePolicy::Policy]. *)
Inductive Policy :=
| Fixed | Minimum | Maximum | Preferred | Expanding | MinimumExpanding
| Ignored.

(** [updateStackedSizePolicy], on the (horizontal, vertical) size policies
    of the pages of the stacked widget in index order; [currentIndex] is
    the index of the page in front.  The loop visits the indices
    [0 .. count - 1] and sets both policies of each page. *)
Definition updateStackedSizePolicy (currentIndex : Z)
  (pages : list (Policy * Policy)) : list (Policy * Policy) :=
  let c := Z.of_nat (length pages) in
  fold_left
    (fun pages i =>
       (* determine the vertical size policy *)
       let policy := Ignored in
       let policy := if Z.of_nat i =? currentIndex then Expanding else policy in
       (* update the size policy *)
       <[i := (policy, policy)]> pages)
    (seq 0 (Z.to_nat c)) pages.

(** The signals of the page. *)
Inductive Signal :=
| homeButtonClicked
| openFile (path : string).

(** [RecordPage::onViewPerfRecordResultsButtonClicked]: the signal it
    emits. *)
Definition onViewPerfRecordResultsButtonClicked (s : RecordPage.t) : Signal :=
  openFile (RecordPage.m_resultsFile s).

(** The instruction sets [isIntel] tests for. *)
Definition intelFlags : list Solid.InstructionSet :=
  [Solid.IntelMmx; Solid.IntelSse; Solid.IntelSse2; Solid.IntelSse3;
   Solid.IntelSsse3; Solid.IntelSse4; Solid.IntelSse41; Solid.IntelSse42].

(** The box shows its first entry as the current one, or nothing when it is
    empty. *)
Definition showsFirst (w : QComboBox.t) : Prop :=
  QComboBox.currentIndex w = (if QList.empty (QComboBox.items w) then -1 else 0)
  /\ (QComboBox.editable w = true -> QComboBox.lineEdit w = hd "" (history w)).

(** ** The mode of the page and the results it offers *)

(** The mode selector, the page in front and the checked state of the start
    button. *)
Definition modeView (s : RecordPage.t) : QComboBox.t * Page * bool :=
  let u := RecordPage.ui s in
  (Ui.recordTypeComboBox u, Ui.stackedWidget u,
   QPushButton.checked (Ui.startRecordingButton u)).

(** The mode selector is enabled exactly while the start button is not
    checked. *)
Definition modeLocked (s : RecordPage.t) : Prop :=
  QComboBox.enabled (Ui.recordTypeComboBox (RecordPage.ui s))
  = negb (startChecked s).

(** The page in front is the page of the entry the mode selector shows. *)
Definition modeShown (s : RecordPage.t) : Prop :=
  let index :=
    QComboBox.currentIndex (Ui.recordTypeComboBox (RecordPage.ui s)) in
  (index = LaunchApplication -> shownPage s = launchAppPage)
  /\ (index = AttachToProcess -> shownPage s = attachAppPage).

(** What the page holds of the results of a recording: the results file, the
    button that opens it, the output pane and its label, and the window
    title. *)
Definition results (s : RecordPage.t) :=
  let u := RecordPage.ui s in
  (RecordPage.m_resultsFile s, Ui.viewPerfRecordResultsButton u,
   Ui.perfResultsTextEdit u, Ui.perfResultsLabel u, RecordPage.windowTitle s).

(** The events that belong to the polling of the process list. *)
Definition polls (e : Event) : bool :=
  match e with
  | ModeSelected _ | ProcessListFinished _ _ | TimerTimeout => true
  | _ => false
  end.

(** What [updateStartRecordingButtonState] asks of the mode: a valid url
    of the application on the launch page, a selected process on the attach
    page. *)
Definition startable (P : Platform) (s : RecordPage.t) : bool :=
  if Page_eqb (shownPage s) launchAppPage
  then isValid (url P (QComboBox.currentText
                         (Ui.applicationName (RecordPage.ui s))))
  else negb (QList.empty (RecordPage.selectionModel s)).

(** The page as a validation slot leaves it: the error message is shown
    exactly when it has a text, and the start button is enabled exactly
    when the mode allows a start and there is no message. *)
Definition validated (P : Platform) (s : RecordPage.t) : Prop :=
  KMessageWidget.visible (Ui.applicationRecordErrorMessage (RecordPage.ui s))
  = negb (QString.isEmpty (errorText s))
  /\ startEnabled s = startable P s && QString.isEmpty (errorText s).

(** The unwind methods the constructor offers, as the data of the items of
    the call graph box: none, DWARF, the frame pointer and, on an Intel
    processor, the last branch record. *)
Definition unwindMethods (intel : bool) : list string :=
  [""; "dwarf"; "fp"] ++ (if intel then ["lbr"] else []).

(** ** The calls made on the recorder *)

Definition isStop (call : PerfRecordCall) : bool :=
  match call with stopRecording => true | _ => false end.

(** The calls ask the recorder to record and to stop in turns, beginning
    from [recording]; the result is whether a recording is started after
    the last call, and [None] when a call comes out of turn. *)
Fixpoint alternates (recording : bool) (calls : list PerfRecordCall)
  : option bool :=
  match calls with
  | [] => Some recording
  | call :: calls' =>
      if Bool.eqb (isStop call) recording
      then alternates (negb recording) calls'
      else None
  end.

(** The calls made on the recorder and the checked state of the start
    button. *)
Definition session (s : RecordPage.t) : list PerfRecordCall * bool :=
  (RecordPage.m_perfRecord s, startChecked s).

(** The recorder was asked to record and to stop in turns, and the start
    button is checked exactly when the last call asked it to record. *)
Definition inSession (s : RecordPage.t) : Prop :=
  alternates false (RecordPage.m_perfRecord s) = Some (startChecked s).

Definition isLaunch (call : PerfRecordCall) : bool :=
  match call with record_launch _ _ _ _ _ => true | _ => false end.

Definition isAttach (call : PerfRecordCall) : bool :=
  match call with record_attach _ _ _ => true | _ => false end.

(** The mode selector holds the launch and the attach entry, in this
    order, and the page of the current entry is in front. *)
Definition modeConsistent (s : RecordPage.t) : Prop :=
  let box := Ui.recordTypeComboBox (RecordPage.ui s) in
  map snd (QComboBox.items box)
  = [IntData LaunchApplication; IntData AttachToProcess]
  /\ (QComboBox.currentIndex box = LaunchApplication
      /\ shownPage s = launchAppPage
      \/ QComboBox.currentIndex box = AttachToProcess
         /\ shownPage s = attachAppPage).

(** A start records for the page in front. *)
Definition recordsForShownPage (P : Platform) (s : RecordPage.t) : Prop :=
  exists call,
    RecordPage.m_perfRecord (onStartRecordingButtonClicked P true s)
    = RecordPage.m_perfRecord s ++ [call]
    /\ isLaunch call = Page_eqb (shownPage s) launchAppPage
    /\ isAttach call = Page_eqb (shownPage s) attachAppPage.

(** What [rememberApplication] does to the fields of the launch page: the
    validation of the remembered application has put the given parameters
    and working directory into their fields and cleared the message, or
    (when the box announced nothing) parameters, working directory and
    message are as they were. *)
Definition restoredOrUntouched (appParameters workingDir : string)
  (s s' : RecordPage.t) : Prop :=
  Ui.applicationParametersBox (RecordPage.ui s') = appParameters
  /\ KUrlRequester.text (Ui.workingDirectory (RecordPage.ui s')) = workingDir
  /\ errorText s' = ""
  \/ Ui.applicationParametersBox (RecordPage.ui s')
     = Ui.applicationParametersBox (RecordPage.ui s)
     /\ Ui.workingDirectory (RecordPage.ui s')
        = Ui.workingDirectory (RecordPage.ui s)
     /\ Ui.applicationRecordErrorMessage (RecordPage.ui s')
        = Ui.applicationRecordErrorMessage (RecordPage.ui s).

(** A form the constructor can be run on: the event type box is editable,
    so that it has a line edit, and the launch page is in front, so that
    the first update of the start button does not ask the table view for
    the selection model it does not have yet. *)
Definition constructible (form : Ui.t) : Prop :=
  QComboBox.editable (Ui.eventTypeBox form) = true
  /\ Ui.stackedWidget form = launchAppPage.

(** The text cursor of the pane stands behind the text and nothing is
    selected. *)
Definition cursorAtEnd (w : QTextEdit.t) : Prop :=
  QTextEdit.anchor w = String.length (QTextEdit.plainText w)
  /\ QTextEdit.position w = String.length (QTextEdit.plainText w).

(** ** Retrying and starting with rejected input *)

(** A click on the start button starts a session. *)
Definition retryStarts (P : Platform) (s : RecordPage.t) : Prop :=
  startChecked (step P StartRecordingButtonClicked s) = true.

(** The example page after a recording of a selected process has failed
    and the next poll has come back: attach mode, a first snapshot, the
    selection of process 7, a start, the failure, and the next poll with
    its result, which still lists the process. *)
Definition attachFailedPage : RecordPage.t :=
  run demo [ModeSelected AttachToProcess;
            ProcessListFinished 0 [process 7 "vim"; process 9 "bash"];
            ProcessRowClicked 7;
            StartRecordingButtonClicked;
            PerfRecordingFailed "perf: no permission";
            TimePassed 1000;
            TimerTimeout;
            ProcessListFinished 1 [process 7 "vim"; process 9 "bash"]]
    freshPage.

(** An application name that its validation rejects keeps the start button
    disabled: a session cannot be started before the name is corrected. *)
Definition rejectedInputBlocksStart (P : Platform) (s : RecordPage.t) : Prop :=
  errorText
    (onApplicationNameChanged P
       (QComboBox.currentText (Ui.applicationName (RecordPage.ui s))) s) <> "" ->
  startEnabled s = false.

(** ** The histories of the page *)

(** The histories of the application box and of the event type box. *)
Definition histories (s : RecordPage.t) : list string * list string :=
  (history (Ui.applicationName (RecordPage.ui s)),
   history (Ui.eventTypeBox (RecordPage.ui s))).

(** Neither history names a value twice. *)
Definition historiesDistinct (s : RecordPage.t) : Prop :=
  List.NoDup (fst (histories s)) /\ List.NoDup (snd (histories s)).

(** The lists the configuration holds for the two histories name no value
    twice; a list that is not stored counts with its default. *)
Definition storedDistinct (c : KConfig) : Prop :=
  List.NoDup (readListEntry config "applications" [] c)
  /\ forall default, List.NoDup (readListEntry config "eventType" [default] c).

(** * Properties *)

(** ** The processor probe *)

Example isIntel_sse2 :
  isIntel [ {| Solid.as_Processor :=
                 Some {| Solid.instructionSets := [Solid.IntelSse2] |} |} ]
  = Ok true.
Proof. reflexivity. Qed.

(** On a host that reports at least one device the probe returns a
    boolean. *)

Lemma isIntel_nonempty (d : Solid.Device) (l : list Solid.Device) :
  exists b, isIntel (d :: l) = Ok b.
Proof.
  unfold isIntel, QList.at_; simpl.
  unfold Solid.is_Processor.
  destruct (Solid.as_Processor d); simpl; eauto.
Qed.

(** C10.  On an empty processor list [isIntel] does not return a boolean:
    it reads element 0 of the list before it tests the list for emptiness,
    which is an access outside the bounds of the list. *)
Theorem isIntel_empty_list_out_of_range :
  isIntel [] = IndexOutOfRange 0 0 /\ forall b, isIntel [] <> Ok b.
Proof. split; [reflexivity | intros b; discriminate]. Qed.

(** The constructor calls [isIntel], so it does not get past the probe on a
    host that reports no processor device: it returns no page, and for a
    form that lets it reach the probe the access outside the list is what
    ends it. *)
Lemma RecordPage_new_without_processor (P : Platform) (form : Ui.t) (c : KConfig) :
  (forall s, RecordPage_new P form [] c <> Ok s)
  /\ (QComboBox.editable (Ui.eventTypeBox form) = true ->
      Ui.stackedWidget form = launchAppPage ->
      RecordPage_new P form [] c = IndexOutOfRange 0 0).
Proof.
  unfold RecordPage_new. cbv zeta.
  cbn [Ui.eventTypeBox Ui.stackedWidget Ui.on_applicationName Ui.on_outputFile
       Ui.on_recordTypeComboBox].
  split.
  - intros s.
    destruct (QComboBox.editable (Ui.eventTypeBox form)); [|discriminate].
    destruct (Page_eqb (Ui.stackedWidget form) launchAppPage); discriminate.
  - intros -> ->. reflexivity.
Qed.

(** ** The combo box history *)

Section History.

Implicit Types (l : list (string * QVariant)) (w : QComboBox.t).

Lemma find_bounds p l : -1 <= QComboBox.find p l < Z.of_nat (length l).
Proof.
  induction l as [|x l IH]; simpl; [lia|].
  destruct (p x); [lia|].
  destruct (QComboBox.find p l <? 0) eqn:E; lia.
Qed.

Lemma find_none p l :
  QComboBox.find p l = -1 -> forall x, In x l -> p x = false.
Proof.
  induction l as [|x l IH]; simpl; [tauto|].
  destruct (p x) eqn:Hp; [discriminate|].
  pose proof (find_bounds p l) as B.
  destruct (QComboBox.find p l <? 0) eqn:E; intros Hf y [<-|Hy]; auto; try lia.
  apply IH; auto. lia.
Qed.

Lemma removeFirst_absent value l :
  (forall x, In x l -> String.eqb (fst x) value = false) ->
  removeFirst value (map fst l) = map fst l.
Proof.
  induction l as [|x l IH]; simpl; intros H; [reflexivity|].
  rewrite (H x) by auto. f_equal. apply IH; auto.
Qed.

Lemma delete_find value l :
  QComboBox.find (fun x => String.eqb (fst x) value) l <> -1 ->
  map fst (delete (Z.to_nat (QComboBox.find (fun x => String.eqb (fst x) value) l)) l)
  = removeFirst value (map fst l).
Proof.
  induction l as [|x l IH]; simpl; [congruence|].
  destruct (String.eqb (fst x) value) eqn:E; [reflexivity|].
  pose proof (find_bounds (fun x => String.eqb (fst x) value) l) as B.
  destruct (QComboBox.find _ l <? 0) eqn:E'; [congruence|].
  intros _. apply Z.ltb_ge in E'.
  replace (Z.to_nat (QComboBox.find (fun x => String.eqb (fst x) value) l + 1))
    with (S (Z.to_nat (QComboBox.find (fun x => String.eqb (fst x) value) l)))
    by lia.
  simpl. f_equal. apply IH. lia.
Qed.

Lemma items_setCurrentIndex i w :
  QComboBox.items (QComboBox.setCurrentIndex i w) = QComboBox.items w.
Proof. unfold QComboBox.setCurrentIndex. destruct (_ && _); reflexivity. Qed.

Lemma items_insertItem_front value w :
  QComboBox.items (QComboBox.insertItem 0 value w)
  = (value, Invalid) :: QComboBox.items w.
Proof.
  unfold QComboBox.insertItem, QComboBox.insertItemData, QComboBox.count.
  replace (Z.to_nat (Z.max 0 (Z.min 0 (Z.of_nat (length (QComboBox.items w))))))
    with 0%nat by lia.
  destruct (QComboBox.items w); reflexivity.
Qed.

Lemma history_removeItem_found value w :
  QComboBox.findText w value <> -1 ->
  history (QComboBox.removeItem (QComboBox.findText w value) w)
  = removeFirst value (history w).
Proof.
  intros H. unfold history, QComboBox.texts, QComboBox.removeItem, QComboBox.count.
  unfold QComboBox.findText in *.
  pose proof (find_bounds (fun x => String.eqb (fst x) value) (QComboBox.items w)) as B.
  set (i := QComboBox.find _ _) in *.
  replace ((0 <=? i) && (i <? Z.of_nat (length (QComboBox.items w)))) with true
    by (symmetry; apply andb_true_iff; split; [apply Z.leb_le|apply Z.ltb_lt]; lia).
  destruct (i <? QComboBox.currentIndex w); [|destruct (i =? QComboBox.currentIndex w)];
    simpl; apply delete_find; exact H.
Qed.

(** The history after [rememberCombobox]: the value, then the earlier
    history without the first occurrence of the value. *)
Lemma history_rememberCombobox group entryName value c w :
  history (snd (fst (rememberCombobox group entryName value c w)))
  = value :: removeFirst value (history w).
Proof.
  unfold rememberCombobox; simpl.
  unfold history, QComboBox.texts.
  rewrite items_setCurrentIndex, items_insertItem_front. simpl. f_equal.
  destruct (QComboBox.findText w value =? -1) eqn:E; simpl.
  - apply Z.eqb_eq in E. symmetry. apply removeFirst_absent.
    apply find_none. exact E.
  - apply Z.eqb_neq in E. apply (history_removeItem_found value w E).
Qed.

Lemma itemTexts_take (l : list (string * QVariant)) (n : nat) :
  (n <= length l)%nat ->
  map (fun i => match nth_error l i with Some (s, _) => s | None => "" end)
      (seq 0 n)
  = take n (map fst l).
Proof.
  revert n; induction l as [|[s d] l IH]; intros [|n] Hn; simpl in *;
    try reflexivity; try lia.
  f_equal. rewrite <- seq_shift, map_map. apply IH. lia.
Qed.

(** The stored list is the front of the history, at most
    [MAX_COMBO_ENTRIES] long. *)
Lemma stored_rememberCombobox group entryName value c w :
  fst (fst (rememberCombobox group entryName value c w)) !! (group, entryName)
  = Some (EntryList
            (take 10 (history (snd (fst (rememberCombobox group entryName value c w)))))).
Proof.
  unfold rememberCombobox; simpl. unfold writeEntry.
  rewrite lookup_insert_eq. do 2 f_equal.
  set (w3 := QComboBox.setCurrentIndex 0 _).
  unfold history, QComboBox.texts, QComboBox.count, MAX_COMBO_ENTRIES.
  erewrite map_ext.
  2:{ intros i. unfold QComboBox.itemText, QComboBox.item.
      replace (Z.of_nat i <? 0) with false by (symmetry; apply Z.ltb_ge; lia).
      rewrite Nat2Z.id. reflexivity. }
  rewrite itemTexts_take by lia.
  destruct (Z.min_spec 10 (Z.of_nat (length (QComboBox.items w3)))) as [[H ->]|[H ->]].
  - reflexivity.
  - rewrite Nat2Z.id. rewrite !firstn_all2; try reflexivity;
      rewrite length_map; lia.
Qed.

Lemma removeFirst_In value x (h : list string) :
  In x (removeFirst value h) -> In x h.
Proof.
  induction h as [|y h IH]; simpl; [tauto|].
  destruct (String.eqb y value); simpl; tauto.
Qed.

Lemma removeFirst_NoDup value (h : list string) :
  List.NoDup h -> List.NoDup (removeFirst value h) /\ ~ In value (removeFirst value h).
Proof.
  induction 1 as [|y h Hy Hh IH]; simpl.
  - split; [constructor | tauto].
  - destruct (String.eqb y value) eqn:E.
    + apply String.eqb_eq in E; subst. auto.
    + apply String.eqb_neq in E. destruct IH as [IH1 IH2]. split.
      * constructor; auto. intros Hin. apply Hy. eapply removeFirst_In; eauto.
      * simpl. intros [->|Hin]; auto.
Qed.

End History.

(** C8.  For a history without duplicates, which is what a box holds that
    was filled by [restoreCombobox] from a list [rememberCombobox] has
    stored and by [rememberCombobox] itself: after [rememberCombobox] the
    value sits at the front of the history, followed by the earlier
    entries in their earlier order; the earlier occurrence of the value is
    removed, so the value occurs once and the history has no duplicates;
    and the list written to the configuration is the front of that
    history, at most 10 entries in most recently used order, again
    without duplicates. *)
Theorem rememberCombobox_most_recent_first
  (group : KConfigGroup) (entryName value : string) (c : KConfig)
  (w : QComboBox.t) :
  List.NoDup (history w) ->
  let c' := fst (fst (rememberCombobox group entryName value c w)) in
  let w' := snd (fst (rememberCombobox group entryName value c w)) in
  history w' = value :: removeFirst value (history w)
  /\ rememberedOnce value (history w')
  /\ List.NoDup (history w')
  /\ c' !! (group, entryName) = Some (EntryList (take 10 (history w')))
  /\ (length (take 10 (history w')) <= 10)%nat
  /\ List.NoDup (take 10 (history w')).
Proof.
  intros Hnd. cbv zeta. rewrite history_rememberCombobox.
  destruct (removeFirst_NoDup value _ Hnd) as [H1 H2].
  assert (Hnd' : List.NoDup (value :: removeFirst value (history w)))
    by (constructor; assumption).
  split; [reflexivity|].
  split; [exists (removeFirst value (history w)); auto|].
  split; [exact Hnd'|].
  split; [rewrite stored_rememberCombobox, history_rememberCombobox; reflexivity|].
  split; [rewrite length_take; lia|].
  rewrite <- (take_drop 10 (value :: removeFirst value (history w))) in Hnd'.
  exact (List.NoDup_app_remove_r _ _ Hnd').
Qed.

(** C8, on a history of two event types. *)
Lemma rememberCombobox_most_recent_first_witness :
  List.NoDup
    (history (restoreCombobox config "eventType" ["instructions"; "cycles"] ∅
                (QComboBox.setEditable true emptyBox)))
  /\ rememberedOnce "cycles"
       (history (snd (fst (rememberCombobox config "eventType" "cycles" ∅
          (restoreCombobox config "eventType" ["instructions"; "cycles"] ∅
             (QComboBox.setEditable true emptyBox)))))).
Proof.
  assert (Hnd : List.NoDup
                  (history (restoreCombobox config "eventType"
                              ["instructions"; "cycles"] ∅
                              (QComboBox.setEditable true emptyBox)))).
  { repeat constructor; simpl; intuition discriminate. }
  split; [exact Hnd|].
  exact (proj1 (proj2 (rememberCombobox_most_recent_first config "eventType"
                         "cycles" ∅
                         (restoreCombobox config "eventType"
                            ["instructions"; "cycles"] ∅
                            (QComboBox.setEditable true emptyBox)) Hnd))).
Defined.

(** The history has to be free of duplicates beforehand, which matters
    for a store that was edited by hand only: a box restored from a list
    that names a value twice keeps the later occurrence, since [findText]
    and [removeItem] deal with the first one only.  The page itself never
    stores such a list. *)
Remark rememberCombobox_leaves_later_duplicate :
  ~ rememberedOnce "cycles"
      (history (snd (fst (rememberCombobox config "eventType" "cycles" ∅
                            twiceStoredBox)))).
Proof.
  intros (rest & Heq & Hnot). vm_compute in Heq.
  injection Heq as <-. apply Hnot. simpl. auto.
Qed.

(** ** What the slots leave alone *)

Ltac split_ifs :=
  repeat match goal with
         | |- context [if ?b then _ else _] => destruct b
         end.

Lemma behind_updateStartRecordingButtonState P s :
  behindValidation (updateStartRecordingButtonState P s) = behindValidation s.
Proof. reflexivity. Qed.

Lemma behind_onWorkingDirectoryNameChanged P folderPath s :
  behindValidation (onWorkingDirectoryNameChanged P folderPath s)
  = behindValidation s.
Proof. unfold onWorkingDirectoryNameChanged. split_ifs; reflexivity. Qed.

Lemma behind_workingDirectory_setText P text s :
  behindValidation (workingDirectory_setText P text s) = behindValidation s.
Proof.
  unfold workingDirectory_setText.
  destruct (String.eqb _ _); [reflexivity|].
  rewrite behind_onWorkingDirectoryNameChanged. reflexivity.
Qed.

Lemma behind_onApplicationNameChanged P filePath s :
  behindValidation (onApplicationNameChanged P filePath s) = behindValidation s.
Proof.
  unfold onApplicationNameChanged.
  destruct (negb (exists_ _)); [reflexivity|].
  destruct (negb (isFile _)); [reflexivity|].
  destruct (negb (isExecutable _)); [reflexivity|].
  etransitivity; [|apply (behind_workingDirectory_setText P
    (readEntry (applicationConfig filePath) "workingDir" ""
       (RecordPage.sharedConfig s)) s)].
  reflexivity.
Qed.

Lemma behind_onOutputFileNameChanged P filePath s :
  behindValidation (onOutputFileNameChanged P filePath s) = behindValidation s.
Proof. unfold onOutputFileNameChanged. split_ifs; reflexivity. Qed.

Lemma behind_outputFile s s' :
  behindValidation s' = behindValidation s ->
  Ui.outputFile (RecordPage.ui s') = Ui.outputFile (RecordPage.ui s).
Proof. unfold behindValidation. intros H. injection H. auto. Qed.

Lemma behind_m_perfRecord s s' :
  behindValidation s' = behindValidation s ->
  RecordPage.m_perfRecord s' = RecordPage.m_perfRecord s.
Proof. unfold behindValidation. intros H. injection H. auto. Qed.

Lemma behind_pending s s' :
  behindValidation s' = behindValidation s -> pending s' = pending s.
Proof.
  unfold behindValidation, pending. intros H. injection H. intros. congruence.
Qed.

Lemma behind_sharedConfig s s' :
  behindValidation s' = behindValidation s ->
  RecordPage.sharedConfig s' = RecordPage.sharedConfig s.
Proof. unfold behindValidation. intros H. injection H. auto. Qed.

Lemma behind_applicationName s s' :
  behindValidation s' = behindValidation s ->
  Ui.applicationName (RecordPage.ui s') = Ui.applicationName (RecordPage.ui s).
Proof. unfold behindValidation. intros H. injection H. auto. Qed.

(** ** The output file *)

Lemma storedOutputPath_outputFile_setText P text s :
  storedOutputPath (outputFile_setText P text s) = text.
Proof.
  unfold outputFile_setText, storedOutputPath.
  destruct (String.eqb _ _) eqn:E.
  - apply String.eqb_eq in E. exact E.
  - rewrite (behind_outputFile _ _ (behind_onOutputFileNameChanged P text _)).
    reflexivity.
Qed.

Lemma substring_whole (s : string) : substring 0 (String.length s) s = s.
Proof. induction s as [|c s IH]; simpl; [reflexivity | now rewrite IH]. Qed.

Lemma substring_suffix (p suffix : string) :
  substring (String.length p) (String.length suffix) (p +:+ suffix) = suffix.
Proof. induction p as [|c p IH]; simpl; [apply substring_whole | exact IH]. Qed.

Lemma length_append (p q : string) :
  String.length (p +:+ q) = (String.length p + String.length q)%nat.
Proof. induction p as [|c p IH]; simpl; [reflexivity | now rewrite IH]. Qed.

Lemma endsWith_append (p suffix : string) :
  QString.endsWith (p +:+ suffix) suffix = true.
Proof.
  unfold QString.endsWith. rewrite length_append.
  replace (String.length p + String.length suffix - String.length suffix)%nat
    with (String.length p) by lia.
  rewrite substring_suffix, String.eqb_refl, andb_true_r.
  apply Nat.leb_le. lia.
Qed.

Lemma storedOutputPath_onOutputFileNameSelected P filePath s :
  storedOutputPath (onOutputFileNameSelected P filePath s)
  = if QString.endsWith filePath ".data" then storedOutputPath s
    else filePath +:+ ".data".
Proof.
  unfold onOutputFileNameSelected.
  destruct (QString.endsWith filePath ".data"); simpl; [reflexivity|].
  apply storedOutputPath_outputFile_setText.
Qed.

(** C7.  When an output path is committed, by return or by the selection of
    a url, a path that does not end with [.data] is stored with [.data]
    appended, and a path that ends with [.data] is stored as it is; in that
    case the slot changes nothing at all. *)
Theorem committed_output_path_gets_extension
  (P : Platform) (filePath : string) (fileUrl : QUrl) (s : RecordPage.t) :
  storedOutputPath (onOutputFileNameSelected P filePath s)
  = (if QString.endsWith filePath ".data" then storedOutputPath s
     else filePath +:+ ".data")
  /\ onOutputFileNameSelected P filePath s
     = (if QString.endsWith filePath ".data" then s
        else outputFile_setText P (filePath +:+ ".data") s)
  /\ onOutputFileUrlChanged P fileUrl s
     = onOutputFileNameSelected P (toLocalFile fileUrl) s
  /\ storedOutputPath (step P OutputFileReturnPressed s)
     = (if QString.endsWith (storedOutputPath s) ".data" then storedOutputPath s
        else storedOutputPath s +:+ ".data")
  /\ storedOutputPath (step P (OutputFileUrlSelected fileUrl) s)
     = (if QString.endsWith (toLocalFile fileUrl) ".data" then toLocalFile fileUrl
        else toLocalFile fileUrl +:+ ".data").
Proof.
  repeat split.
  - apply storedOutputPath_onOutputFileNameSelected.
  - unfold onOutputFileNameSelected.
    destruct (QString.endsWith filePath ".data"); reflexivity.
  - simpl. apply storedOutputPath_onOutputFileNameSelected.
  - simpl. unfold onOutputFileUrlChanged.
    rewrite storedOutputPath_onOutputFileNameSelected.
    rewrite storedOutputPath_outputFile_setText. reflexivity.
Qed.

(** A committed path always ends with the extension, so committing it again
    changes nothing. *)
Lemma committed_output_path_ends_with_extension P filePath s :
  QString.endsWith filePath ".data" = false ->
  QString.endsWith (storedOutputPath (onOutputFileNameSelected P filePath s))
    ".data" = true.
Proof.
  intros H. rewrite storedOutputPath_onOutputFileNameSelected, H.
  apply endsWith_append.
Qed.

(** ** Validation of the input fields *)

Lemma isEmpty_true (t : string) : QString.isEmpty t = true -> t = "".
Proof. destruct t; [reflexivity | discriminate]. Qed.

Lemma errorText_updateStartRecordingButtonState P s :
  errorText (updateStartRecordingButtonState P s) = errorText s.
Proof. reflexivity. Qed.

(** The start button is enabled by [updateStartRecordingButtonState] only
    while the error message is empty. *)
Lemma updateStartRecordingButtonState_needs_no_error P s :
  errorText (updateStartRecordingButtonState P s) <> "" ->
  startEnabled (updateStartRecordingButtonState P s) = false.
Proof.
  rewrite errorText_updateStartRecordingButtonState.
  unfold startEnabled, updateStartRecordingButtonState. simpl.
  intros H. destruct (QString.isEmpty (errorText s)) eqn:E.
  - apply isEmpty_true in E. contradiction.
  - apply andb_false_r.
Qed.

Lemma blocked_startGuard s s' : startGuard s' = startGuard s -> blocked s -> blocked s'.
Proof. unfold startGuard, blocked. intros [= -> ->]. auto. Qed.

Lemma blocked_updateStartRecordingButtonState P s :
  blocked (updateStartRecordingButtonState P s).
Proof. exact (updateStartRecordingButtonState_needs_no_error P s). Qed.

Lemma blocked_onApplicationNameChanged P filePath s :
  blocked (onApplicationNameChanged P filePath s).
Proof. apply blocked_updateStartRecordingButtonState. Qed.

Lemma blocked_onWorkingDirectoryNameChanged P folderPath s :
  blocked (onWorkingDirectoryNameChanged P folderPath s).
Proof. apply blocked_updateStartRecordingButtonState. Qed.

Lemma blocked_onOutputFileNameChanged P filePath s :
  blocked (onOutputFileNameChanged P filePath s).
Proof. apply blocked_updateStartRecordingButtonState. Qed.

Lemma blocked_workingDirectory_setText P text s :
  blocked s -> blocked (workingDirectory_setText P text s).
Proof.
  intros H. unfold workingDirectory_setText.
  destruct (String.eqb _ _); [exact H|apply blocked_onWorkingDirectoryNameChanged].
Qed.

Lemma blocked_outputFile_setText P text s :
  blocked s -> blocked (outputFile_setText P text s).
Proof.
  intros H. unfold outputFile_setText.
  destruct (String.eqb _ _); [exact H|apply blocked_onOutputFileNameChanged].
Qed.

Lemma blocked_onOutputFileNameSelected P filePath s :
  blocked s -> blocked (onOutputFileNameSelected P filePath s).
Proof.
  intros H. unfold onOutputFileNameSelected.
  destruct (negb _); [now apply blocked_outputFile_setText|exact H].
Qed.

Lemma blocked_announced P (announced : list string) s :
  blocked s ->
  blocked (fold_left (fun s text => onApplicationNameChanged P text s) announced s).
Proof.
  revert s. induction announced as [|text announced IH]; intros s H; simpl.
  - exact H.
  - apply IH, blocked_onApplicationNameChanged.
Qed.

Lemma startGuard_on_m_perfRecord g s : startGuard (RecordPage.on_m_perfRecord g s) = startGuard s.
Proof. reflexivity. Qed.

Lemma startGuard_on_sharedConfig g s : startGuard (RecordPage.on_sharedConfig g s) = startGuard s.
Proof. reflexivity. Qed.

Lemma startGuard_on_recordTypeComboBox g s :
  startGuard (RecordPage.on_ui (Ui.on_recordTypeComboBox g) s) = startGuard s.
Proof. reflexivity. Qed.

Lemma startGuard_on_applicationName g s :
  startGuard (RecordPage.on_ui (Ui.on_applicationName g) s) = startGuard s.
Proof. reflexivity. Qed.

Lemma startGuard_on_eventTypeBox g s :
  startGuard (RecordPage.on_ui (Ui.on_eventTypeBox g) s) = startGuard s.
Proof. reflexivity. Qed.

Lemma startGuard_started s :
  startGuard (RecordPage.on_ui
          (Ui.on_startRecordingButton (QPushButton.setText (QString.tr "Stop Recording")))
          (RecordPage.on_ui
             (Ui.on_startRecordingButton (QPushButton.setIcon "media-playback-stop"))
             (showRecordPage s)))
  = startGuard s.
Proof. reflexivity. Qed.

Lemma blocked_rememberApplication P application appParameters workingDir s :
  blocked s -> blocked (rememberApplication P application appParameters workingDir s).
Proof.
  intros H. unfold rememberApplication.
  destruct (rememberCombobox _ _ _ _ _) as [[c combo] announced].
  apply blocked_announced.
  eapply blocked_startGuard; [|exact H].
  rewrite startGuard_on_applicationName, !startGuard_on_sharedConfig. reflexivity.
Qed.

Lemma blocked_onStartRecordingButtonClicked P checked s :
  blocked s -> blocked (onStartRecordingButtonClicked P checked s).
Proof.
  intros H. unfold onStartRecordingButtonClicked. destruct checked.
  - destruct (rememberCombobox config "eventType" _ _ _) as [[c combo] announced].
    cbv beta iota zeta.
    eapply blocked_startGuard; [apply startGuard_on_recordTypeComboBox|].
    assert (H0 : forall g1 g2 g3,
              blocked
                (RecordPage.on_ui (Ui.on_eventTypeBox g1)
                   (RecordPage.on_sharedConfig g2
                      (RecordPage.on_sharedConfig g3
                         (RecordPage.on_ui
                            (Ui.on_startRecordingButton
                               (QPushButton.setText (QString.tr "Stop Recording")))
                            (RecordPage.on_ui
                               (Ui.on_startRecordingButton
                                  (QPushButton.setIcon "media-playback-stop"))
                               (showRecordPage s))))))).
    { intros g1 g2 g3. eapply blocked_startGuard; [|exact H].
      rewrite startGuard_on_eventTypeBox, !startGuard_on_sharedConfig. apply startGuard_started. }
    destruct (QVariant_eqb _ _);
      (eapply blocked_startGuard; [apply startGuard_on_m_perfRecord|]).
    + apply blocked_rememberApplication, H0.
    + apply H0.
  - cbv beta iota zeta. eapply blocked_startGuard; [|exact H]. reflexivity.
Qed.

Lemma blocked_startRecordingButton_setChecked P checked s :
  blocked s -> blocked (startRecordingButton_setChecked P checked s).
Proof.
  intros H. unfold startRecordingButton_setChecked.
  destruct (Bool.eqb _ _); [exact H|].
  apply blocked_onStartRecordingButtonClicked.
  eapply blocked_startGuard; [|exact H]. reflexivity.
Qed.

Lemma blocked_ProcessModel_mergeProcesses P processes s :
  blocked s -> blocked (ProcessModel_mergeProcesses P processes s).
Proof.
  intros H. unfold ProcessModel_mergeProcesses. cbv zeta.
  destruct (bool_decide _).
  - eapply blocked_startGuard; [|exact H]. reflexivity.
  - apply blocked_updateStartRecordingButtonState.
Qed.

Lemma blocked_updateProcessesFinished P s :
  blocked s -> blocked (updateProcessesFinished P s).
Proof.
  intros H. unfold updateProcessesFinished. cbv zeta.
  destruct (Page_eqb _ _).
  - eapply blocked_startGuard; [|apply blocked_updateStartRecordingButtonState].
    reflexivity.
  - now apply blocked_ProcessModel_mergeProcesses.
Qed.

(** Every event other than the failure signal of the recorder keeps a
    non-empty error message and an enabled start button apart. *)
Lemma blocked_step (P : Platform) (e : Event) (s : RecordPage.t) :
  (forall errorMessage, e <> PerfRecordingFailed errorMessage) ->
  blocked s -> blocked (step P e s).
Proof.
  intros Hne H. destruct e; cbn [step]; cbv zeta.
  - destruct (_ && _); [|exact H].
    unfold currentIndexChanged. apply blocked_updateStartRecordingButtonState.
  - destruct (String.eqb _ _); [exact H|apply blocked_onApplicationNameChanged].
  - eapply blocked_startGuard; [|exact H]. reflexivity.
  - now apply blocked_workingDirectory_setText.
  - now apply blocked_outputFile_setText.
  - now apply blocked_onOutputFileNameSelected.
  - unfold onOutputFileUrlChanged.
    now apply blocked_onOutputFileNameSelected, blocked_outputFile_setText.
  - eapply blocked_startGuard; [|exact H]. reflexivity.
  - destruct (_ && _); [|exact H]. eapply blocked_startGuard; [|exact H]. reflexivity.
  - destruct (_ && _); [|exact H].
    apply blocked_updateStartRecordingButtonState.
  - destruct (QPushButton.enabled _); [|exact H].
    now apply blocked_startRecordingButton_setChecked.
  - destruct (isRunning _ _); [|exact H].
    assert (H1 : blocked (RecordPage.on_threadPool
                (List.filter (fun f => negb (Nat.eqb (futureId f) id))) s))
      by (eapply blocked_startGuard; [|exact H]; reflexivity).
    destruct (future _) as [watched|]; [|exact H1].
    destruct (Nat.eqb watched id); [|exact H1].
    apply blocked_updateProcessesFinished.
    eapply blocked_startGuard; [|exact H1]. reflexivity.
  - destruct (RecordPage.timers s) as [|deadline armed]; [exact H|].
    destruct (deadline <=? RecordPage.clock s)%N; [|exact H].
    eapply blocked_startGuard; [|exact H]. reflexivity.
  - eapply blocked_startGuard; [|exact H]. reflexivity.
  - unfold recordingFinished. cbv zeta.
    eapply blocked_startGuard;
      [|apply (blocked_startRecordingButton_setChecked P false s H)].
    reflexivity.
  - exfalso. now apply (Hne errorMessage).
  - eapply blocked_startGuard; [|exact H]. reflexivity.
  - eapply blocked_startGuard; [|exact H]. reflexivity.
Qed.

Lemma startGuard_on_callGraphComboBox g s :
  startGuard (RecordPage.on_ui (Ui.on_callGraphComboBox g) s) = startGuard s.
Proof. reflexivity. Qed.

Lemma startGuard_showRecordPage s : startGuard (showRecordPage s) = startGuard s.
Proof. reflexivity. Qed.

(** The page leaves its constructor with the start button guarded,
    whatever the form and the stored configuration. *)
Ltac enter_constructor intel :=
  unfold RecordPage_new, deref; cbv zeta;
  destruct (QComboBox.editable (Ui.eventTypeBox _)); [|discriminate];
  cbn [bind];
  destruct (Page_eqb (Ui.stackedWidget _) launchAppPage); [|discriminate];
  cbn [bind];
  destruct (isIntel _) as [intel| |]; [|discriminate..];
  cbn [bind].

Lemma blocked_RecordPage_new P form devices c s :
  RecordPage_new P form devices c = Ok s -> blocked s.
Proof.
  enter_constructor intel.
  match goal with
  | |- context [updateStartRecordingButtonState P ?s0] =>
      pose proof (blocked_updateStartRecordingButtonState P s0) as H0;
      generalize dependent (updateStartRecordingButtonState P s0)
  end.
  intros s0 H0.
  match goal with
  | |- Ok ?r = Ok s -> _ => assert (H : blocked r); [|now intros [= <-]]
  end.
  destruct (negb _);
    [eapply blocked_startGuard; [apply startGuard_on_callGraphComboBox|]|];
    (eapply blocked_startGuard; [apply startGuard_on_eventTypeBox|]);
    apply blocked_announced;
    (eapply blocked_startGuard; [apply startGuard_on_applicationName|]);
    (eapply blocked_startGuard; [apply startGuard_showRecordPage|]);
    (eapply blocked_startGuard; [apply startGuard_on_callGraphComboBox|]);
    (destruct intel;
     [eapply blocked_startGuard; [apply startGuard_on_callGraphComboBox|]|]);
    (eapply blocked_startGuard; [apply startGuard_on_callGraphComboBox|]);
    (eapply blocked_startGuard; [apply startGuard_on_callGraphComboBox|]);
    (eapply blocked_startGuard; [apply startGuard_on_callGraphComboBox|]);
    exact H0.
Qed.

Lemma blocked_visited (P : Platform) (events : list Event) (s : RecordPage.t) :
  List.Forall (fun e => forall errorMessage, e <> PerfRecordingFailed errorMessage)
    events ->
  blocked s ->
  List.Forall blocked (visited P events s).
Proof.
  intros Hev. revert s. induction Hev as [|e events He Hev IH]; intros s H; simpl.
  - constructor; [exact H|constructor].
  - constructor; [exact H|]. apply IH. now apply blocked_step.
Qed.

(** Each failed check of a validation slot leaves a non-empty message, so
    each of them disables the start button. *)
Lemma rejected_application_disables_start P filePath s :
  let application := fileInfo P (findExecutable P (tildeExpand P filePath)) in
  exists_ application && isFile application && isExecutable application = false ->
  errorText (onApplicationNameChanged P filePath s) <> ""
  /\ startEnabled (onApplicationNameChanged P filePath s) = false.
Proof.
  intros application H.
  assert (E : errorText (onApplicationNameChanged P filePath s) <> "").
  { unfold onApplicationNameChanged. fold application.
    destruct (exists_ application); simpl; [|discriminate].
    destruct (isFile application); simpl; [|discriminate].
    destruct (isExecutable application); simpl; [discriminate H|discriminate]. }
  split; [exact E|].
  revert E. apply updateStartRecordingButtonState_needs_no_error.
Qed.

Lemma rejected_working_directory_disables_start P folderPath s :
  let folder :=
    fileInfo P (toLocalFile
      (url P (KUrlRequester.text (Ui.workingDirectory (RecordPage.ui s))))) in
  exists_ folder && isDir folder && isWritable folder = false ->
  errorText (onWorkingDirectoryNameChanged P folderPath s) <> ""
  /\ startEnabled (onWorkingDirectoryNameChanged P folderPath s) = false.
Proof.
  intros folder H.
  assert (E : errorText (onWorkingDirectoryNameChanged P folderPath s) <> "").
  { unfold onWorkingDirectoryNameChanged. fold folder.
    destruct (exists_ folder); simpl; [|discriminate].
    destruct (isDir folder); simpl; [|discriminate].
    destruct (isWritable folder); simpl; [discriminate H|discriminate]. }
  split; [exact E|].
  revert E. apply updateStartRecordingButtonState_needs_no_error.
Qed.

Lemma rejected_output_file_disables_start P filePath s :
  let file := fileInfo P (toLocalFile (url P (storedOutputPath s))) in
  let folder := fileInfo P (absolutePath file) in
  exists_ folder && isDir folder && isWritable folder
  && QString.endsWith (absoluteFilePath file) ".data" = false ->
  errorText (onOutputFileNameChanged P filePath s) <> ""
  /\ startEnabled (onOutputFileNameChanged P filePath s) = false.
Proof.
  intros file folder H.
  assert (E : errorText (onOutputFileNameChanged P filePath s) <> "").
  { unfold onOutputFileNameChanged. fold (storedOutputPath s). fold file. fold folder.
    destruct (exists_ folder); simpl; [|discriminate].
    destruct (isDir folder); simpl; [|discriminate].
    destruct (isWritable folder); simpl; [|discriminate].
    destruct (QString.endsWith _ _); simpl; [discriminate H|discriminate]. }
  split; [exact E|].
  revert E. apply updateStartRecordingButtonState_needs_no_error.
Qed.

Lemma workingDirectory_onWorkingDirectoryNameChanged P folderPath s :
  Ui.workingDirectory (RecordPage.ui (onWorkingDirectoryNameChanged P folderPath s))
  = Ui.workingDirectory (RecordPage.ui s).
Proof. unfold onWorkingDirectoryNameChanged. split_ifs; reflexivity. Qed.

Lemma text_workingDirectory_setText P text s :
  KUrlRequester.text
    (Ui.workingDirectory (RecordPage.ui (workingDirectory_setText P text s)))
  = text.
Proof.
  unfold workingDirectory_setText. destruct (String.eqb _ _) eqn:E.
  - now apply String.eqb_eq in E.
  - now rewrite workingDirectory_onWorkingDirectoryNameChanged.
Qed.

(** X14.  Running the application slot a second time for the same text
    changes nothing, so it does not matter that the constructor connects it
    twice, to the requester and to the line edit of its combo box. *)
Lemma onApplicationNameChanged_again P filePath s :
  onApplicationNameChanged P filePath (onApplicationNameChanged P filePath s)
  = onApplicationNameChanged P filePath s.
Proof.
  unfold onApplicationNameChanged.
  destruct (negb (exists_ _)) eqn:E1; [reflexivity|].
  destruct (negb (isFile _)) eqn:E2; [reflexivity|].
  destruct (negb (isExecutable _)) eqn:E3; [reflexivity|].
  cbv zeta.
  set (w := readEntry (applicationConfig filePath) "workingDir" ""
              (RecordPage.sharedConfig s)).
  pose proof (text_workingDirectory_setText P w s) as Ht.
  pose proof (behind_sharedConfig _ _ (behind_workingDirectory_setText P w s)) as Hc.
  set (X := workingDirectory_setText P w s) in *.
  match goal with |- _ = ?R => set (F := R) end.
  assert (HcF : RecordPage.sharedConfig F = RecordPage.sharedConfig s)
    by (rewrite <- Hc; reflexivity).
  assert (HtF : KUrlRequester.text (Ui.workingDirectory (RecordPage.ui F)) = w)
    by (rewrite <- Ht; reflexivity).
  rewrite HcF. fold w.
  unfold workingDirectory_setText at 1 2.
  rewrite HtF, String.eqb_refl, HcF.
  unfold F. rewrite Hc. reflexivity.
Qed.

(** ** Merging snapshots into the process table *)

Section Merge.

Implicit Types (incoming t : ProcDataList) (r old : ProcData) (p : N).

Lemma lookupLast_snoc incoming r p :
  lookupLast (incoming ++ [r]) p
  = if N.eqb (pid r) p then Some r else lookupLast incoming p.
Proof.
  induction incoming as [|x incoming IH]; simpl.
  - reflexivity.
  - rewrite IH. destruct (N.eqb (pid r) p); reflexivity.
Qed.

Lemma lookupLast_pid incoming p r :
  lookupLast incoming p = Some r -> pid r = p.
Proof.
  induction incoming as [|x incoming IH]; simpl; [discriminate|].
  destruct (lookupLast incoming p).
  - intros [= <-]. now apply IH.
  - destruct (N.eqb (pid x) p) eqn:E; [|discriminate].
    intros [= <-]. now apply N.eqb_eq.
Qed.

Lemma pid_latest incoming old : pid (latest incoming old) = pid old.
Proof.
  unfold latest. destruct (lookupLast incoming (pid old)) eqn:E; [|reflexivity].
  now apply lookupLast_pid in E.
Qed.

Lemma hasPid_app p t t' : hasPid p (t ++ t') = hasPid p t || hasPid p t'.
Proof. apply existsb_app. Qed.

Lemma hasPid_In p t : hasPid p t = true <-> exists old, In old t /\ pid old = p.
Proof.
  unfold hasPid. rewrite existsb_exists.
  split; intros (old & H1 & H2); exists old; split; auto; now apply N.eqb_eq.
Qed.

Lemma hasPid_map p t (g : ProcData -> ProcData) :
  (forall old, pid (g old) = pid old) -> hasPid p (map g t) = hasPid p t.
Proof.
  intros Hg. unfold hasPid. induction t as [|x t IH]; simpl; [reflexivity|].
  now rewrite Hg, IH.
Qed.

Lemma hasPid_upsert p t r :
  hasPid p (upsert t r) = hasPid p t || N.eqb (pid r) p.
Proof.
  unfold upsert. destruct (hasPid (pid r) t) eqn:E.
  - rewrite hasPid_map.
    + destruct (N.eqb (pid r) p) eqn:E'; [|now rewrite orb_false_r].
      apply N.eqb_eq in E'. subst. now rewrite E.
    + intros old. destruct (N.eqb (pid old) (pid r)) eqn:E'; [|reflexivity].
      symmetry. now apply N.eqb_eq.
  - rewrite hasPid_app. simpl. now rewrite orb_false_r.
Qed.

(** Every process id of the snapshot has a row once the records are applied. *)
Lemma hasPid_fold_upsert incoming t p :
  hasPid p (fold_left upsert incoming t) = hasPid p t || hasPid p incoming.
Proof.
  revert t. induction incoming as [|r incoming IH]; intros t; simpl.
  - now rewrite orb_false_r.
  - rewrite IH, hasPid_upsert. rewrite <- orb_assoc. reflexivity.
Qed.

(** On a table that has a row for every process id of the snapshot, applying
    the records replaces each row by the latest record for its process. *)
Lemma fold_upsert_known incoming t :
  (forall r, In r incoming -> hasPid (pid r) t = true) ->
  fold_left upsert incoming t = map (latest incoming) t.
Proof.
  induction incoming as [|r incoming IH] using rev_ind; intros H.
  - simpl. unfold latest. simpl. symmetry. apply map_id.
  - rewrite fold_left_app. simpl.
    rewrite IH by (intros x Hx; apply H, in_or_app; auto).
    unfold upsert. rewrite hasPid_map by apply pid_latest.
    rewrite (H r) by (apply in_or_app; right; left; reflexivity).
    rewrite map_map. apply map_ext. intros old.
    unfold latest at 3. rewrite lookupLast_snoc, pid_latest.
    rewrite (N.eqb_sym (pid r)).
    destruct (N.eqb (pid old) (pid r)); reflexivity.
Qed.

(** After the records are applied, a row whose process the snapshot knows
    holds the latest record for it. *)
Lemma fold_upsert_latest incoming t old :
  In old (fold_left upsert incoming t) ->
  hasPid (pid old) incoming = true ->
  lookupLast incoming (pid old) = Some old.
Proof.
  revert old. induction incoming as [|r incoming IH] using rev_ind; intros old.
  - simpl. discriminate.
  - rewrite fold_left_app, hasPid_app, lookupLast_snoc. simpl.
    rewrite orb_false_r.
    set (t' := fold_left upsert incoming t) in *.
    unfold upsert. destruct (hasPid (pid r) t') eqn:E.
    + rewrite in_map_iff. intros (o & Ho & Hin).
      destruct (N.eqb (pid o) (pid r)) eqn:E'.
      * subst old. rewrite N.eqb_refl. reflexivity.
      * subst old. rewrite N.eqb_sym, E', orb_false_r. now apply IH.
    + intros Hin. apply in_app_or in Hin. destruct Hin as [Hin|[<-|[]]].
      * destruct (N.eqb (pid r) (pid old)) eqn:E'.
        -- apply N.eqb_eq in E'. exfalso.
           assert (hasPid (pid r) t' = true) by (apply hasPid_In; eauto).
           congruence.
        -- rewrite orb_false_r. now apply IH.
      * rewrite N.eqb_refl. reflexivity.
Qed.

Lemma filter_all {A} (f : A -> bool) (l : list A) :
  (forall x, In x l -> f x = true) -> List.filter f l = l.
Proof.
  induction l as [|x l IH]; simpl; intros H; [reflexivity|].
  rewrite (H x) by auto. f_equal. apply IH. auto.
Qed.

(** The merged table has a row for exactly the process ids of the
    snapshot (spec section 8). *)
Lemma hasPid_mergeProcesses incoming t p :
  hasPid p (mergeProcesses incoming t) = hasPid p incoming.
Proof.
  unfold mergeProcesses.
  destruct (hasPid p incoming) eqn:E.
  - assert (H : hasPid p (fold_left upsert incoming t) = true)
      by (rewrite hasPid_fold_upsert, E; apply orb_true_r).
    apply hasPid_In in H. destruct H as (old & Hin & Hp).
    apply hasPid_In. exists old. split; [|exact Hp].
    apply filter_In. split; [exact Hin|]. now rewrite Hp.
  - destruct (hasPid p (List.filter _ _)) eqn:E'; [|reflexivity].
    apply hasPid_In in E'. destruct E' as (old & Hin & Hp).
    apply filter_In in Hin. destruct Hin as [_ Hin].
    rewrite Hp in Hin. congruence.
Qed.

Lemma mergeProcesses_fixed incoming t :
  mergeProcesses incoming (mergeProcesses incoming t) = mergeProcesses incoming t.
Proof.
  set (t1 := mergeProcesses incoming t).
  assert (Hlatest : forall old, In old t1 -> latest incoming old = old).
  { intros old Hin. unfold t1, mergeProcesses in Hin.
    apply filter_In in Hin. destruct Hin as [Hin Hp].
    unfold latest. now rewrite (fold_upsert_latest incoming t old Hin Hp). }
  unfold mergeProcesses at 1.
  rewrite fold_upsert_known.
  - rewrite (map_ext_in _ id), map_id by exact Hlatest.
    unfold t1, mergeProcesses. apply filter_all.
    intros old Hin. apply filter_In in Hin. tauto.
  - intros r Hr. unfold t1. rewrite hasPid_mergeProcesses.
    apply hasPid_In. eauto.
Qed.

Lemma mergeSelection_fixed incoming (sel : list N) :
  mergeSelection incoming (mergeSelection incoming sel)
  = mergeSelection incoming sel.
Proof.
  unfold mergeSelection. apply filter_all.
  intros p Hin. apply filter_In in Hin. tauto.
Qed.

End Merge.

Lemma on_m_processModel_fixed (g : ProcDataList -> ProcDataList) (s : RecordPage.t) :
  g (RecordPage.m_processModel s) = RecordPage.m_processModel s ->
  RecordPage.on_m_processModel g s = s.
Proof. destruct s; unfold RecordPage.on_m_processModel; simpl. now intros ->. Qed.

Lemma on_selectionModel_fixed (g : list N -> list N) (s : RecordPage.t) :
  g (RecordPage.selectionModel s) = RecordPage.selectionModel s ->
  RecordPage.on_selectionModel g s = s.
Proof. destruct s; unfold RecordPage.on_selectionModel; simpl. now intros ->. Qed.

Lemma ProcessModel_mergeProcesses_table P incoming s :
  RecordPage.m_processModel (ProcessModel_mergeProcesses P incoming s)
  = mergeProcesses incoming (RecordPage.m_processModel s)
  /\ RecordPage.selectionModel (ProcessModel_mergeProcesses P incoming s)
     = mergeSelection incoming (RecordPage.selectionModel s).
Proof.
  unfold ProcessModel_mergeProcesses. simpl.
  destruct (bool_decide _); split; reflexivity.
Qed.

(** C9.  Merging the same snapshot a second time changes nothing: neither
    the table, nor the selection bound to its rows, nor anything else on the
    page. *)
Theorem mergeProcesses_idempotent
  (P : Platform) (incoming t : ProcDataList) (s : RecordPage.t) :
  mergeProcesses incoming (mergeProcesses incoming t) = mergeProcesses incoming t
  /\ ProcessModel_mergeProcesses P incoming (ProcessModel_mergeProcesses P incoming s)
     = ProcessModel_mergeProcesses P incoming s.
Proof.
  split; [apply mergeProcesses_fixed|].
  destruct (ProcessModel_mergeProcesses_table P incoming s) as [Ht Hs].
  set (s1 := ProcessModel_mergeProcesses P incoming s) in *.
  unfold ProcessModel_mergeProcesses at 1.
  rewrite (on_m_processModel_fixed _ s1)
    by (rewrite Ht; apply mergeProcesses_fixed).
  rewrite (on_selectionModel_fixed _ s1)
    by (rewrite Hs; apply mergeSelection_fixed).
  rewrite bool_decide_eq_true_2; reflexivity.
Qed.

Example mergeProcesses_example :
  mergeProcesses [process 9 "bash"; process 12 "perf"]
                 [process 7 "vim"; process 9 "sh"]
  = [process 9 "bash"; process 12 "perf"].
Proof. reflexivity. Qed.

(** ** Starting a recording *)

Lemma behind_announced P (announced : list string) s :
  behindValidation
    (fold_left (fun s text => onApplicationNameChanged P text s) announced s)
  = behindValidation s.
Proof.
  revert s. induction announced as [|text announced IH]; intros s; simpl.
  - reflexivity.
  - rewrite IH. apply behind_onApplicationNameChanged.
Qed.

Lemma rememberApplication_keeps P application appParameters workingDir s :
  Ui.outputFile (RecordPage.ui (rememberApplication P application appParameters workingDir s))
  = Ui.outputFile (RecordPage.ui s)
  /\ RecordPage.m_perfRecord (rememberApplication P application appParameters workingDir s)
     = RecordPage.m_perfRecord s
  /\ pending (rememberApplication P application appParameters workingDir s)
     = pending s.
Proof.
  unfold rememberApplication.
  destruct (rememberCombobox _ _ _ _ _) as [[c combo] announced].
  repeat split.
  - rewrite (behind_outputFile _ _ (behind_announced P announced _)). reflexivity.
  - rewrite (behind_m_perfRecord _ _ (behind_announced P announced _)). reflexivity.
  - rewrite (behind_pending _ _ (behind_announced P announced _)). reflexivity.
Qed.

(** X7.  The application history on the page: [rememberApplication] leaves
    the history of the application box and the stored [applications] list
    as [rememberCombobox] makes them (the application in front, its first
    earlier occurrence removed, the first ten stored); the slot that
    validates the text the box announces touches neither. *)
Lemma rememberApplication_history P application appParameters workingDir s :
  let s' := rememberApplication P application appParameters workingDir s in
  history (Ui.applicationName (RecordPage.ui s'))
  = application :: removeFirst application
                     (history (Ui.applicationName (RecordPage.ui s)))
  /\ RecordPage.sharedConfig s' !! (config, "applications")
     = Some (EntryList (take 10 (history (Ui.applicationName (RecordPage.ui s'))))).
Proof.
  cbv zeta. unfold rememberApplication.
  match goal with
  | |- context [rememberCombobox ?g ?e ?v ?c ?w] =>
      pose proof (history_rememberCombobox g e v c w) as Hh;
      pose proof (stored_rememberCombobox g e v c w) as Hs;
      destruct (rememberCombobox g e v c w) as [[c' combo] announced]
  end.
  simpl in Hh, Hs.
  rewrite (behind_applicationName _ _ (behind_announced P announced _)).
  rewrite (behind_sharedConfig _ _ (behind_announced P announced _)).
  split; [exact Hh|exact Hs].
Qed.

Lemma selectedPids_app (acc : list string) (indexes : list QModelIndex) :
  fold_left
    (fun pids item =>
       if column item =? 0
       then pids ++ [QVariant_toString (PIDRole item)]
       else pids)
    indexes acc
  = acc ++ selectedPids indexes.
Proof.
  unfold selectedPids. revert acc.
  induction indexes as [|item indexes IH]; intros acc; simpl.
  - now rewrite app_nil_r.
  - rewrite IH. rewrite (IH (if column item =? 0 then _ else _)).
    destruct (column item =? 0); simpl; [|reflexivity].
    now rewrite <- app_assoc.
Qed.

Lemma QVariant_toString_pid (p : N) :
  QVariant_toString (IntData (Z.of_N p)) = QString.number p.
Proof.
  unfold QVariant_toString. destruct (Z.of_N p) eqn:E.
  - now rewrite <- E, N2Z.id.
  - now rewrite <- E, N2Z.id.
  - pose proof (N2Z.is_nonneg p). lia.
Qed.

Lemma selectedPids_concat (l1 l2 : list QModelIndex) :
  selectedPids (l1 ++ l2) = selectedPids l1 ++ selectedPids l2.
Proof.
  unfold selectedPids at 1. rewrite fold_left_app.
  fold (selectedPids l1). apply selectedPids_app.
Qed.

(** The recorder is handed the process id of each selected row, once, in
    the order of the selection. *)
Lemma selectedPids_selectedIndexes (sel : list N) :
  selectedPids (selectedIndexes sel) = map QString.number sel.
Proof.
  induction sel as [|p sel IH]; [reflexivity|].
  change (selectedIndexes (p :: sel))
    with (map (fun c => {| row := p; column := c |}) ProcessModel_columns
          ++ selectedIndexes sel).
  rewrite selectedPids_concat, IH. simpl. f_equal.
  unfold selectedPids, PIDRole. simpl. apply QVariant_toString_pid.
Qed.

Lemma isEmpty_false (t : string) : QString.isEmpty t = false <-> t <> "".
Proof. destruct t; simpl; split; congruence. Qed.

Lemma adjacent_In {A} (a b : A) (l : list A) : adjacent a b l -> In b l.
Proof.
  intros (l1 & l2 & ->). apply in_or_app. right. right. left. reflexivity.
Qed.

Lemma perfOptionsFor_not_In_empty callGraphOption eventType :
  ~ In "" (perfOptionsFor callGraphOption eventType).
Proof.
  unfold perfOptionsFor. intros H. apply in_app_or in H.
  destruct (QString.isEmpty callGraphOption) eqn:E1,
           (QString.isEmpty eventType) eqn:E2;
    apply isEmpty_false in E1 || clear E1;
    apply isEmpty_false in E2 || clear E2;
    simpl in H; intuition (try discriminate; congruence).
Qed.

(** An option pair is on the list exactly when its value is not empty. *)
Lemma perfOptionsFor_adjacent callGraphOption eventType :
  (adjacent "--call-graph" callGraphOption (perfOptionsFor callGraphOption eventType)
   <-> callGraphOption <> "")
  /\ (adjacent "--event" eventType (perfOptionsFor callGraphOption eventType)
      <-> eventType <> "").
Proof.
  split; split.
  - intros H ->. apply adjacent_In in H.
    now apply perfOptionsFor_not_In_empty in H.
  - intros H. apply isEmpty_false in H. unfold perfOptionsFor. rewrite H.
    exists [], (if QString.isEmpty eventType then [] else ["--event"; eventType]).
    reflexivity.
  - intros H ->. apply adjacent_In in H.
    now apply perfOptionsFor_not_In_empty in H.
  - intros H. apply isEmpty_false in H. unfold perfOptionsFor. rewrite H.
    exists (if QString.isEmpty callGraphOption then []
            else ["--call-graph"; callGraphOption]), [].
    reflexivity.
Qed.

Lemma perfOptions_built (callGraphOption eventType : string) :
  (if negb (QString.isEmpty eventType)
   then (if negb (QString.isEmpty callGraphOption)
         then [] ++ ["--call-graph"; callGraphOption] else [])
        ++ ["--event"; eventType]
   else (if negb (QString.isEmpty callGraphOption)
         then [] ++ ["--call-graph"; callGraphOption] else []))
  = perfOptionsFor callGraphOption eventType.
Proof.
  unfold perfOptionsFor.
  destruct (QString.isEmpty eventType), (QString.isEmpty callGraphOption);
    reflexivity.
Qed.

(** What one start of a recording hands to the recorder. *)
Lemma onStartRecordingButtonClicked_call (P : Platform) (s : RecordPage.t) :
  let u := RecordPage.ui s in
  let perfOptions :=
    perfOptionsFor
      (QVariant_toString (QComboBox.currentData (Ui.callGraphComboBox u)))
      (QComboBox.currentText (Ui.eventTypeBox u)) in
  let outputPath := toLocalFile (url P (storedOutputPath s)) in
  let workingDir := KUrlRequester.text (Ui.workingDirectory u) in
  RecordPage.m_perfRecord (onStartRecordingButtonClicked P true s)
  = RecordPage.m_perfRecord s ++
    [ if QVariant_eqb (QComboBox.currentData (Ui.recordTypeComboBox u))
                      (IntData LaunchApplication)
      then record_launch perfOptions outputPath
             (tildeExpand P (QComboBox.currentText (Ui.applicationName u)))
             (splitArgs P (Ui.applicationParametersBox u))
             (if QString.isEmpty workingDir
              then KUrlRequester.placeholderText (Ui.workingDirectory u)
              else workingDir)
      else record_attach perfOptions outputPath
             (map QString.number (RecordPage.selectionModel s)) ].
Proof.
  cbv zeta. unfold onStartRecordingButtonClicked.
  destruct (rememberCombobox config "eventType" _ _ _) as [[c combo] announced] eqn:R.
  cbn -[rememberApplication selectedPids selectedIndexes perfOptionsFor].
  rewrite !perfOptions_built.
  destruct (QVariant_eqb _ _).
  - cbn -[rememberApplication perfOptionsFor].
    match goal with
    | |- context [rememberApplication P ?a ?b ?c ?t] =>
        destruct (rememberApplication_keeps P a b c t) as (Ho & Hr & _);
        rewrite Ho, Hr
    end.
    reflexivity.
  - cbn -[selectedPids selectedIndexes perfOptionsFor].
    rewrite selectedPids_selectedIndexes. reflexivity.
Qed.

(** When the application name validates, the placeholder of the working
    directory becomes the directory of the executable that was found. *)
Lemma placeholder_after_validation (P : Platform) (filePath : string)
  (s : RecordPage.t) :
  let application := fileInfo P (findExecutable P (tildeExpand P filePath)) in
  exists_ application && isFile application && isExecutable application = true ->
  KUrlRequester.placeholderText
    (Ui.workingDirectory (RecordPage.ui (onApplicationNameChanged P filePath s)))
  = executableDirectory P filePath.
Proof.
  intros application H.
  apply andb_prop in H. destruct H as [H H3].
  apply andb_prop in H. destruct H as [H1 H2].
  unfold onApplicationNameChanged. fold application.
  rewrite H1, H2, H3. reflexivity.
Qed.

(** C6 (as stated) fails: with the working directory field empty, the
    recorder is handed the placeholder of the field.  On [stalePage] that is
    still the directory of an executable entered earlier, not one of the
    path that is launched. *)
Lemma start_recording_uses_stale_working_directory :
  ~ fallsBackToExecutableDirectory demo stalePage.
Proof.
  intros H.
  specialize (H eq_refl ["--call-graph"; "dwarf"] "/tmp/out.data"
                "/opt/tool/run" [] "/usr/bin").
  assert (Hin : In (record_launch ["--call-graph"; "dwarf"] "/tmp/out.data"
                      "/opt/tool/run" [] "/usr/bin")
                   (RecordPage.m_perfRecord
                      (onStartRecordingButtonClicked demo true stalePage))).
  { vm_compute. left. reflexivity. }
  specialize (H Hin). vm_compute in H. destruct H as [H|H]; discriminate H.
Qed.

(** C6 (as amended).  A start of a recording makes one call of the
    recorder.  Its options are the call graph pair exactly when the unwind
    method is not empty, followed by the event pair exactly when the event
    type is not empty.  In launch mode it is given the output path, the
    tilde-expanded application, the split parameters and the working
    directory, for which an empty field falls back to the placeholder of the
    field; in attach mode it is given the output path and the process ids of
    the selected rows.  Every validation of the application name that
    succeeds sets the placeholder to the directory of the executable it
    found. *)
Theorem start_recording_hands_over (P : Platform) (s : RecordPage.t) :
  let u := RecordPage.ui s in
  let callGraphOption :=
    QVariant_toString (QComboBox.currentData (Ui.callGraphComboBox u)) in
  let eventType := QComboBox.currentText (Ui.eventTypeBox u) in
  let perfOptions := perfOptionsFor callGraphOption eventType in
  let outputPath := toLocalFile (url P (storedOutputPath s)) in
  let workingDir := KUrlRequester.text (Ui.workingDirectory u) in
  RecordPage.m_perfRecord (onStartRecordingButtonClicked P true s)
  = RecordPage.m_perfRecord s ++
    [ if QVariant_eqb (QComboBox.currentData (Ui.recordTypeComboBox u))
                      (IntData LaunchApplication)
      then record_launch perfOptions outputPath
             (tildeExpand P (QComboBox.currentText (Ui.applicationName u)))
             (splitArgs P (Ui.applicationParametersBox u))
             (if QString.isEmpty workingDir
              then KUrlRequester.placeholderText (Ui.workingDirectory u)
              else workingDir)
      else record_attach perfOptions outputPath
             (map QString.number (RecordPage.selectionModel s)) ]
  /\ (adjacent "--call-graph" callGraphOption perfOptions
      <-> callGraphOption <> "")
  /\ (adjacent "--event" eventType perfOptions <-> eventType <> "")
  /\ (forall filePath,
        let application :=
          fileInfo P (findExecutable P (tildeExpand P filePath)) in
        exists_ application && isFile application && isExecutable application
        = true ->
        KUrlRequester.placeholderText
          (Ui.workingDirectory
             (RecordPage.ui (onApplicationNameChanged P filePath s)))
        = executableDirectory P filePath).
Proof.
  cbv zeta. split; [apply onStartRecordingButtonClicked_call|].
  split; [apply perfOptionsFor_adjacent|].
  split; [apply perfOptionsFor_adjacent|].
  intros filePath. apply placeholder_after_validation.
Qed.

(** C6, on the example page: the placeholder after [/usr/bin/ls] was
    validated. *)
Lemma start_recording_hands_over_witness :
  exists_ (fileInfo demo (findExecutable demo (tildeExpand demo "/usr/bin/ls")))
  && isFile (fileInfo demo (findExecutable demo (tildeExpand demo "/usr/bin/ls")))
  && isExecutable (fileInfo demo (findExecutable demo (tildeExpand demo "/usr/bin/ls")))
  = true
  /\ KUrlRequester.placeholderText
       (Ui.workingDirectory
          (RecordPage.ui (onApplicationNameChanged demo "/usr/bin/ls" freshPage)))
     = executableDirectory demo "/usr/bin/ls".
Proof.
  split; [reflexivity|].
  apply (start_recording_hands_over demo freshPage).
  reflexivity.
Defined.

Example start_recording_launch_example :
  RecordPage.m_perfRecord recordingPage
  = [record_launch ["--call-graph"; "dwarf"] "/tmp/perf.data" "/usr/bin/ls" []
       "/usr/bin"].
Proof. reflexivity. Qed.

(** ** Polling *)

Lemma pending_on_ui g s : pending (RecordPage.on_ui g s) = pending s.
Proof. reflexivity. Qed.

Lemma pending_on_m_perfRecord g s :
  pending (RecordPage.on_m_perfRecord g s) = pending s.
Proof. reflexivity. Qed.

Lemma pending_on_sharedConfig g s :
  pending (RecordPage.on_sharedConfig g s) = pending s.
Proof. reflexivity. Qed.

Lemma pending_showRecordPage s : pending (showRecordPage s) = pending s.
Proof. reflexivity. Qed.

Lemma pending_onStartRecordingButtonClicked P checked s :
  pending (onStartRecordingButtonClicked P checked s) = pending s.
Proof.
  unfold onStartRecordingButtonClicked. destruct checked.
  - destruct (rememberCombobox config "eventType" _ _ _) as [[c combo] announced].
    cbv beta iota zeta. rewrite pending_on_ui.
    destruct (QVariant_eqb _ _); rewrite pending_on_m_perfRecord.
    + match goal with
      | |- context [rememberApplication P ?a ?b ?c ?t] =>
          destruct (rememberApplication_keeps P a b c t) as (_ & _ & ->)
      end.
      rewrite !pending_on_ui, !pending_on_sharedConfig, !pending_on_ui.
      apply pending_showRecordPage.
    + rewrite !pending_on_ui, !pending_on_sharedConfig, !pending_on_ui.
      apply pending_showRecordPage.
  - cbv beta iota zeta.
    now rewrite pending_on_ui, pending_on_m_perfRecord, !pending_on_ui.
Qed.

Lemma pending_startRecordingButton_setChecked P checked s :
  pending (startRecordingButton_setChecked P checked s) = pending s.
Proof.
  unfold startRecordingButton_setChecked.
  destruct (Bool.eqb _ _); [reflexivity|].
  now rewrite pending_onStartRecordingButtonClicked.
Qed.

Lemma pending_outputFile_setText P text s :
  pending (outputFile_setText P text s) = pending s.
Proof.
  unfold outputFile_setText. destruct (String.eqb _ _); [reflexivity|].
  now rewrite (behind_pending _ _ (behind_onOutputFileNameChanged P text _)).
Qed.

Lemma pending_onOutputFileNameSelected P filePath s :
  pending (onOutputFileNameSelected P filePath s) = pending s.
Proof.
  unfold onOutputFileNameSelected. destruct (negb _); [|reflexivity].
  apply pending_outputFile_setText.
Qed.

(** Only the mode selector, the thread pool and the timers touch the
    pending requests and timers. *)
Lemma pending_step (P : Platform) (e : Event) (s : RecordPage.t) :
  match e with
  | ModeSelected _ | ProcessListFinished _ _ | TimerTimeout => True
  | _ => pending (step P e s) = pending s
  end.
Proof.
  destruct e; simpl; try exact I; try reflexivity.
  - destruct (String.eqb _ _); [reflexivity|].
    now rewrite (behind_pending _ _ (behind_onApplicationNameChanged P text _)).
  - apply (behind_pending _ _ (behind_workingDirectory_setText P text s)).
  - apply pending_outputFile_setText.
  - apply pending_onOutputFileNameSelected.
  - unfold onOutputFileUrlChanged.
    now rewrite pending_onOutputFileNameSelected, pending_outputFile_setText.
  - destruct (_ && _); reflexivity.
  - destruct (_ && _); reflexivity.
  - destruct (QPushButton.enabled _); [|reflexivity].
    apply pending_startRecordingButton_setChecked.
  - unfold recordingFinished. cbn -[startRecordingButton_setChecked].
    apply pending_startRecordingButton_setChecked.
  - unfold recordingFailed. cbn -[startRecordingButton_setChecked].
    apply pending_startRecordingButton_setChecked.
Qed.

Lemma ProcessModel_mergeProcesses_keeps P incoming s :
  pending (ProcessModel_mergeProcesses P incoming s) = pending s
  /\ shownPage (ProcessModel_mergeProcesses P incoming s) = shownPage s
  /\ RecordPage.clock (ProcessModel_mergeProcesses P incoming s)
     = RecordPage.clock s.
Proof.
  unfold ProcessModel_mergeProcesses. cbv beta zeta.
  destruct (bool_decide _); repeat split; reflexivity.
Qed.

Lemma updateProcessesFinished_pending P s :
  RecordPage.threadPool (updateProcessesFinished P s) = RecordPage.threadPool s
  /\ RecordPage.timers (updateProcessesFinished P s)
     = RecordPage.timers s
       ++ (if Page_eqb (shownPage s) attachAppPage
           then [(RecordPage.clock s + 1000)%N] else []).
Proof.
  unfold updateProcessesFinished. cbv beta zeta.
  destruct (ProcessModel_mergeProcesses_keeps P (result (RecordPage.m_watcher s)) s)
    as (Hp & Hs & Hc).
  unfold pending in Hp. injection Hp as Hpool Htimers.
  fold (shownPage (ProcessModel_mergeProcesses P (result (RecordPage.m_watcher s)) s)).
  rewrite Hs. destruct (Page_eqb (shownPage s) attachAppPage).
  - cbn [RecordPage.threadPool RecordPage.timers RecordPage.on_timers
         RecordPage.clock updateStartRecordingButtonState RecordPage.on_ui].
    rewrite Hpool, Htimers, Hc. split; reflexivity.
  - rewrite Hpool, Htimers, app_nil_r. split; reflexivity.
Qed.

(** C2.  Once a snapshot result has been merged into the process table,
    [updateProcessesFinished] arms one timer for the present time plus
    1000 ms when the attach page is shown, and none otherwise; it issues no
    request itself.  The timer is single shot: when it is due its timeout
    issues one request and removes the timer, and before it is due nothing
    happens. *)
Theorem updateProcessesFinished_schedules_next_poll
  (P : Platform) (s : RecordPage.t) :
  RecordPage.m_processModel (updateProcessesFinished P s)
  = mergeProcesses (result (RecordPage.m_watcher s)) (RecordPage.m_processModel s)
  /\ RecordPage.timers (updateProcessesFinished P s)
     = RecordPage.timers s
       ++ (if Page_eqb (shownPage s) attachAppPage
           then [(RecordPage.clock s + 1000)%N] else [])
  /\ RecordPage.threadPool (updateProcessesFinished P s) = RecordPage.threadPool s
  /\ inFlight (step P TimerTimeout s)
     = (if due s then S (inFlight s) else inFlight s)
  /\ RecordPage.timers (step P TimerTimeout s)
     = (if due s then tl (RecordPage.timers s) else RecordPage.timers s)
  /\ RecordPage.timers (updateProcesses s) = RecordPage.timers s.
Proof.
  destruct (updateProcessesFinished_pending P s) as [Hpool Htimers].
  split; [|split; [exact Htimers|split; [exact Hpool|]]]; clear Hpool Htimers.
  - unfold updateProcessesFinished. cbv beta zeta.
    destruct (ProcessModel_mergeProcesses_table P (result (RecordPage.m_watcher s)) s)
      as [Ht _].
    destruct (Page_eqb _ _); [|exact Ht].
    cbn [RecordPage.m_processModel RecordPage.on_timers
         updateStartRecordingButtonState RecordPage.on_ui].
    exact Ht.
  - assert (Hfire : inFlight (step P TimerTimeout s)
                    = (if due s then S (inFlight s) else inFlight s)
                    /\ RecordPage.timers (step P TimerTimeout s)
                       = (if due s then tl (RecordPage.timers s)
                          else RecordPage.timers s)).
    { unfold due, inFlight. simpl.
      destruct (RecordPage.timers s) as [|deadline armed] eqn:E;
        [split; [reflexivity|exact E]|].
      destruct (deadline <=? RecordPage.clock s)%N; simpl;
        [|split; [reflexivity|exact E]].
      rewrite length_app. simpl. split; [lia|reflexivity]. }
    destruct Hfire as [H1 H2]. repeat split; assumption.
Qed.

Lemma onePending_pending s s' :
  pending s' = pending s -> onePending s -> onePending s'.
Proof.
  unfold pending, onePending, inFlight. intros [= -> ->]. auto.
Qed.

Lemma quiet_true s :
  quiet s = true -> RecordPage.threadPool s = [] /\ RecordPage.timers s = [].
Proof.
  unfold quiet. intros H. apply andb_prop in H. destruct H as [H1 H2].
  destruct (RecordPage.threadPool s), (RecordPage.timers s);
    try discriminate. auto.
Qed.

Lemma onePending_updateProcesses s :
  quiet s = true -> onePending (updateProcesses s).
Proof.
  intros H. apply quiet_true in H. destruct H as [H1 H2].
  unfold onePending, inFlight, updateProcesses. simpl.
  rewrite H1, H2. simpl. lia.
Qed.

Lemma onePending_ModeSelected P index s :
  onePending s ->
  (switchesToAttach (ModeSelected index) s = true -> quiet s = true) ->
  onePending (step P (ModeSelected index) s).
Proof.
  intros Hinv Hquiet. unfold switchesToAttach in Hquiet.
  cbn [step]. cbv zeta.
  destruct (QComboBox.enabled _ && (0 <=? index)
            && (index <? QComboBox.count _)
            && negb (index =? QComboBox.currentIndex _)) eqn:G; [|exact Hinv].
  apply andb_prop in G. destruct G as [G G4].
  apply andb_prop in G. destruct G as [G G3].
  apply andb_prop in G. destruct G as [G1 G2].
  unfold currentIndexChanged. cbv zeta.
  eapply onePending_pending;
    [apply (behind_pending _ _ (behind_updateStartRecordingButtonState P _))|].
  destruct (index =? LaunchApplication); [exact Hinv|].
  destruct (index =? AttachToProcess) eqn:E; [|exact Hinv].
  cbn [andb] in Hquiet. rewrite G1, G3, G4 in Hquiet.
  apply onePending_updateProcesses. unfold quiet. simpl.
  apply Hquiet. reflexivity.
Qed.

Lemma isRunning_single id (f : Future) :
  isRunning id [f] = true ->
  List.filter (fun f => negb (Nat.eqb (futureId f) id)) [f] = [].
Proof.
  unfold isRunning. simpl. rewrite orb_false_r. intros ->. reflexivity.
Qed.

Lemma onePending_ProcessListFinished P id processes s :
  onePending s -> onePending (step P (ProcessListFinished id processes) s).
Proof.
  intros Hinv. cbn [step]. cbv zeta.
  destruct (isRunning id (RecordPage.threadPool s)) eqn:R; [|exact Hinv].
  unfold onePending, inFlight in Hinv.
  destruct (RecordPage.threadPool s) as [|f [|f' pool]] eqn:Epool;
    [discriminate R| |simpl in Hinv; lia].
  destruct (RecordPage.timers s) as [|d armed] eqn:Etimers;
    [|simpl in Hinv; lia].
  remember (RecordPage.on_threadPool _ s) as s1 eqn:Es1.
  assert (H1 : RecordPage.threadPool s1 = [] /\ RecordPage.timers s1 = []).
  { rewrite Es1. simpl. rewrite Epool, Etimers.
    rewrite (isRunning_single id f R). auto. }
  clear Es1. destruct H1 as [Hp Ht].
  assert (Hs1 : onePending s1)
    by (unfold onePending, inFlight; rewrite Hp, Ht; simpl; lia).
  destruct (future (RecordPage.m_watcher s1)) as [watched|]; [|exact Hs1].
  destruct (Nat.eqb watched id); [|exact Hs1].
  set (s2 := RecordPage.on_m_watcher _ s1).
  destruct (updateProcessesFinished_pending P s2) as [Hpool Htimers].
  unfold onePending, inFlight. rewrite Hpool, Htimers.
  change (RecordPage.threadPool s2) with (RecordPage.threadPool s1).
  change (RecordPage.timers s2) with (RecordPage.timers s1).
  rewrite Hp, Ht.
  destruct (Page_eqb _ _); simpl; lia.
Qed.

Lemma onePending_TimerTimeout P s :
  onePending s -> onePending (step P TimerTimeout s).
Proof.
  intros Hinv. cbn [step].
  destruct (RecordPage.timers s) as [|deadline armed] eqn:E; [exact Hinv|].
  destruct (deadline <=? RecordPage.clock s)%N; [|exact Hinv].
  unfold onePending, inFlight in *. rewrite E in Hinv. simpl in Hinv.
  unfold updateProcesses. simpl. rewrite length_app. simpl. lia.
Qed.

(** A step keeps at most one request or timer pending, as long as a switch
    to attach mode happens in a quiet state. *)
Lemma onePending_step (P : Platform) (e : Event) (s : RecordPage.t) :
  onePending s ->
  (switchesToAttach e s = true -> quiet s = true) ->
  onePending (step P e s).
Proof.
  intros Hinv Hquiet.
  pose proof (pending_step P e s) as Hp.
  destruct e;
    try (eapply onePending_pending; [exact Hp|exact Hinv]).
  - now apply onePending_ModeSelected.
  - now apply onePending_ProcessListFinished.
  - now apply onePending_TimerTimeout.
Qed.

Lemma singleFlight_onePending s : onePending s -> singleFlight s.
Proof. unfold onePending, singleFlight. lia. Qed.

Lemma onePending_visited (P : Platform) (events : list Event) (s : RecordPage.t) :
  onePending s ->
  switchesOnlyWhenQuiet P events s = true ->
  Forall onePending (visited P events s).
Proof.
  revert s. induction events as [|e events IH]; intros s Hinv Hq; simpl.
  - constructor; [exact Hinv|constructor].
  - simpl in Hq. apply andb_prop in Hq. destruct Hq as [Hq1 Hq2].
    constructor; [exact Hinv|].
    apply IH; [|exact Hq2].
    apply onePending_step; [exact Hinv|].
    intros Hsw. now rewrite Hsw in Hq1.
Qed.

(** The page leaves its constructor with nothing pending. *)
Lemma quiet_RecordPage_new P form devices c s :
  RecordPage_new P form devices c = Ok s -> quiet s = true.
Proof.
  enter_constructor intel. intros [= <-].
  assert (H : forall t, pending t = ([], []) -> quiet t = true).
  { unfold pending, quiet. intros t [= -> ->]. reflexivity. }
  apply H.
  destruct (negb _); rewrite ?pending_on_ui;
    rewrite (behind_pending _ _ (behind_announced P _ _));
    rewrite !pending_on_ui, pending_showRecordPage, pending_on_ui;
    destruct intel; rewrite !pending_on_ui; reflexivity.
Qed.

(** The state a run ends in is among the states it visits. *)
Lemma visited_run (P : Platform) (events : list Event) (s : RecordPage.t) :
  In (run P events s) (visited P events s).
Proof.
  revert s. induction events as [|e events IH]; intros s.
  - left. reflexivity.
  - right. apply (IH (step P e s)).
Qed.

(** C1 (as stated) fails: every switch into attach mode issues a snapshot
    request, whether or not one is running.  Entering attach mode, leaving
    it and entering it again leaves two requests in flight. *)
Lemma reentering_attach_mode_overlaps_requests :
  ~ Forall singleFlight (visited demo toggling freshPage).
Proof.
  intros H. rewrite List.Forall_forall in H.
  specialize (H (run demo toggling freshPage) (visited_run demo toggling freshPage)).
  unfold singleFlight in H. vm_compute in H. lia.
Qed.

(** Entering attach mode again while the poll timer is armed overlaps
    requests as well: the timeout of the old timer issues a request while
    the one of the switch is running. *)
Example reentering_with_armed_timer :
  inFlight (run demo impatient freshPage) = 2%nat.
Proof. vm_compute. reflexivity. Qed.

(** C1 (as amended).  From a state in which nothing is pending, and as
    long as each switch into attach mode happens while no snapshot request
    is running and no poll timer is armed, at most one snapshot request is in
    flight at every point: the poll timer is armed only by a completed
    request, and its timeout is the only other source of requests. *)
Theorem single_flight_between_switches
  (P : Platform) (events : list Event) (s : RecordPage.t) :
  quiet s = true ->
  switchesOnlyWhenQuiet P events s = true ->
  Forall singleFlight (visited P events s).
Proof.
  intros Hq Hsw.
  apply (List.Forall_impl singleFlight singleFlight_onePending).
  apply onePending_visited; [|exact Hsw].
  apply quiet_true in Hq. destruct Hq as [H1 H2].
  unfold onePending, inFlight. rewrite H1, H2. simpl. lia.
Qed.

(** C1, on the example page: the patient user of [patient] never has two
    requests in flight. *)
Lemma single_flight_between_switches_witness :
  quiet freshPage = true
  /\ switchesOnlyWhenQuiet demo patient freshPage = true
  /\ Forall singleFlight (visited demo patient freshPage).
Proof.
  assert (H1 : quiet freshPage = true) by (vm_compute; reflexivity).
  assert (H2 : switchesOnlyWhenQuiet demo patient freshPage = true)
    by (vm_compute; reflexivity).
  split; [exact H1|]. split; [exact H2|].
  apply (single_flight_between_switches demo patient freshPage H1 H2).
Defined.

(** ** A snapshot result that arrives behind the launch page *)

Lemma ProcessModel_mergeProcesses_hidden P processes s :
  shownPage s = launchAppPage ->
  let s' := ProcessModel_mergeProcesses P processes s in
  RecordPage.ui s' = RecordPage.ui s
  \/ (RecordPage.selectionModel s' <> RecordPage.selectionModel s
      /\ RecordPage.ui s' = RecordPage.ui (updateStartRecordingButtonState P s)).
Proof.
  intros Hpage. cbv zeta. unfold ProcessModel_mergeProcesses. cbv zeta.
  destruct (bool_decide _) eqn:E.
  - left. reflexivity.
  - right. apply bool_decide_eq_false in E. split.
    + exact E.
    + unfold selectionChanged, updateStartRecordingButtonState.
      unfold shownPage in Hpage. cbn. rewrite Hpage. reflexivity.
Qed.

(** C3.  A snapshot result that arrives behind the launch page can change
    what the user sees.  [updateProcessesFinished] updates the start
    button on the attach page only, but the slot connected to
    [selectionChanged] updates it on whatever page is in front.  On
    [failedPage] the launch page is shown and the start button was left
    enabled beside the message of the failed recording; a result that
    still lists the selected process changes nothing, and a result without
    it, which drops the selection, disables the button. *)
Theorem hidden_result_disables_start :
  shownPage failedPage = launchAppPage
  /\ startEnabled failedPage = true
  /\ startEnabled (selectionChanged demo failedPage) = false
  /\ RecordPage.ui
       (step demo (ProcessListFinished 1 [process 7 "vim"; process 9 "bash"])
          failedPage)
     = RecordPage.ui failedPage
  /\ startEnabled
       (step demo (ProcessListFinished 1 [process 9 "bash"]) failedPage)
     = false
  /\ ~ hiddenResultUnseen demo 1 [process 9 "bash"] failedPage.
Proof.
  split; [vm_compute; reflexivity|]. split; [vm_compute; reflexivity|].
  split; [vm_compute; reflexivity|]. split; [vm_compute; reflexivity|].
  split; [vm_compute; reflexivity|].
  intros H. destruct H as [Hui _].
  - vm_compute. discriminate.
  - apply (f_equal (fun u => QPushButton.enabled (Ui.startRecordingButton u))) in Hui.
    vm_compute in Hui. discriminate Hui.
Qed.

(** What holds of every snapshot result that arrives while the attach page
    is not shown: no poll timer is armed and no request is issued; the
    result is merged into the process table behind the page; and no widget
    changes, unless the merge drops a selected row, in which case the slot
    connected to [selectionChanged] recomputes the enabled state of the
    start button from the present input. *)
Theorem hidden_snapshot_result
  (P : Platform) (id : nat) (processes : ProcDataList) (s : RecordPage.t) :
  shownPage s <> attachAppPage ->
  let s' := step P (ProcessListFinished id processes) s in
  RecordPage.timers s' = RecordPage.timers s
  /\ (inFlight s' <= inFlight s)%nat
  /\ shownPage s' = shownPage s
  /\ (RecordPage.ui s' = RecordPage.ui s
      \/ (RecordPage.selectionModel s' <> RecordPage.selectionModel s
          /\ RecordPage.ui s'
             = RecordPage.ui (updateStartRecordingButtonState P s)))
  /\ (isRunning id (RecordPage.threadPool s) = true ->
      future (RecordPage.m_watcher s) = Some id ->
      RecordPage.m_processModel s'
      = mergeProcesses processes (RecordPage.m_processModel s)).
Proof.
  intros Hpage.
  assert (Hlaunch : shownPage s = launchAppPage)
    by (destruct (shownPage s); congruence).
  cbv zeta. cbn [step]. cbv zeta.
  destruct (isRunning id (RecordPage.threadPool s)) eqn:R.
  2:{ repeat split; auto; discriminate. }
  remember (RecordPage.on_threadPool _ s) as s1 eqn:Es1.
  assert (Hs1 : RecordPage.ui s1 = RecordPage.ui s
                /\ RecordPage.timers s1 = RecordPage.timers s
                /\ (inFlight s1 <= inFlight s)%nat
                /\ RecordPage.selectionModel s1 = RecordPage.selectionModel s
                /\ RecordPage.m_processModel s1 = RecordPage.m_processModel s
                /\ RecordPage.m_watcher s1 = RecordPage.m_watcher s
                /\ RecordPage.ui (updateStartRecordingButtonState P s1)
                   = RecordPage.ui (updateStartRecordingButtonState P s)).
  { rewrite Es1. repeat split. unfold inFlight. simpl. apply filter_length_le. }
  clear Es1. destruct Hs1 as (Hui & Htimers & Hfl & Hsel & Htab & Hw & Hup).
  rewrite Hw.
  destruct (future (RecordPage.m_watcher s)) as [watched|].
  2:{ unfold shownPage. rewrite Hui. repeat split; auto; discriminate. }
  destruct (Nat.eqb watched id) eqn:W.
  2:{ unfold shownPage. rewrite Hui. repeat split; auto.
      intros _ [= ->]. rewrite Nat.eqb_refl in W. discriminate. }
  remember (RecordPage.on_m_watcher _ s1) as s2 eqn:Es2.
  assert (Hs2 : RecordPage.ui s2 = RecordPage.ui s
                /\ RecordPage.timers s2 = RecordPage.timers s
                /\ RecordPage.threadPool s2 = RecordPage.threadPool s1
                /\ RecordPage.selectionModel s2 = RecordPage.selectionModel s
                /\ RecordPage.m_processModel s2 = RecordPage.m_processModel s
                /\ result (RecordPage.m_watcher s2) = processes
                /\ RecordPage.ui (updateStartRecordingButtonState P s2)
                   = RecordPage.ui (updateStartRecordingButtonState P s)).
  { rewrite Es2. cbn -[updateStartRecordingButtonState].
    repeat split; assumption. }
  clear Es2. destruct Hs2 as (Hui2 & Htimers2 & Hpool2 & Hsel2 & Htab2 & Hres & Hup2).
  assert (Hpage2 : shownPage s2 = launchAppPage)
    by (unfold shownPage in *; rewrite Hui2; exact Hlaunch).
  destruct (updateProcessesFinished_pending P s2) as [Hpool Htimers'].
  rewrite Hpage2, app_nil_r in Htimers'.
  assert (Hfin : updateProcessesFinished P s2
                 = ProcessModel_mergeProcesses P processes s2).
  { unfold updateProcessesFinished. cbv zeta. rewrite Hres.
    destruct (ProcessModel_mergeProcesses_keeps P processes s2) as (_ & Hk & _).
    unfold shownPage in Hk. rewrite Hk.
    unfold shownPage in Hpage2. rewrite Hpage2. reflexivity. }
  split; [congruence|].
  split; [unfold inFlight in *; rewrite Hpool, Hpool2; exact Hfl|].
  rewrite Hfin.
  destruct (ProcessModel_mergeProcesses_keeps P processes s2) as (_ & Hk & _).
  split; [congruence|].
  split.
  - destruct (ProcessModel_mergeProcesses_hidden P processes s2 Hpage2) as [H|[H1 H2]].
    + left. congruence.
    + right. split; congruence.
  - intros _ _.
    destruct (ProcessModel_mergeProcesses_table P processes s2) as [Ht _].
    congruence.
Qed.

(** On the example page: the result that arrives on [failedPage] arms no
    timer. *)
Lemma hidden_snapshot_result_witness :
  shownPage failedPage <> attachAppPage
  /\ RecordPage.timers (step demo (ProcessListFinished 1 [process 9 "bash"]) failedPage)
     = RecordPage.timers failedPage.
Proof.
  assert (H : shownPage failedPage <> attachAppPage)
    by (vm_compute; discriminate).
  split; [exact H|].
  apply (hidden_snapshot_result demo 1 [process 9 "bash"] failedPage H).
Defined.

(** * Further properties of the page *)

(** ** The processor probe on a host with devices *)

Lemma InstructionSet_eqb_eq (a b : Solid.InstructionSet) :
  Solid.InstructionSet_eqb a b = true <-> a = b.
Proof. destruct a, b; simpl; split; congruence. Qed.

Lemma testFlag_In (flags : Solid.InstructionSets) (f : Solid.InstructionSet) :
  Solid.testFlag flags f = true <-> In f flags.
Proof.
  unfold Solid.testFlag. rewrite existsb_exists. split.
  - intros (x & Hx & E). apply InstructionSet_eqb_eq in E. now subst.
  - intros H. exists f. split; [exact H|now apply InstructionSet_eqb_eq].
Qed.

(** X1.  On a host that reports devices, [isIntel] looks at the first
    device only: the answer is that of the one-element list, and it is
    [true] exactly when that device is a processor with one of the eight
    Intel instruction sets. *)
Theorem isIntel_first_device (d : Solid.Device) (l : list Solid.Device) :
  isIntel (d :: l) = isIntel [d]
  /\ (isIntel (d :: l) = Ok true
      <-> exists processor f,
            Solid.as_Processor d = Some processor
            /\ In f intelFlags
            /\ In f (Solid.instructionSets processor)).
Proof.
  split; [reflexivity|].
  unfold isIntel, QList.at_, Solid.is_Processor. simpl.
  destruct (Solid.as_Processor d) as [processor|]; simpl.
  - split.
    + intros [= H]. exists processor.
      repeat (apply orb_prop in H; destruct H as [H|H]);
        apply testFlag_In in H;
        (eexists; split; [reflexivity|split; [|exact H]]);
        unfold intelFlags; simpl; tauto.
    + intros (p & f & [= <-] & Hf & Hin). f_equal.
      apply testFlag_In in Hin.
      unfold intelFlags in Hf. simpl in Hf.
      repeat (destruct Hf as [<-|Hf]; [rewrite Hin, ?orb_true_r; reflexivity|]).
      destruct Hf.
  - split; [discriminate|]. intros (p & f & H & _). discriminate.
Qed.

(** ** The size policies of the stacked widget *)

Lemma fold_insert_lookup {A} (f : nat -> A) (k a : nat) (l : list A) (j : nat) :
  fold_left (fun l i => <[i := f i]> l) (seq a k) l !! j
  = if bool_decide (a <= j < a + k)%nat
    then (fun _ => f j) <$> (l !! j)
    else l !! j.
Proof.
  revert a l. induction k as [|k IH]; intros a l; simpl.
  - rewrite bool_decide_eq_false_2 by lia. reflexivity.
  - rewrite IH. destruct (decide (j = a)) as [->|Hne].
    + rewrite bool_decide_eq_false_2 by lia.
      rewrite bool_decide_eq_true_2 by lia.
      destruct (l !! a) eqn:E; simpl.
      * apply list_lookup_insert_eq. apply lookup_lt_Some in E. exact E.
      * rewrite list_insert_ge by (apply lookup_ge_None; exact E). exact E.
    + rewrite list_lookup_insert_ne by congruence.
      destruct (bool_decide (S a <= j < S a + k)%nat) eqn:B.
      * apply bool_decide_eq_true in B.
        rewrite bool_decide_eq_true_2 by lia. reflexivity.
      * apply bool_decide_eq_false in B.
        rewrite bool_decide_eq_false_2 by lia. reflexivity.
Qed.

Lemma fold_insert_length {A} (f : nat -> A) (indices : list nat) (l : list A) :
  length (fold_left (fun l i => <[i := f i]> l) indices l) = length l.
Proof.
  revert l. induction indices as [|i indices IH]; intros l; simpl; [reflexivity|].
  rewrite IH. apply length_insert.
Qed.

(** X2.  [updateStackedSizePolicy] keeps the number of pages and leaves
    both size policies of the page in front at [Expanding] and those of
    every other page at [Ignored], whatever they were before; so at most one
    page takes part in the size of the stacked widget. *)
Theorem updateStackedSizePolicy_current_page
  (currentIndex : Z) (pages : list (Policy * Policy)) (i : nat) :
  length (updateStackedSizePolicy currentIndex pages) = length pages
  /\ updateStackedSizePolicy currentIndex pages !! i
     = (fun _ => if Z.of_nat i =? currentIndex
                 then (Expanding, Expanding) else (Ignored, Ignored))
       <$> (pages !! i).
Proof.
  unfold updateStackedSizePolicy. cbv zeta. split.
  - apply (fold_insert_length
             (fun i => let policy := if Z.of_nat i =? currentIndex
                                     then Expanding else Ignored in
                       (policy, policy))).
  - rewrite (fold_insert_lookup
               (fun i => let policy := if Z.of_nat i =? currentIndex
                                       then Expanding else Ignored in
                         (policy, policy))).
    rewrite Nat2Z.id.
    destruct (pages !! i) eqn:E.
    + apply lookup_lt_Some in E.
      rewrite bool_decide_eq_true_2 by lia. simpl.
      destruct (Z.of_nat i =? currentIndex); reflexivity.
    + destruct (bool_decide _); reflexivity.
Qed.

Example updateStackedSizePolicy_example :
  updateStackedSizePolicy 1 [(Preferred, Preferred); (Preferred, Fixed)]
  = [(Ignored, Ignored); (Expanding, Expanding)].
Proof. reflexivity. Qed.

(** ** Remembering and restoring a history *)

Lemma currentText_setCurrentIndex_front (t : string) (d : QVariant)
  (l : list (string * QVariant)) (w : QComboBox.t) :
  QComboBox.items w = (t, d) :: l ->
  QComboBox.currentText (QComboBox.setCurrentIndex 0 w) = t
  /\ QComboBox.currentIndex (QComboBox.setCurrentIndex 0 w) = 0.
Proof.
  intros H. unfold QComboBox.setCurrentIndex, QComboBox.count. rewrite H.
  simpl. unfold QComboBox.currentText, QComboBox.itemText, QComboBox.item.
  simpl. destruct (QComboBox.editable w); simpl; auto.
Qed.

Lemma removeFirst_head (value : string) (h : list string) :
  removeFirst value (value :: h) = h.
Proof. simpl. now rewrite String.eqb_refl. Qed.

(** X3.  The value [rememberCombobox] has remembered is the current entry
    of the box (index 0, and the text the box shows); and remembering the
    same value again changes neither the history nor the stored list. *)
Theorem rememberCombobox_again
  (group : KConfigGroup) (entryName value : string) (c : KConfig)
  (w : QComboBox.t) :
  let c1 := fst (fst (rememberCombobox group entryName value c w)) in
  let w1 := snd (fst (rememberCombobox group entryName value c w)) in
  let c2 := fst (fst (rememberCombobox group entryName value c1 w1)) in
  let w2 := snd (fst (rememberCombobox group entryName value c1 w1)) in
  QComboBox.currentIndex w1 = 0
  /\ QComboBox.currentText w1 = value
  /\ history w2 = history w1
  /\ c2 !! (group, entryName) = c1 !! (group, entryName).
Proof.
  cbv zeta.
  assert (Hcur : forall c0 w0,
    QComboBox.currentText (snd (fst (rememberCombobox group entryName value c0 w0)))
    = value
    /\ QComboBox.currentIndex (snd (fst (rememberCombobox group entryName value c0 w0)))
       = 0).
  { intros c0 w0. unfold rememberCombobox. cbn [fst snd].
    eapply currentText_setCurrentIndex_front. apply items_insertItem_front. }
  destruct (Hcur c w) as [Ht Hi].
  split; [exact Hi|]. split; [exact Ht|].
  assert (Hh : history (snd (fst (rememberCombobox group entryName value
                 (fst (fst (rememberCombobox group entryName value c w)))
                 (snd (fst (rememberCombobox group entryName value c w))))))
               = history (snd (fst (rememberCombobox group entryName value c w)))).
  { rewrite (history_rememberCombobox group entryName value
               (fst (fst (rememberCombobox group entryName value c w)))).
    rewrite (history_rememberCombobox group entryName value c w).
    now rewrite removeFirst_head. }
  split; [exact Hh|].
  rewrite !stored_rememberCombobox. now rewrite Hh.
Qed.

Lemma items_addItem (t : string) (w : QComboBox.t) :
  QComboBox.items (QComboBox.addItem t w) = QComboBox.items w ++ [(t, Invalid)].
Proof.
  unfold QComboBox.addItem, QComboBox.addItemData, QComboBox.insertItemData,
    QComboBox.count.
  replace (Z.to_nat (Z.max 0 (Z.min (Z.of_nat (length (QComboBox.items w)))
                                    (Z.of_nat (length (QComboBox.items w))))))
    with (length (QComboBox.items w)) by lia.
  rewrite firstn_all, skipn_all.
  destruct (QComboBox.items w); reflexivity.
Qed.

Lemma history_addItems (values : list string) (w : QComboBox.t) :
  history (fold_left (fun combo application => QComboBox.addItem application combo)
                     values w)
  = history w ++ values.
Proof.
  revert w. induction values as [|t values IH]; intros w; simpl.
  - now rewrite app_nil_r.
  - rewrite IH. unfold history, QComboBox.texts. rewrite items_addItem.
    rewrite map_app. simpl. now rewrite <- app_assoc.
Qed.

(** The box after [restoreCombobox] lists the stored values, or the
    defaults when nothing is stored, and nothing of what it listed before. *)
Lemma history_restoreCombobox (group : KConfigGroup) (entryName : string)
  (defaults : list string) (c : KConfig) (w : QComboBox.t) :
  history (restoreCombobox group entryName defaults c w)
  = readListEntry group entryName defaults c.
Proof. unfold restoreCombobox. cbv zeta. now rewrite history_addItems. Qed.

(** X4.  Remembering and restoring make a round trip through the
    configuration: a box restored from what [rememberCombobox] stored lists
    the first ten entries of the remembered history, the remembered value
    in front, whatever the box held and whatever the defaults are. *)
Theorem restoreCombobox_after_rememberCombobox
  (group : KConfigGroup) (entryName value : string) (c : KConfig)
  (w box : QComboBox.t) (defaults : list string) :
  let c' := fst (fst (rememberCombobox group entryName value c w)) in
  history (restoreCombobox group entryName defaults c' box)
  = take 10 (value :: removeFirst value (history w))
  /\ (length (history (restoreCombobox group entryName defaults c' box)) <= 10)%nat
  /\ hd "" (history (restoreCombobox group entryName defaults c' box)) = value.
Proof.
  cbv zeta.
  assert (H : history (restoreCombobox group entryName defaults
                (fst (fst (rememberCombobox group entryName value c w))) box)
              = take 10 (value :: removeFirst value (history w))).
  { rewrite history_restoreCombobox. unfold readListEntry.
    rewrite stored_rememberCombobox, history_rememberCombobox. reflexivity. }
  rewrite H. split; [reflexivity|]. split.
  - rewrite length_take. lia.
  - reflexivity.
Qed.

Lemma showsFirst_clear (w : QComboBox.t) : showsFirst (QComboBox.clear w).
Proof.
  unfold showsFirst, QComboBox.clear, QComboBox.with_items. simpl.
  split; [reflexivity|]. intros ->. reflexivity.
Qed.

Lemma showsFirst_addItem (t : string) (w : QComboBox.t) :
  showsFirst w -> showsFirst (QComboBox.addItem t w).
Proof.
  unfold showsFirst. intros [Hi He].
  pose proof (items_addItem t w) as Hitems.
  unfold history, QComboBox.texts in *. rewrite Hitems. clear Hitems.
  unfold QComboBox.addItem, QComboBox.addItemData, QComboBox.insertItemData,
    QComboBox.count.
  destruct (QComboBox.items w) as [|x l] eqn:E.
  - simpl. split; [reflexivity|]. intros ->. reflexivity.
  - cbn [QComboBox.currentIndex QComboBox.editable QComboBox.lineEdit
         QList.empty app hd map].
    simpl in Hi. rewrite Hi.
    assert (Hn : (Z.of_nat (Z.to_nat (Z.max 0 (Z.min (Z.of_nat (length (x :: l)))
                                                     (Z.of_nat (length (x :: l))))))
                  <=? 0) = false)
      by (apply Z.leb_gt; simpl length; lia).
    rewrite Hn. split; [reflexivity|exact He].
Qed.

Lemma showsFirst_addItems (values : list string) (w : QComboBox.t) :
  showsFirst w ->
  showsFirst (fold_left (fun combo application => QComboBox.addItem application combo)
                        values w).
Proof.
  revert w. induction values as [|t values IH]; intros w H; simpl; [exact H|].
  apply IH, showsFirst_addItem, H.
Qed.

Lemma currentText_showsFirst (w : QComboBox.t) :
  showsFirst w -> QComboBox.currentText w = hd "" (history w).
Proof.
  unfold showsFirst, QComboBox.currentText. intros [Hi He].
  destruct (QComboBox.editable w); [now apply He|].
  unfold QComboBox.itemText, QComboBox.item, history, QComboBox.texts.
  rewrite Hi. destruct (QComboBox.items w) as [|[t d] l]; reflexivity.
Qed.

(** X5.  [restoreCombobox] replaces what the box listed: with a stored list
    the box lists that list, with no stored entry it lists the defaults;
    and in both cases its current entry and text are the first of the list
    (no current entry and an empty text for an empty list). *)
Theorem restoreCombobox_lists_stored_or_defaults
  (group : KConfigGroup) (entryName : string) (defaults : list string)
  (c : KConfig) (w : QComboBox.t) :
  let w' := restoreCombobox group entryName defaults c w in
  (c !! (group, entryName) = None -> history w' = defaults)
  /\ (forall stored, c !! (group, entryName) = Some (EntryList stored) ->
      history w' = stored)
  /\ QComboBox.currentText w' = hd "" (history w')
  /\ QComboBox.currentIndex w' = (if QList.empty (QComboBox.items w') then -1 else 0).
Proof.
  cbv zeta.
  assert (Hs : showsFirst (restoreCombobox group entryName defaults c w)).
  { unfold restoreCombobox. cbv zeta.
    apply showsFirst_addItems, showsFirst_clear. }
  split; [|split; [|split]].
  - intros H. rewrite history_restoreCombobox. unfold readListEntry. now rewrite H.
  - intros stored H. rewrite history_restoreCombobox. unfold readListEntry.
    now rewrite H.
  - now apply currentText_showsFirst.
  - apply Hs.
Qed.

(** X5, on the event type box of the example form: nothing is stored, so the
    box lists the default it is given. *)
Lemma restoreCombobox_lists_stored_or_defaults_witness :
  (∅ : KConfig) !! (config, "eventType") = None
  /\ history (restoreCombobox config "eventType" ["cycles"] ∅
                (QComboBox.setEditable true emptyBox)) = ["cycles"].
Proof.
  assert (H : (∅ : KConfig) !! (config, "eventType") = None) by reflexivity.
  split; [exact H|].
  exact (proj1 (restoreCombobox_lists_stored_or_defaults config "eventType"
                  ["cycles"] ∅ (QComboBox.setEditable true emptyBox)) H).
Defined.

(** ** The settings of an application *)

Lemma config_rememberCombobox (group : KConfigGroup) (entryName value : string)
  (c : KConfig) (w : QComboBox.t) :
  exists values,
    fst (fst (rememberCombobox group entryName value c w))
    = writeEntry group entryName (EntryList values) c.
Proof. unfold rememberCombobox. cbn [fst]. eexists. reflexivity. Qed.

Lemma sharedConfig_rememberApplication P application appParameters workingDir s :
  exists values,
    RecordPage.sharedConfig
      (rememberApplication P application appParameters workingDir s)
    = writeEntry config "applications" (EntryList values)
        (writeEntry (applicationConfig application) "workingDir" (Entry workingDir)
           (writeEntry (applicationConfig application) "params" (Entry appParameters)
              (RecordPage.sharedConfig s))).
Proof.
  unfold rememberApplication.
  match goal with
  | |- context [rememberCombobox ?g ?e ?v ?c ?w] =>
      destruct (config_rememberCombobox g e v c w) as [values Hc];
      destruct (rememberCombobox g e v c w) as [[c' combo] announced]
  end.
  cbn [fst] in Hc. exists values.
  rewrite (behind_sharedConfig _ _ (behind_announced P announced _)).
  cbn [RecordPage.sharedConfig RecordPage.on_ui RecordPage.on_sharedConfig].
  exact Hc.
Qed.

Lemma readEntry_rememberApplication P application appParameters workingDir s :
  let c := RecordPage.sharedConfig
             (rememberApplication P application appParameters workingDir s) in
  readEntry (applicationConfig application) "params" "" c = appParameters
  /\ readEntry (applicationConfig application) "workingDir" "" c = workingDir.
Proof.
  cbv zeta.
  destruct (sharedConfig_rememberApplication P application appParameters
              workingDir s) as [values ->].
  unfold readEntry, writeEntry. split.
  - rewrite lookup_insert_ne by (intros [= _ H]; discriminate H).
    rewrite lookup_insert_ne by (intros [= H]; discriminate H).
    now rewrite lookup_insert_eq.
  - rewrite lookup_insert_ne by (intros [= _ H]; discriminate H).
    now rewrite lookup_insert_eq.
Qed.

(** What [onApplicationNameChanged] restores for an application that
    validates: the stored working directory and parameters (empty when
    nothing is stored), and an empty error message. *)
Lemma onApplicationNameChanged_restores P filePath s :
  let application := fileInfo P (findExecutable P (tildeExpand P filePath)) in
  exists_ application && isFile application && isExecutable application = true ->
  let s' := onApplicationNameChanged P filePath s in
  Ui.applicationParametersBox (RecordPage.ui s')
  = readEntry (applicationConfig filePath) "params" "" (RecordPage.sharedConfig s)
  /\ KUrlRequester.text (Ui.workingDirectory (RecordPage.ui s'))
     = readEntry (applicationConfig filePath) "workingDir" ""
         (RecordPage.sharedConfig s)
  /\ errorText s' = ""
  /\ RecordPage.sharedConfig s' = RecordPage.sharedConfig s.
Proof.
  intros application H.
  apply andb_prop in H. destruct H as [H H3].
  apply andb_prop in H. destruct H as [H1 H2].
  cbv zeta. unfold onApplicationNameChanged. fold application.
  rewrite H1, H2, H3. cbv beta iota zeta. cbn [negb].
  set (w := readEntry (applicationConfig filePath) "workingDir" ""
              (RecordPage.sharedConfig s)).
  pose proof (text_workingDirectory_setText P w s) as Ht.
  pose proof (behind_sharedConfig _ _ (behind_workingDirectory_setText P w s)) as Hc.
  set (X := workingDirectory_setText P w s) in *.
  repeat split.
  - cbn. now rewrite Hc.
  - cbn. exact Ht.
  - cbn. exact Hc.
Qed.

(** X6.  The settings of an application make a round trip: after
    [rememberApplication] has stored the parameters and the working
    directory of an application, the validation of that application name
    puts both back into their fields, with no error. *)
Theorem remembered_application_settings_return
  (P : Platform) (application appParameters workingDir : string)
  (s : RecordPage.t) :
  let found := fileInfo P (findExecutable P (tildeExpand P application)) in
  exists_ found && isFile found && isExecutable found = true ->
  let s' := onApplicationNameChanged P application
              (rememberApplication P application appParameters workingDir s) in
  Ui.applicationParametersBox (RecordPage.ui s') = appParameters
  /\ KUrlRequester.text (Ui.workingDirectory (RecordPage.ui s')) = workingDir
  /\ errorText s' = "".
Proof.
  intros found H. cbv zeta.
  destruct (onApplicationNameChanged_restores P application
              (rememberApplication P application appParameters workingDir s) H)
    as (Hp & Hw & He & _).
  destruct (readEntry_rememberApplication P application appParameters
              workingDir s) as [Rp Rw].
  cbv zeta in Rp, Rw. rewrite Hp, Hw, Rp, Rw. auto.
Qed.

(** X6, on the example host. *)
Lemma remembered_application_settings_return_witness :
  exists_ (fileInfo demo (findExecutable demo (tildeExpand demo "/usr/bin/ls")))
  && isFile (fileInfo demo (findExecutable demo (tildeExpand demo "/usr/bin/ls")))
  && isExecutable (fileInfo demo (findExecutable demo (tildeExpand demo "/usr/bin/ls")))
  = true
  /\ Ui.applicationParametersBox
       (RecordPage.ui
          (onApplicationNameChanged demo "/usr/bin/ls"
             (rememberApplication demo "/usr/bin/ls" "-l /tmp" "/tmp" freshPage)))
     = "-l /tmp".
Proof.
  assert (H : exists_ (fileInfo demo (findExecutable demo (tildeExpand demo "/usr/bin/ls")))
    && isFile (fileInfo demo (findExecutable demo (tildeExpand demo "/usr/bin/ls")))
    && isExecutable (fileInfo demo (findExecutable demo (tildeExpand demo "/usr/bin/ls")))
    = true) by reflexivity.
  split; [exact H|].
  exact (proj1 (remembered_application_settings_return demo "/usr/bin/ls"
                  "-l /tmp" "/tmp" freshPage H)).
Defined.

(** ** What a start writes to the configuration *)

Lemma sharedConfig_on_ui g s :
  RecordPage.sharedConfig (RecordPage.on_ui g s) = RecordPage.sharedConfig s.
Proof. reflexivity. Qed.

Lemma sharedConfig_on_m_perfRecord g s :
  RecordPage.sharedConfig (RecordPage.on_m_perfRecord g s)
  = RecordPage.sharedConfig s.
Proof. reflexivity. Qed.

Lemma sharedConfig_onStartRecordingButtonClicked (P : Platform) (s : RecordPage.t) :
  let u := RecordPage.ui s in
  let application := tildeExpand P (QComboBox.currentText (Ui.applicationName u)) in
  let workingDir := KUrlRequester.text (Ui.workingDirectory u) in
  exists eventTypes applications,
    let base :=
      writeEntry config "eventType" (EntryList eventTypes)
        (writeEntry config "callGraph"
           (Entry (QVariant_toString
                     (QComboBox.currentData (Ui.callGraphComboBox u))))
           (RecordPage.sharedConfig s)) in
    RecordPage.sharedConfig (onStartRecordingButtonClicked P true s)
    = if QVariant_eqb (QComboBox.currentData (Ui.recordTypeComboBox u))
                      (IntData LaunchApplication)
      then writeEntry config "applications" (EntryList applications)
             (writeEntry (applicationConfig application) "workingDir"
                (Entry (if QString.isEmpty workingDir
                        then KUrlRequester.placeholderText (Ui.workingDirectory u)
                        else workingDir))
                (writeEntry (applicationConfig application) "params"
                   (Entry (Ui.applicationParametersBox u)) base))
      else base.
Proof.
  cbv zeta. unfold onStartRecordingButtonClicked.
  match goal with
  | |- context [rememberCombobox ?g ?e ?v ?c ?w] =>
      destruct (config_rememberCombobox g e v c w) as [eventTypes Hc];
      destruct (rememberCombobox g e v c w) as [[c' combo] announced]
  end.
  cbn [fst] in Hc. subst c'. exists eventTypes.
  cbv beta iota zeta.
  set (t0 := RecordPage.on_ui _ (RecordPage.on_ui _ (showRecordPage s))).
  assert (E0 : Ui.callGraphComboBox (RecordPage.ui t0)
               = Ui.callGraphComboBox (RecordPage.ui s)
               /\ RecordPage.sharedConfig t0 = RecordPage.sharedConfig s
               /\ Ui.recordTypeComboBox (RecordPage.ui t0)
                  = Ui.recordTypeComboBox (RecordPage.ui s)
               /\ Ui.applicationName (RecordPage.ui t0)
                  = Ui.applicationName (RecordPage.ui s)
               /\ Ui.applicationParametersBox (RecordPage.ui t0)
                  = Ui.applicationParametersBox (RecordPage.ui s)
               /\ Ui.workingDirectory (RecordPage.ui t0)
                  = Ui.workingDirectory (RecordPage.ui s))
    by (repeat split; reflexivity).
  clearbody t0. destruct E0 as (E1 & E2 & E3 & E4 & E5 & E6).
  set (s2 := RecordPage.on_ui (Ui.on_eventTypeBox _) _).
  assert (F0 : RecordPage.sharedConfig s2
               = writeEntry config "eventType" (EntryList eventTypes)
                   (writeEntry config "callGraph"
                      (Entry (QVariant_toString
                         (QComboBox.currentData
                            (Ui.callGraphComboBox (RecordPage.ui t0)))))
                      (RecordPage.sharedConfig t0))
               /\ Ui.recordTypeComboBox (RecordPage.ui s2)
                  = Ui.recordTypeComboBox (RecordPage.ui t0)
               /\ Ui.applicationName (RecordPage.ui s2)
                  = Ui.applicationName (RecordPage.ui t0)
               /\ Ui.applicationParametersBox (RecordPage.ui s2)
                  = Ui.applicationParametersBox (RecordPage.ui t0)
               /\ Ui.workingDirectory (RecordPage.ui s2)
                  = Ui.workingDirectory (RecordPage.ui t0))
    by (repeat split; reflexivity).
  clearbody s2. destruct F0 as (F1 & F2 & F3 & F4 & F5).
  rewrite sharedConfig_on_ui, F2, E3.
  destruct (QVariant_eqb _ _); rewrite sharedConfig_on_m_perfRecord.
  - match goal with
    | |- context [rememberApplication P ?a ?b ?c ?t] =>
        destruct (sharedConfig_rememberApplication P a b c t)
          as [applications Happ]
    end.
    exists applications.
    rewrite Happ, F1, F3, F4, F5, E1, E2, E4, E5, E6. reflexivity.
  - exists []. rewrite F1, E1, E2. reflexivity.
Qed.
(** X8.  A start of a recording stores the chosen unwind method and touches
    no entry of the configuration other than [callGraph], [eventType],
    [applications] and the parameters and working directory of the
    application it launches: the settings of every other application stay
    as they are.  A stop writes nothing. *)
Theorem start_writes_its_own_entries
  (P : Platform) (s : RecordPage.t) (key : list string * string) :
  let u := RecordPage.ui s in
  let application := tildeExpand P (QComboBox.currentText (Ui.applicationName u)) in
  (~ In key [(config, "callGraph"); (config, "eventType");
             (config, "applications");
             (applicationConfig application, "params");
             (applicationConfig application, "workingDir")] ->
   RecordPage.sharedConfig (onStartRecordingButtonClicked P true s) !! key
   = RecordPage.sharedConfig s !! key)
  /\ RecordPage.sharedConfig (onStartRecordingButtonClicked P true s)
       !! (config, "callGraph")
     = Some (Entry (QVariant_toString
                      (QComboBox.currentData (Ui.callGraphComboBox u))))
  /\ RecordPage.sharedConfig (onStartRecordingButtonClicked P false s)
     = RecordPage.sharedConfig s.
Proof.
  cbv zeta.
  destruct (sharedConfig_onStartRecordingButtonClicked P s)
    as (eventTypes & applications & H).
  cbv zeta in H. rewrite H. clear H. unfold writeEntry.
  split; [|split; [|reflexivity]].
  - intros Hkey. simpl in Hkey.
    destruct (QVariant_eqb _ _).
    + rewrite !lookup_insert_ne by (intros <-; tauto). reflexivity.
    + rewrite !lookup_insert_ne by (intros <-; tauto). reflexivity.
  - destruct (QVariant_eqb _ _).
    + rewrite lookup_insert_ne by (intros [= H]; discriminate H).
      rewrite lookup_insert_ne by (intros [= H]; discriminate H).
      rewrite lookup_insert_ne by (intros [= H]; discriminate H).
      rewrite lookup_insert_ne by (intros [= H]; discriminate H).
      apply lookup_insert_eq.
    + rewrite lookup_insert_ne by (intros [= H]; discriminate H).
      apply lookup_insert_eq.
Qed.

(** X8, on the example page: the settings stored for another application
    survive a start. *)
Lemma start_writes_its_own_entries_witness :
  ~ In (applicationConfig "/usr/bin/vi", "params")
       [(config, "callGraph"); (config, "eventType"); (config, "applications");
        (applicationConfig
           (tildeExpand demo
              (QComboBox.currentText (Ui.applicationName (RecordPage.ui stalePage)))),
         "params");
        (applicationConfig
           (tildeExpand demo
              (QComboBox.currentText (Ui.applicationName (RecordPage.ui stalePage)))),
         "workingDir")]
  /\ RecordPage.sharedConfig (onStartRecordingButtonClicked demo true stalePage)
       !! (applicationConfig "/usr/bin/vi", "params")
     = RecordPage.sharedConfig stalePage !! (applicationConfig "/usr/bin/vi", "params").
Proof.
  assert (H : ~ In (applicationConfig "/usr/bin/vi", "params")
       [(config, "callGraph"); (config, "eventType"); (config, "applications");
        (applicationConfig
           (tildeExpand demo
              (QComboBox.currentText (Ui.applicationName (RecordPage.ui stalePage)))),
         "params");
        (applicationConfig
           (tildeExpand demo
              (QComboBox.currentText (Ui.applicationName (RecordPage.ui stalePage)))),
         "workingDir")]).
  { vm_compute. intros [H|[H|[H|[H|[H|[]]]]]]; discriminate H. }
  split; [exact H|].
  exact (proj1 (start_writes_its_own_entries demo stalePage
                  (applicationConfig "/usr/bin/vi", "params")) H).
Defined.

(** ** The mode selector, the page in front and the start button *)

Lemma modeView_behind s s' :
  behindValidation s' = behindValidation s -> modeView s' = modeView s.
Proof.
  unfold behindValidation, modeView. intros H. injection H. intros. congruence.
Qed.

Lemma modeView_on_sharedConfig g s :
  modeView (RecordPage.on_sharedConfig g s) = modeView s.
Proof. reflexivity. Qed.

Lemma modeView_on_m_perfRecord g s :
  modeView (RecordPage.on_m_perfRecord g s) = modeView s.
Proof. reflexivity. Qed.

Lemma modeView_on_recordTypeComboBox g s :
  modeView (RecordPage.on_ui (Ui.on_recordTypeComboBox g) s)
  = (g (fst (fst (modeView s))), snd (fst (modeView s)), snd (modeView s)).
Proof. reflexivity. Qed.

Lemma modeView_rememberApplication P application appParameters workingDir s :
  modeView (rememberApplication P application appParameters workingDir s)
  = modeView s.
Proof.
  unfold rememberApplication.
  destruct (rememberCombobox _ _ _ _ _) as [[c combo] announced].
  rewrite (modeView_behind _ _ (behind_announced P announced _)). reflexivity.
Qed.

Lemma modeView_onStartRecordingButtonClicked P checked s :
  modeView (onStartRecordingButtonClicked P checked s)
  = (QComboBox.setEnabled (negb checked) (fst (fst (modeView s))),
     snd (fst (modeView s)), snd (modeView s)).
Proof.
  unfold onStartRecordingButtonClicked. destruct checked.
  - destruct (rememberCombobox config "eventType" _ _ _) as [[c combo] announced].
    cbv beta iota zeta.
    set (s2 := RecordPage.on_ui (Ui.on_eventTypeBox _) _).
    assert (H2 : modeView s2 = modeView s) by reflexivity.
    clearbody s2. rewrite modeView_on_recordTypeComboBox.
    destruct (QVariant_eqb _ _); rewrite modeView_on_m_perfRecord.
    + rewrite modeView_rememberApplication, H2. reflexivity.
    + rewrite H2. reflexivity.
  - reflexivity.
Qed.

Lemma modeView_startRecordingButton_setChecked P checked s :
  modeView (startRecordingButton_setChecked P checked s)
  = if Bool.eqb (snd (modeView s)) checked then modeView s
    else (QComboBox.setEnabled (negb checked) (fst (fst (modeView s))),
          snd (fst (modeView s)), checked).
Proof.
  unfold startRecordingButton_setChecked.
  change (QPushButton.checked (Ui.startRecordingButton (RecordPage.ui s)))
    with (snd (modeView s)).
  destruct (Bool.eqb _ _); [reflexivity|].
  rewrite modeView_onStartRecordingButtonClicked. reflexivity.
Qed.

Lemma modeView_ProcessModel_mergeProcesses P incoming s :
  modeView (ProcessModel_mergeProcesses P incoming s) = modeView s.
Proof.
  unfold ProcessModel_mergeProcesses. cbv beta zeta.
  destruct (bool_decide _); reflexivity.
Qed.

Lemma modeView_updateProcessesFinished P s :
  modeView (updateProcessesFinished P s) = modeView s.
Proof.
  unfold updateProcessesFinished. cbv beta zeta.
  destruct (Page_eqb _ _).
  - etransitivity; [|apply (modeView_ProcessModel_mergeProcesses P
                              (result (RecordPage.m_watcher s)) s)].
    reflexivity.
  - apply modeView_ProcessModel_mergeProcesses.
Qed.

Lemma modeView_outputFile_setText P text s :
  modeView (outputFile_setText P text s) = modeView s.
Proof.
  unfold outputFile_setText. destruct (String.eqb _ _); [reflexivity|].
  now rewrite (modeView_behind _ _ (behind_onOutputFileNameChanged P text _)).
Qed.

Lemma modeView_onOutputFileNameSelected P filePath s :
  modeView (onOutputFileNameSelected P filePath s) = modeView s.
Proof.
  unfold onOutputFileNameSelected. destruct (negb _); [|reflexivity].
  apply modeView_outputFile_setText.
Qed.

Lemma modeView_currentIndexChanged P index s :
  modeView (currentIndexChanged P index s)
  = (fst (fst (modeView s)),
     (if index =? LaunchApplication then launchAppPage
      else if index =? AttachToProcess then attachAppPage
      else snd (fst (modeView s))),
     snd (modeView s)).
Proof.
  unfold currentIndexChanged.
  destruct (index =? LaunchApplication); [reflexivity|].
  destruct (index =? AttachToProcess); reflexivity.
Qed.

(** The recorder's signals, the start button and the mode selector apart,
    no event touches the mode selector, the page in front or the checked
    state of the start button. *)
Lemma modeView_step (P : Platform) (e : Event) (s : RecordPage.t) :
  match e with
  | ModeSelected _ | StartRecordingButtonClicked
  | PerfRecordingFinished _ | PerfRecordingFailed _ => True
  | _ => modeView (step P e s) = modeView s
  end.
Proof.
  destruct e; simpl; try exact I; try reflexivity.
  - destruct (String.eqb _ _); [reflexivity|].
    now rewrite (modeView_behind _ _ (behind_onApplicationNameChanged P text _)).
  - apply (modeView_behind _ _ (behind_workingDirectory_setText P text s)).
  - apply modeView_outputFile_setText.
  - apply modeView_onOutputFileNameSelected.
  - unfold onOutputFileUrlChanged.
    now rewrite modeView_onOutputFileNameSelected, modeView_outputFile_setText.
  - destruct (_ && _); reflexivity.
  - destruct (_ && _); reflexivity.
  - destruct (isRunning _ _); [|reflexivity].
    destruct (future (RecordPage.m_watcher s)) as [watched|]; [|reflexivity].
    destruct (Nat.eqb _ _); [|reflexivity].
    now rewrite modeView_updateProcessesFinished.
  - destruct (RecordPage.timers s) as [|deadline armed]; [reflexivity|].
    destruct (_ <=? _)%N; reflexivity.
Qed.

Lemma modeView_recordingFinished P fileLocation s :
  modeView (recordingFinished P fileLocation s)
  = (QComboBox.setEnabled true (fst (fst (modeView s))),
     snd (fst (modeView s)), false).
Proof.
  unfold recordingFinished. cbv beta zeta.
  rewrite modeView_on_recordTypeComboBox.
  match goal with
  | |- context [modeView ?t] =>
      change (modeView t)
        with (modeView (startRecordingButton_setChecked P false s))
  end.
  rewrite modeView_startRecordingButton_setChecked.
  destruct (snd (modeView s)) eqn:E; cbn [Bool.eqb fst snd negb]; [reflexivity|].
  rewrite E. reflexivity.
Qed.

Lemma modeView_recordingFailed P errorMessage s :
  modeView (recordingFailed P errorMessage s)
  = (QComboBox.setEnabled true (fst (fst (modeView s))),
     snd (fst (modeView s)), false).
Proof.
  unfold recordingFailed. cbv beta zeta.
  rewrite modeView_on_recordTypeComboBox.
  match goal with
  | |- context [modeView ?t] =>
      change (modeView t)
        with (modeView (startRecordingButton_setChecked P false s))
  end.
  rewrite modeView_startRecordingButton_setChecked.
  destruct (snd (modeView s)) eqn:E; cbn [Bool.eqb fst snd negb]; [reflexivity|].
  rewrite E. reflexivity.
Qed.

Lemma modeLocked_modeView s :
  modeLocked s
  <-> QComboBox.enabled (fst (fst (modeView s))) = negb (snd (modeView s)).
Proof. reflexivity. Qed.

Lemma modeShown_modeView s :
  modeShown s
  <-> (QComboBox.currentIndex (fst (fst (modeView s))) = LaunchApplication ->
       snd (fst (modeView s)) = launchAppPage)
      /\ (QComboBox.currentIndex (fst (fst (modeView s))) = AttachToProcess ->
          snd (fst (modeView s)) = attachAppPage).
Proof. reflexivity. Qed.

Lemma enabled_setCurrentIndex index box :
  QComboBox.enabled (QComboBox.setCurrentIndex index box) = QComboBox.enabled box.
Proof. unfold QComboBox.setCurrentIndex. destruct (_ && _); reflexivity. Qed.

Lemma currentIndex_setCurrentIndex index box :
  (0 <=? index) && (index <? QComboBox.count box) = true ->
  QComboBox.currentIndex (QComboBox.setCurrentIndex index box) = index.
Proof. unfold QComboBox.setCurrentIndex. intros ->. reflexivity. Qed.

Lemma modeView_ModeSelected P index s :
  modeView (step P (ModeSelected index) s) = modeView s
  \/ (0 <=? index) && (index <? QComboBox.count (fst (fst (modeView s)))) = true
     /\ modeView (step P (ModeSelected index) s)
        = (QComboBox.setCurrentIndex index (fst (fst (modeView s))),
           (if index =? LaunchApplication then launchAppPage
            else if index =? AttachToProcess then attachAppPage
            else snd (fst (modeView s))),
           snd (modeView s)).
Proof.
  cbn [step].
  destruct (QComboBox.enabled _); [|left; reflexivity].
  destruct (0 <=? index) eqn:E1; [|left; reflexivity].
  destruct (index <? _) eqn:E2; [|left; reflexivity].
  destruct (negb _); [|left; reflexivity].
  right. split; [reflexivity|].
  cbn [andb]. rewrite modeView_currentIndexChanged. reflexivity.
Qed.

Lemma modeLocked_step (P : Platform) (e : Event) (s : RecordPage.t) :
  modeLocked s -> modeLocked (step P e s).
Proof.
  rewrite !modeLocked_modeView. intros H.
  pose proof (modeView_step P e s) as Hf.
  destruct e; try (rewrite Hf; exact H).
  - destruct (modeView_ModeSelected P index s) as [->|[_ ->]]; [exact H|].
    cbn [fst snd]. now rewrite enabled_setCurrentIndex.
  - cbn [step]. destruct (QPushButton.enabled _); [|exact H].
    rewrite modeView_startRecordingButton_setChecked.
    change (QPushButton.checked (Ui.startRecordingButton (RecordPage.ui s)))
      with (snd (modeView s)).
    destruct (snd (modeView s)); reflexivity.
  - cbn [step]. rewrite modeView_recordingFinished. reflexivity.
  - cbn [step]. rewrite modeView_recordingFailed. reflexivity.
Qed.

Lemma modeShown_step (P : Platform) (e : Event) (s : RecordPage.t) :
  modeShown s -> modeShown (step P e s).
Proof.
  rewrite !modeShown_modeView. intros H.
  pose proof (modeView_step P e s) as Hf.
  destruct e; try (rewrite Hf; exact H).
  - destruct (modeView_ModeSelected P index s) as [->|[Hi ->]]; [exact H|].
    cbn [fst snd]. rewrite (currentIndex_setCurrentIndex _ _ Hi).
    split; intros ->; reflexivity.
  - cbn [step]. destruct (QPushButton.enabled _); [|exact H].
    rewrite modeView_startRecordingButton_setChecked.
    destruct (Bool.eqb _ _); exact H.
  - cbn [step]. rewrite modeView_recordingFinished. exact H.
  - cbn [step]. rewrite modeView_recordingFailed. exact H.
Qed.

(** X9.  The mode selector is locked while a recording is started: on every
    page a run passes through, the selector is enabled exactly when the
    start button is not checked, and while the button is checked the choice
    of a mode changes nothing. *)
Theorem mode_selector_locked_while_recording
  (P : Platform) (events : list Event) (s : RecordPage.t) :
  modeLocked s ->
  List.Forall
    (fun s' =>
       modeLocked s'
       /\ (startChecked s' = true ->
           forall index, step P (ModeSelected index) s' = s'))
    (visited P events s).
Proof.
  assert (Hstay : forall t, modeLocked t -> startChecked t = true ->
                  forall index, step P (ModeSelected index) t = t).
  { intros t Ht Hc index. unfold modeLocked in Ht. rewrite Hc in Ht.
    cbn [step negb] in *. now rewrite Ht. }
  revert s. induction events as [|e events IH]; intros s H; simpl.
  - constructor; [|constructor]. split; [exact H|now apply Hstay].
  - constructor; [split; [exact H|now apply Hstay]|].
    apply IH. now apply modeLocked_step.
Qed.

(** X9, on the example page: a recording is started and the user then
    tries to switch to attach mode. *)
Lemma mode_selector_locked_while_recording_witness :
  modeLocked freshPage
  /\ List.Forall
       (fun s' =>
          modeLocked s'
          /\ (startChecked s' = true ->
              forall index, step demo (ModeSelected index) s' = s'))
       (visited demo
          [ApplicationNameEdited "/usr/bin/ls"; StartRecordingButtonClicked;
           ModeSelected AttachToProcess] freshPage).
Proof.
  assert (H : modeLocked freshPage) by (vm_compute; reflexivity).
  split; [exact H|].
  exact (mode_selector_locked_while_recording demo
           [ApplicationNameEdited "/usr/bin/ls"; StartRecordingButtonClicked;
            ModeSelected AttachToProcess] freshPage H).
Defined.

(** X10.  The page in front follows the mode selector: on every page a run
    passes through, the launch page is in front when the selector shows
    the launch entry and the attach page when it shows the attach entry. *)
Theorem shown_page_follows_mode_selector
  (P : Platform) (events : list Event) (s : RecordPage.t) :
  modeShown s -> List.Forall modeShown (visited P events s).
Proof.
  revert s. induction events as [|e events IH]; intros s H; simpl.
  - constructor; [exact H|constructor].
  - constructor; [exact H|]. apply IH. now apply modeShown_step.
Qed.

(** X10, on the example page. *)
Lemma shown_page_follows_mode_selector_witness :
  modeShown freshPage /\ List.Forall modeShown (visited demo toggling freshPage).
Proof.
  assert (H : modeShown freshPage) by (vm_compute; split; [reflexivity|discriminate]).
  split; [exact H|].
  exact (shown_page_follows_mode_selector demo toggling freshPage H).
Defined.

(** ** The results of a recording *)

Lemma results_behind s s' :
  behindValidation s' = behindValidation s -> results s' = results s.
Proof.
  unfold behindValidation, results. intros H. injection H. intros. congruence.
Qed.

Lemma startLabel_behind s s' :
  behindValidation s' = behindValidation s ->
  QPushButton.text (Ui.startRecordingButton (RecordPage.ui s'))
  = QPushButton.text (Ui.startRecordingButton (RecordPage.ui s))
  /\ QPushButton.icon (Ui.startRecordingButton (RecordPage.ui s'))
     = QPushButton.icon (Ui.startRecordingButton (RecordPage.ui s)).
Proof. unfold behindValidation. intros H. injection H. auto. Qed.

Lemma behind_rememberApplication P application appParameters workingDir s :
  exists c combo,
    behindValidation
      (rememberApplication P application appParameters workingDir s)
    = behindValidation
        (RecordPage.on_ui (Ui.on_applicationName (fun _ => combo))
           (RecordPage.on_sharedConfig (fun _ => c) s)).
Proof.
  unfold rememberApplication.
  destruct (rememberCombobox _ _ _ _ _) as [[c combo] announced].
  exists c, combo. now rewrite behind_announced.
Qed.

(** What a start leaves of the results and of the label of the button. *)
Lemma started_page (P : Platform) (s : RecordPage.t) :
  let s' := onStartRecordingButtonClicked P true s in
  results s' = results (showRecordPage s)
  /\ QPushButton.text (Ui.startRecordingButton (RecordPage.ui s'))
     = QString.tr "Stop Recording"
  /\ QPushButton.icon (Ui.startRecordingButton (RecordPage.ui s'))
     = "media-playback-stop".
Proof.
  cbv zeta. unfold onStartRecordingButtonClicked.
  destruct (rememberCombobox config "eventType" _ _ _) as [[c combo] announced].
  cbv beta iota zeta.
  generalize (showRecordPage s). intros t0.
  set (s2 := RecordPage.on_ui (Ui.on_eventTypeBox _) _).
  assert (H2 : results s2 = results t0
               /\ QPushButton.text (Ui.startRecordingButton (RecordPage.ui s2))
                  = QString.tr "Stop Recording"
               /\ QPushButton.icon (Ui.startRecordingButton (RecordPage.ui s2))
                  = "media-playback-stop")
    by (repeat split; reflexivity).
  clearbody s2. destruct H2 as (R2 & T2 & I2).
  destruct (QVariant_eqb _ _).
  - match goal with
    | |- context [rememberApplication P ?a ?b ?c ?t] =>
        destruct (behind_rememberApplication P a b c t) as (c' & combo' & Hb);
        generalize dependent (rememberApplication P a b c t)
    end.
    intros r Hb.
    pose proof (results_behind _ _ Hb) as Hr.
    destruct (startLabel_behind _ _ Hb) as [Ht Hi].
    repeat split.
    + etransitivity; [|exact R2]. etransitivity; [|exact Hr]. reflexivity.
    + etransitivity; [|exact T2]. etransitivity; [|exact Ht]. reflexivity.
    + etransitivity; [|exact I2]. etransitivity; [|exact Hi]. reflexivity.
  - repeat split.
    + etransitivity; [|exact R2]. reflexivity.
    + etransitivity; [|exact T2]. reflexivity.
    + etransitivity; [|exact I2]. reflexivity.
Qed.

Lemma append_nil_r (p : string) : p +:+ "" = p.
Proof.
  induction p as [|c p IH]; [reflexivity|].
  change (String c (p +:+ "") = String c p). now rewrite IH.
Qed.

Lemma append_assoc (p q r : string) : (p +:+ q) +:+ r = p +:+ (q +:+ r).
Proof.
  induction p as [|c p IH]; [reflexivity|].
  change (String c ((p +:+ q) +:+ r) = String c (p +:+ (q +:+ r))).
  now rewrite IH.
Qed.

Lemma concat_cons (x : string) (l : list string) :
  String.concat "" (x :: l) = x +:+ String.concat "" l.
Proof.
  destruct l as [|y l]; [|reflexivity].
  change (x = x +:+ ""). now rewrite append_nil_r.
Qed.

(** X11.  When the recorder reports that it has finished, the start button
    is no longer checked, the mode selector is enabled, the results file
    is the reported one and the button that opens it is enabled, so that a
    click on it emits [openFile] for that file; the error message is hidden,
    its text and the enabled state of the start button are left as they
    were.  For a session that was active the button falls back to its
    start label and the recorder is told to stop. *)
Theorem recordingFinished_offers_results
  (P : Platform) (fileLocation : string) (s : RecordPage.t) :
  let s' := recordingFinished P fileLocation s in
  let u' := RecordPage.ui s' in
  startChecked s' = false
  /\ QComboBox.enabled (Ui.recordTypeComboBox u') = true
  /\ RecordPage.m_resultsFile s' = fileLocation
  /\ QPushButton.enabled (Ui.viewPerfRecordResultsButton u') = true
  /\ onViewPerfRecordResultsButtonClicked s' = openFile fileLocation
  /\ KMessageWidget.visible (Ui.applicationRecordErrorMessage u') = false
  /\ errorText s' = errorText s
  /\ startEnabled s' = startEnabled s
  /\ Ui.perfResultsTextEdit u' = Ui.perfResultsTextEdit (RecordPage.ui s)
  /\ (startChecked s = true ->
      QPushButton.text (Ui.startRecordingButton u') = "Start Recording"
      /\ QPushButton.icon (Ui.startRecordingButton u') = "media-playback-start"
      /\ RecordPage.m_perfRecord s'
         = (RecordPage.m_perfRecord s ++ [stopRecording])%list).
Proof.
  unfold recordingFinished, startRecordingButton_setChecked, startChecked,
    startEnabled, onViewPerfRecordResultsButtonClicked, errorText.
  destruct (QPushButton.checked (Ui.startRecordingButton (RecordPage.ui s))) eqn:E;
    simpl; rewrite ?E; repeat split; try reflexivity; discriminate.
Qed.

(** X11, on the example page while it records. *)
Lemma recordingFinished_offers_results_witness :
  startChecked recordingPage = true
  /\ RecordPage.m_perfRecord (recordingFinished demo "/tmp/perf.data" recordingPage)
     = (RecordPage.m_perfRecord recordingPage ++ [stopRecording])%list.
Proof.
  split; [reflexivity|].
  apply (recordingFinished_offers_results demo "/tmp/perf.data" recordingPage).
  reflexivity.
Defined.

(** X12.  A start withdraws the results of the recording before: the
    results file is forgotten, the button that opens it is disabled, the
    output pane is empty and hidden with its label, the window title is
    set and the start button offers to stop. *)
Theorem start_withdraws_previous_results (P : Platform) (s : RecordPage.t) :
  let started := onStartRecordingButtonClicked P true s in
  let u' := RecordPage.ui started in
  RecordPage.m_resultsFile started = ""
  /\ QPushButton.enabled (Ui.viewPerfRecordResultsButton u') = false
  /\ QTextEdit.plainText (Ui.perfResultsTextEdit u') = ""
  /\ QTextEdit.visible (Ui.perfResultsTextEdit u') = false
  /\ Ui.perfResultsLabel u' = false
  /\ RecordPage.windowTitle started = "Hotspot - Record"
  /\ QPushButton.text (Ui.startRecordingButton u') = "Stop Recording"
  /\ QPushButton.icon (Ui.startRecordingButton u') = "media-playback-stop".
Proof.
  cbv zeta.
  destruct (started_page P s) as (Hr & Ht & Hi).
  cbv zeta in Hr, Ht, Hi.
  generalize dependent (onStartRecordingButtonClicked P true s).
  intros started Hr Ht Hi.
  unfold results in Hr. injection Hr as H1 H2 H3 H4 H5.
  rewrite H1, H2, H3, H4, H5, Ht, Hi. repeat split; reflexivity.
Qed.

Lemma substring_none (t : string) : substring (String.length t) 0 t = "".
Proof. induction t as [|c t IH]; [reflexivity|exact IH]. Qed.

Lemma insertPlainText_at_end (o : string) (w : QTextEdit.t) :
  cursorAtEnd w ->
  QTextEdit.plainText (QTextEdit.insertPlainText o w)
  = QTextEdit.plainText w +:+ o.
Proof.
  intros [Ha Hp]. unfold QTextEdit.insertPlainText. cbv zeta.
  cbn [QTextEdit.plainText]. rewrite Ha, Hp, Nat.min_id, Nat.max_id, Nat.sub_diag.
  now rewrite substring_whole, substring_none, append_nil_r.
Qed.

Lemma pane_recordingOutput (o : string) (s : RecordPage.t) :
  Ui.perfResultsTextEdit (RecordPage.ui (recordingOutput o s))
  = QTextEdit.moveCursor QTextCursor_End
      (QTextEdit.show
         (QTextEdit.insertPlainText o
            (Ui.perfResultsTextEdit (RecordPage.ui s)))).
Proof. reflexivity. Qed.

Lemma cursorAtEnd_recordingOutput (o : string) (s : RecordPage.t) :
  cursorAtEnd (Ui.perfResultsTextEdit (RecordPage.ui (recordingOutput o s))).
Proof. rewrite pane_recordingOutput. split; reflexivity. Qed.

(** X13.  The output of the recorder is inserted at the text cursor of
    the output pane, and the cursor is moved behind the text after each
    message.  So when the cursor stands behind the text, the messages of a
    run are appended in the order of their arrival, and after a start,
    which empties the pane, the pane holds exactly the output of the
    recording that start began, as long as the user does not move the
    cursor in between.  The first message shows the pane and its label.
    Output offers no results: the results file and the button that opens
    it stay as they are. *)
Theorem recording_output_is_shown_in_order
  (P : Platform) (outputs : list string) (s : RecordPage.t) :
  let s' := run P (map PerfRecordingOutput outputs) s in
  (cursorAtEnd (Ui.perfResultsTextEdit (RecordPage.ui s)) ->
   QTextEdit.plainText (Ui.perfResultsTextEdit (RecordPage.ui s'))
   = QTextEdit.plainText (Ui.perfResultsTextEdit (RecordPage.ui s))
     +:+ String.concat "" outputs
   /\ cursorAtEnd (Ui.perfResultsTextEdit (RecordPage.ui s')))
  /\ (forall o,
        cursorAtEnd
          (Ui.perfResultsTextEdit (RecordPage.ui (recordingOutput o s))))
  /\ QTextEdit.visible (Ui.perfResultsTextEdit (RecordPage.ui s'))
     = (if QList.empty outputs
        then QTextEdit.visible (Ui.perfResultsTextEdit (RecordPage.ui s))
        else true)
  /\ Ui.perfResultsLabel (RecordPage.ui s')
     = (if QList.empty outputs then Ui.perfResultsLabel (RecordPage.ui s)
        else true)
  /\ RecordPage.m_resultsFile s' = RecordPage.m_resultsFile s
  /\ Ui.viewPerfRecordResultsButton (RecordPage.ui s')
     = Ui.viewPerfRecordResultsButton (RecordPage.ui s)
  /\ QTextEdit.plainText
       (Ui.perfResultsTextEdit
          (RecordPage.ui
             (run P (map PerfRecordingOutput outputs)
                (onStartRecordingButtonClicked P true s))))
     = String.concat "" outputs.
Proof.
  cbv zeta.
  assert (Htext : forall t,
    cursorAtEnd (Ui.perfResultsTextEdit (RecordPage.ui t)) ->
    QTextEdit.plainText
      (Ui.perfResultsTextEdit
         (RecordPage.ui (run P (map PerfRecordingOutput outputs) t)))
    = QTextEdit.plainText (Ui.perfResultsTextEdit (RecordPage.ui t))
      +:+ String.concat "" outputs
    /\ cursorAtEnd
         (Ui.perfResultsTextEdit
            (RecordPage.ui (run P (map PerfRecordingOutput outputs) t)))).
  { induction outputs as [|o outputs IH]; intros t Hend.
    - cbn [map run fold_left String.concat]. now rewrite append_nil_r.
    - change (run P (map PerfRecordingOutput (o :: outputs)) t)
        with (run P (map PerfRecordingOutput outputs) (recordingOutput o t)).
      destruct (IH (recordingOutput o t) (cursorAtEnd_recordingOutput o t))
        as [Ht He].
      split; [|exact He].
      rewrite Ht, pane_recordingOutput, concat_cons, <- append_assoc.
      f_equal. exact (insertPlainText_at_end o _ Hend). }
  assert (Hframe : forall t,
    QTextEdit.visible
      (Ui.perfResultsTextEdit
         (RecordPage.ui (run P (map PerfRecordingOutput outputs) t)))
    = (if QList.empty outputs
       then QTextEdit.visible (Ui.perfResultsTextEdit (RecordPage.ui t))
       else true)
    /\ Ui.perfResultsLabel
         (RecordPage.ui (run P (map PerfRecordingOutput outputs) t))
       = (if QList.empty outputs then Ui.perfResultsLabel (RecordPage.ui t)
          else true)
    /\ RecordPage.m_resultsFile (run P (map PerfRecordingOutput outputs) t)
       = RecordPage.m_resultsFile t
    /\ Ui.viewPerfRecordResultsButton
         (RecordPage.ui (run P (map PerfRecordingOutput outputs) t))
       = Ui.viewPerfRecordResultsButton (RecordPage.ui t)).
  { clear Htext. induction outputs as [|o outputs IH]; intros t.
    - repeat split; reflexivity.
    - change (run P (map PerfRecordingOutput (o :: outputs)) t)
        with (run P (map PerfRecordingOutput outputs) (recordingOutput o t)).
      destruct (IH (recordingOutput o t)) as (Hv & Hl & Hf & Hb).
      rewrite Hv, Hl, Hf, Hb. cbn [QList.empty].
      repeat split; try reflexivity.
      + destruct (QList.empty outputs); reflexivity.
      + destruct (QList.empty outputs); reflexivity. }
  destruct (Hframe s) as (Hv & Hl & Hf & Hb).
  split; [exact (Htext s)|].
  split; [intros o; apply cursorAtEnd_recordingOutput|].
  split; [exact Hv|]. split; [exact Hl|].
  split; [exact Hf|]. split; [exact Hb|].
  clear Hframe Hv Hl Hf Hb.
  destruct (started_page P s) as (Hr & _). cbv zeta in Hr.
  pose proof (Htext (onStartRecordingButtonClicked P true s)) as Ho.
  generalize dependent (onStartRecordingButtonClicked P true s).
  intros started Hr Ho.
  unfold results in Hr. injection Hr as _ _ H3 _ _.
  rewrite H3 in Ho. destruct Ho as [Ho _]; [split; reflexivity|].
  rewrite Ho. reflexivity.
Qed.

(** X13, on the example page, where the pane is empty. *)
Lemma recording_output_is_shown_in_order_witness :
  cursorAtEnd (Ui.perfResultsTextEdit (RecordPage.ui freshPage))
  /\ QTextEdit.plainText
       (Ui.perfResultsTextEdit
          (RecordPage.ui
             (run demo (map PerfRecordingOutput ["perf: "; "started"])
                freshPage)))
     = QTextEdit.plainText (Ui.perfResultsTextEdit (RecordPage.ui freshPage))
       +:+ String.concat "" ["perf: "; "started"].
Proof.
  assert (H : cursorAtEnd (Ui.perfResultsTextEdit (RecordPage.ui freshPage)))
    by (split; reflexivity).
  split; [exact H|].
  exact (proj1 (proj1 (recording_output_is_shown_in_order demo
                         ["perf: "; "started"] freshPage) H)).
Defined.

(** A message that arrives after the user has put the cursor elsewhere is
    inserted there. *)
Example recording_output_at_the_cursor :
  QTextEdit.plainText
    (Ui.perfResultsTextEdit
       (RecordPage.ui
          (run demo [PerfRecordingOutput "started"; OutputPaneCursorSet 0 0;
                     PerfRecordingOutput "perf: "] freshPage)))
  = "perf: started".
Proof. reflexivity. Qed.

(** ** Committing the output path twice *)

(** X15.  Committing an output path a second time changes nothing: the
    first commit has appended the extension, and setting the text the
    requester already holds announces nothing.  This holds for the slot
    and for a second press of return. *)
Theorem committing_output_path_twice
  (P : Platform) (filePath : string) (s : RecordPage.t) :
  onOutputFileNameSelected P filePath (onOutputFileNameSelected P filePath s)
  = onOutputFileNameSelected P filePath s
  /\ step P OutputFileReturnPressed (step P OutputFileReturnPressed s)
     = step P OutputFileReturnPressed s.
Proof.
  assert (Hslot : forall path t,
            onOutputFileNameSelected P path (onOutputFileNameSelected P path t)
            = onOutputFileNameSelected P path t).
  { intros path t. unfold onOutputFileNameSelected.
    destruct (negb (QString.endsWith path ".data")); [|reflexivity].
    cbv zeta.
    pose proof (storedOutputPath_outputFile_setText P (path +:+ ".data") t) as H.
    unfold storedOutputPath in H.
    unfold outputFile_setText at 1. now rewrite H, String.eqb_refl. }
  split; [apply Hslot|].
  cbn [step]. fold (storedOutputPath s).
  match goal with
  | |- context [KUrlRequester.text (Ui.outputFile (RecordPage.ui ?t))] =>
      fold (storedOutputPath t)
  end.
  rewrite storedOutputPath_onOutputFileNameSelected.
  destruct (QString.endsWith (storedOutputPath s) ".data") eqn:E.
  - apply Hslot.
  - unfold onOutputFileNameSelected at 1.
    now rewrite endsWith_append.
Qed.

(** ** The message of the validation *)

Lemma validated_updateStartRecordingButtonState P s :
  validated P (updateStartRecordingButtonState P (showErrorIfAny s)).
Proof. split; reflexivity. Qed.

(** X16.  Each of the three validation slots leaves the error message
    shown exactly when it has a text, and the start button enabled exactly
    when the mode allows a start and the message is empty.  The message is
    that of the check made last: when the check of a slot passes, the
    message is empty afterwards, whatever an earlier check of another field
    has left in it. *)
Theorem validation_message_follows_last_check
  (P : Platform) (text : string) (s : RecordPage.t) :
  let application := fileInfo P (findExecutable P (tildeExpand P text)) in
  let folder :=
    fileInfo P (toLocalFile
      (url P (KUrlRequester.text (Ui.workingDirectory (RecordPage.ui s))))) in
  let file := fileInfo P (toLocalFile (url P (storedOutputPath s))) in
  let outputFolder := fileInfo P (absolutePath file) in
  List.Forall (validated P)
    [onApplicationNameChanged P text s;
     onWorkingDirectoryNameChanged P text s;
     onOutputFileNameChanged P text s]
  /\ (exists_ application && isFile application && isExecutable application
      = true ->
      errorText (onApplicationNameChanged P text s) = "")
  /\ (exists_ folder && isDir folder && isWritable folder = true ->
      errorText (onWorkingDirectoryNameChanged P text s) = "")
  /\ (exists_ outputFolder && isDir outputFolder && isWritable outputFolder
      && QString.endsWith (absoluteFilePath file) ".data" = true ->
      errorText (onOutputFileNameChanged P text s) = "").
Proof.
  intros application folder file outputFolder. repeat split.
  - repeat constructor; apply validated_updateStartRecordingButtonState.
  - intros H.
    now destruct (onApplicationNameChanged_restores P text s H) as (_ & _ & He & _).
  - intros H.
    apply andb_prop in H. destruct H as [H H3].
    apply andb_prop in H. destruct H as [H1 H2].
    unfold onWorkingDirectoryNameChanged. fold folder.
    rewrite H1, H2, H3. reflexivity.
  - intros H.
    apply andb_prop in H. destruct H as [H H4].
    apply andb_prop in H. destruct H as [H H3].
    apply andb_prop in H. destruct H as [H1 H2].
    unfold onOutputFileNameChanged. fold (storedOutputPath s).
    fold file. fold outputFolder.
    rewrite H1, H2, H3, H4. reflexivity.
Qed.

(** X16, on the example page: the message about an application that does
    not exist is gone once the output file has been checked. *)
Lemma validation_message_follows_last_check_witness :
  errorText (onApplicationNameChanged demo "/opt/tool/run" freshPage) <> ""
  /\ errorText
       (onOutputFileNameChanged demo "/tmp/perf.data"
          (onApplicationNameChanged demo "/opt/tool/run" freshPage))
     = "".
Proof.
  split; [vm_compute; discriminate|].
  apply (validation_message_follows_last_check demo "/tmp/perf.data"
           (onApplicationNameChanged demo "/opt/tool/run" freshPage)).
  vm_compute. reflexivity.
Defined.

(** ** Events that leave the polling alone *)

(** X17.  The snapshot requests in flight and the armed poll timers are
    touched by the polling alone: a run without a choice of the mode, a
    completed request and a timeout leaves both as they are, whatever
    else happens on the page (input, a start or a stop, the signals of the
    recorder, the passing of time). *)
Theorem requests_untouched_by_other_events
  (P : Platform) (events : list Event) (s : RecordPage.t) :
  List.Forall (fun e => polls e = false) events ->
  pending (run P events s) = pending s.
Proof.
  intros H. revert s. induction H as [|e events He _ IH]; intros s.
  - reflexivity.
  - change (run P (e :: events) s) with (run P events (step P e s)).
    rewrite IH. pose proof (pending_step P e s) as Hp.
    destruct e; try exact Hp; discriminate He.
Qed.

(** X17, on the example page with a request in flight. *)
Lemma requests_untouched_by_other_events_witness :
  List.Forall (fun e => polls e = false)
    [ProcessRowClicked 7; OutputFileEdited "/tmp/out";
     OutputFileReturnPressed; TimePassed 500;
     PerfRecordingFailed "perf: no permission"]
  /\ pending
       (run demo
          [ProcessRowClicked 7; OutputFileEdited "/tmp/out";
           OutputFileReturnPressed; TimePassed 500;
           PerfRecordingFailed "perf: no permission"]
          (step demo (ModeSelected AttachToProcess) freshPage))
     = pending (step demo (ModeSelected AttachToProcess) freshPage).
Proof.
  assert (H : List.Forall (fun e => polls e = false)
                [ProcessRowClicked 7; OutputFileEdited "/tmp/out";
                 OutputFileReturnPressed; TimePassed 500;
                 PerfRecordingFailed "perf: no permission"])
    by (repeat constructor).
  split; [exact H|].
  exact (requests_untouched_by_other_events demo _ _ H).
Defined.

(** ** The page the constructor returns *)

Lemma RecordPage_new_returns (P : Platform) (form : Ui.t)
  (devices : list Solid.Device) (c : KConfig) (intel : bool) :
  constructible form ->
  isIntel devices = Ok intel -> exists s, RecordPage_new P form devices c = Ok s.
Proof.
  intros [He Hp] Hi. unfold RecordPage_new, deref. cbv zeta.
  cbn [Ui.eventTypeBox Ui.stackedWidget Ui.on_applicationName Ui.on_outputFile
       Ui.on_recordTypeComboBox].
  rewrite He, Hp, Hi. cbn [bind Page_eqb]. eexists. reflexivity.
Qed.

(** The constructor returns a page for no other form and no other host. *)
Lemma constructible_RecordPage_new (P : Platform) (form : Ui.t)
  (devices : list Solid.Device) (c : KConfig) (s : RecordPage.t) :
  RecordPage_new P form devices c = Ok s ->
  constructible form /\ exists intel, isIntel devices = Ok intel.
Proof.
  unfold RecordPage_new, deref, constructible. cbv zeta.
  cbn [Ui.eventTypeBox Ui.stackedWidget Ui.on_applicationName Ui.on_outputFile
       Ui.on_recordTypeComboBox].
  destruct (QComboBox.editable (Ui.eventTypeBox form)); [|discriminate].
  cbn [bind].
  destruct (Ui.stackedWidget form); [|discriminate].
  cbn [bind Page_eqb].
  destruct (isIntel devices) as [intel| |]; [|discriminate..].
  intros _. repeat split. now exists intel.
Qed.

Lemma made_RecordPage_new
  (P : Platform) (form : Ui.t) (devices : list Solid.Device) (c : KConfig)
  (s : RecordPage.t) :
  RecordPage_new P form devices c = Ok s ->
  RecordPage.sharedConfig s = c
  /\ RecordPage.m_perfRecord s = []
  /\ results s
     = ("", QPushButton.setEnabled false (Ui.viewPerfRecordResultsButton form),
        QTextEdit.hide (QTextEdit.clear (Ui.perfResultsTextEdit form)),
        false, QString.tr "Hotspot - Record")
  /\ storedOutputPath s = currentPath P +:+ "/" +:+ "perf.data"
  /\ history (Ui.applicationName (RecordPage.ui s))
     = readListEntry config "applications" [] c
  /\ history (Ui.eventTypeBox (RecordPage.ui s))
     = readListEntry config "eventType"
         [QComboBox.currentText (Ui.eventTypeBox form)] c.
Proof.
  enter_constructor intel. intros [= <-].
  match goal with
  | |- context [fold_left ?f ?l ?S2] =>
      pose proof (behind_announced P l S2) as Hb;
      set (S := S2) in *;
      set (v := fold_left f l S) in *
  end.
  pose proof (behind_sharedConfig _ _ Hb) as H1.
  pose proof (behind_m_perfRecord _ _ Hb) as H2.
  pose proof (results_behind _ _ Hb) as H3.
  pose proof (behind_outputFile _ _ Hb) as H4.
  pose proof (behind_applicationName _ _ Hb) as H5.
  assert (H6 : Ui.eventTypeBox (RecordPage.ui v)
               = Ui.eventTypeBox (RecordPage.ui S)).
  { unfold behindValidation in Hb. injection Hb. auto. }
  clear Hb. clearbody v.
  assert (G1 : RecordPage.sharedConfig S = c) by (destruct intel; reflexivity).
  assert (G2 : RecordPage.m_perfRecord S = []) by (destruct intel; reflexivity).
  assert (G3 : results S
       = ("", QPushButton.setEnabled false (Ui.viewPerfRecordResultsButton form),
          QTextEdit.hide (QTextEdit.clear (Ui.perfResultsTextEdit form)),
          false, QString.tr "Hotspot - Record")) by (destruct intel; reflexivity).
  assert (G4 : KUrlRequester.text (Ui.outputFile (RecordPage.ui S))
               = currentPath P +:+ "/" +:+ "perf.data")
    by (destruct intel; reflexivity).
  assert (G5 : history (Ui.applicationName (RecordPage.ui S))
               = readListEntry config "applications" [] c).
  { unfold S.
    cbn [RecordPage.ui RecordPage.on_ui Ui.applicationName Ui.on_applicationName].
    apply history_restoreCombobox. }
  assert (G6 : Ui.eventTypeBox (RecordPage.ui S) = Ui.eventTypeBox form)
    by (destruct intel; reflexivity).
  clearbody S.
  match goal with
  | |- context [if ?b then _ else _] => destruct b
  end.
  all: unfold storedOutputPath, results.
  all: cbn [RecordPage.sharedConfig RecordPage.m_perfRecord RecordPage.ui
            RecordPage.on_ui RecordPage.m_resultsFile RecordPage.windowTitle
            Ui.on_callGraphComboBox Ui.on_eventTypeBox
            Ui.viewPerfRecordResultsButton Ui.perfResultsTextEdit
            Ui.perfResultsLabel Ui.outputFile Ui.applicationName
            Ui.eventTypeBox].
  all: unfold results in H3, G3.
  all: injection H3 as A1 A2 A3 A4 A5; injection G3 as B1 B2 B3 B4 B5.
  all: rewrite H1, H2, H4, H5, H6, G1, G2, G4, G5, G6, A1, A2, A3, A4, A5,
         B1, B2, B3, B4, B5, history_restoreCombobox.
  all: repeat split; reflexivity.
Qed.

(** X18.  The constructor returns a page exactly for a form it can be
    run on (an editable event type box and the launch page in front) on a
    host that reports a processor device; for every other form and on
    every other host it ends in a call through a null pointer or an access
    outside the device list.  The page it returns has written nothing to
    the configuration and told the recorder nothing, has no snapshot
    request or timer pending, offers no results (no results file, the
    button that opens one disabled, the output pane empty and hidden),
    proposes [perf.data] in the current directory as the output file, lists
    the stored applications and event types (the text of the event type
    box when none is stored), and has the start button disabled if the
    validation of the restored application has left a message. *)
Theorem RecordPage_new_page
  (P : Platform) (form : Ui.t) (devices : list Solid.Device) (c : KConfig) :
  ((exists s, RecordPage_new P form devices c = Ok s)
   <-> constructible form /\ devices <> [])
  /\ forall s,
       RecordPage_new P form devices c = Ok s ->
       RecordPage.sharedConfig s = c
       /\ RecordPage.m_perfRecord s = []
       /\ quiet s = true
       /\ blocked s
       /\ results s
          = ("", QPushButton.setEnabled false
                   (Ui.viewPerfRecordResultsButton form),
             QTextEdit.hide (QTextEdit.clear (Ui.perfResultsTextEdit form)),
             false, QString.tr "Hotspot - Record")
       /\ storedOutputPath s = currentPath P +:+ "/" +:+ "perf.data"
       /\ history (Ui.applicationName (RecordPage.ui s))
          = readListEntry config "applications" [] c
       /\ history (Ui.eventTypeBox (RecordPage.ui s))
          = readListEntry config "eventType"
              [QComboBox.currentText (Ui.eventTypeBox form)] c.
Proof.
  split.
  - split.
    + intros [s Hs].
      destruct (constructible_RecordPage_new P form devices c s Hs)
        as [Hform [intel Hi]].
      split; [exact Hform|]. intros ->. discriminate Hi.
    + intros [Hform Hdevices].
      destruct devices as [|device devices]; [contradiction|].
      destruct (isIntel_nonempty device devices) as [intel Hi].
      exact (RecordPage_new_returns P form (device :: devices) c intel Hform Hi).
  - intros s Hs.
    destruct (made_RecordPage_new P form devices c s Hs)
      as (H1 & H2 & H3 & H4 & H5 & H6).
    split; [exact H1|]. split; [exact H2|].
    split; [exact (quiet_RecordPage_new P form devices c s Hs)|].
    split; [exact (blocked_RecordPage_new P form devices c s Hs)|].
    split; [exact H3|]. split; [exact H4|]. split; [exact H5|exact H6].
Qed.

(** The constructor on two forms it cannot be run on: one whose event type
    box is not editable, and one whose attach page is in front. *)
Example RecordPage_new_null_pointers :
  RecordPage_new demo (Ui.on_eventTypeBox (QComboBox.setEditable false) blankForm)
    intelHost ∅
  = NullPointer "ui->eventTypeBox->lineEdit()"
  /\ RecordPage_new demo (Ui.on_stackedWidget (fun _ => attachAppPage) blankForm)
       intelHost ∅
     = NullPointer "ui->processesTableView->selectionModel()".
Proof. split; reflexivity. Qed.

(** ** The unwind method *)

Lemma findData_unwindMethods (intel ed en : bool) (le stored : string) :
  let box :=
    {| QComboBox.items :=
         [("None", StringData ""); ("DWARF", StringData "dwarf");
          ("Frame Pointer", StringData "fp")]
         ++ (if intel then [("Last Branch Record", StringData "lbr")] else []);
       QComboBox.currentIndex := 1;
       QComboBox.editable := ed;
       QComboBox.lineEdit := le;
       QComboBox.enabled := en |} in
  let callGraphIdx := QComboBox.findData box (StringData stored) in
  let box' := if negb (callGraphIdx =? -1)
              then QComboBox.setCurrentIndex callGraphIdx box else box in
  map snd (QComboBox.items box') = map StringData (unwindMethods intel)
  /\ QComboBox.currentData box'
     = StringData (if member stored (unwindMethods intel) then stored
                   else "dwarf").
Proof.
  cbv zeta. unfold QComboBox.findData, member, unwindMethods.
  destruct intel;
    cbn -[String.eqb]; rewrite !(String.eqb_sym stored);
    (destruct (String.eqb_spec "" stored) as [<-|N0]; [split; reflexivity|]);
    (destruct (String.eqb_spec "dwarf" stored) as [<-|N1]; [split; reflexivity|]);
    (destruct (String.eqb_spec "fp" stored) as [<-|N2]; [split; reflexivity|]);
    try (destruct (String.eqb_spec "lbr" stored) as [<-|N3]; [split; reflexivity|]);
    split; reflexivity.
Qed.

Lemma callGraph_RecordPage_new
  (P : Platform) (form : Ui.t) (devices : list Solid.Device) (c : KConfig)
  (intel : bool) (s : RecordPage.t) :
  QComboBox.items (Ui.callGraphComboBox form) = [] ->
  isIntel devices = Ok intel ->
  RecordPage_new P form devices c = Ok s ->
  let stored := readEntry config "callGraph" "dwarf" c in
  map snd (QComboBox.items (Ui.callGraphComboBox (RecordPage.ui s)))
  = map StringData (unwindMethods intel)
  /\ QComboBox.currentData (Ui.callGraphComboBox (RecordPage.ui s))
     = StringData (if member stored (unwindMethods intel) then stored
                   else "dwarf").
Proof.
  intros Hitems Hi. revert Hi. enter_constructor intel0.
  intros [= ->] [= <-].
  match goal with
  | |- context [fold_left ?f ?l ?S2] =>
      pose proof (behind_announced P l S2) as Hb;
      set (S := S2) in *;
      set (v := fold_left f l S) in *
  end.
  assert (Hcg : Ui.callGraphComboBox (RecordPage.ui v)
                = Ui.callGraphComboBox (RecordPage.ui S)).
  { unfold behindValidation in Hb. injection Hb. auto. }
  clear Hb. clearbody v.
  assert (Hbox : exists ed le en,
    Ui.callGraphComboBox (RecordPage.ui S)
    = {| QComboBox.items :=
           [("None", StringData ""); ("DWARF", StringData "dwarf");
            ("Frame Pointer", StringData "fp")]
           ++ (if intel then [("Last Branch Record", StringData "lbr")] else []);
         QComboBox.currentIndex := 1;
         QComboBox.editable := ed;
         QComboBox.lineEdit := le;
         QComboBox.enabled := en |}).
  { destruct form as [? ? ? ? ? ? ? ? ? ? box ? ?].
    destruct box as [items cur ed le en]. cbn in Hitems. subst items.
    exists ed, (if ed then "DWARF" else le), en.
    unfold S. destruct intel, ed; reflexivity. }
  clearbody S. destruct Hbox as (ed & le & en & Hbox).
  cbn [RecordPage.ui RecordPage.on_ui Ui.callGraphComboBox Ui.on_eventTypeBox].
  rewrite Hcg, Hbox.
  set (box := {| QComboBox.items := _ |}).
  assert (Hcall : match c !! (config, "callGraph") with
                  | Some (Entry v0) => StringData v0
                  | Some (EntryList l) => StringData (String.concat "," l)
                  | None => QComboBox.currentData box
                  end
                  = StringData (readEntry config "callGraph" "dwarf" c)).
  { unfold readEntry. destruct (c !! (config, "callGraph")) as [[v0|l]|];
      [reflexivity|reflexivity|]. unfold box. destruct intel; reflexivity. }
  rewrite Hcall. generalize (readEntry config "callGraph" "dwarf" c).
  intros stored.
  pose proof (findData_unwindMethods intel ed en le stored) as Hf.
  cbv zeta in Hf. fold box in Hf.
  destruct (negb (QComboBox.findData box (StringData stored) =? -1));
    cbn [RecordPage.ui RecordPage.on_ui Ui.callGraphComboBox
         Ui.on_callGraphComboBox Ui.on_eventTypeBox];
    rewrite Hcg, Hbox; exact Hf.
Qed.

Lemma callGraph_onStartRecordingButtonClicked (P : Platform) (s : RecordPage.t) :
  readEntry config "callGraph" "dwarf"
    (RecordPage.sharedConfig (onStartRecordingButtonClicked P true s))
  = QVariant_toString
      (QComboBox.currentData (Ui.callGraphComboBox (RecordPage.ui s))).
Proof.
  destruct (sharedConfig_onStartRecordingButtonClicked P s)
    as (eventTypes & applications & H).
  cbv zeta in H. rewrite H. clear H. unfold readEntry, writeEntry.
  destruct (QVariant_eqb _ _).
  - rewrite lookup_insert_ne by (intros [= H]; discriminate H).
    rewrite lookup_insert_ne by (intros [= H]; discriminate H).
    rewrite lookup_insert_ne by (intros [= H]; discriminate H).
    rewrite lookup_insert_ne by (intros [= H]; discriminate H).
    now rewrite lookup_insert_eq.
  - rewrite lookup_insert_ne by (intros [= H]; discriminate H).
    now rewrite lookup_insert_eq.
Qed.

(** X19.  The call graph box of a new page, for a form the constructor
    can be run on that brings no call graph items of its own: it offers
    the unwind methods of the host (the last branch record on an Intel
    processor only) and shows the stored method when that is one of them;
    with no stored method, or one the host does not offer, it shows
    DWARF. *)
Theorem RecordPage_new_restores_unwind_method
  (P : Platform) (form : Ui.t) (devices : list Solid.Device) (c : KConfig)
  (intel : bool) :
  constructible form ->
  QComboBox.items (Ui.callGraphComboBox form) = [] ->
  isIntel devices = Ok intel ->
  exists s,
    RecordPage_new P form devices c = Ok s
    /\ map snd (QComboBox.items (Ui.callGraphComboBox (RecordPage.ui s)))
       = map StringData (unwindMethods intel)
    /\ QComboBox.currentData (Ui.callGraphComboBox (RecordPage.ui s))
       = StringData
           (if member (readEntry config "callGraph" "dwarf" c)
                      (unwindMethods intel)
            then readEntry config "callGraph" "dwarf" c
            else "dwarf").
Proof.
  intros Hform Hitems Hi.
  destruct (RecordPage_new_returns P form devices c intel Hform Hi) as [s Hs].
  exists s. split; [exact Hs|].
  exact (callGraph_RecordPage_new P form devices c intel s Hitems Hi Hs).
Qed.

(** X19, on the example host with the frame pointer stored. *)
Lemma RecordPage_new_restores_unwind_method_witness :
  constructible blankForm
  /\ QComboBox.items (Ui.callGraphComboBox blankForm) = []
  /\ isIntel intelHost = Ok true
  /\ exists s,
       RecordPage_new demo blankForm intelHost
         {[ (config, "callGraph") := Entry "fp" ]} = Ok s
       /\ map snd (QComboBox.items (Ui.callGraphComboBox (RecordPage.ui s)))
          = map StringData (unwindMethods true)
       /\ QComboBox.currentData (Ui.callGraphComboBox (RecordPage.ui s))
          = StringData
              (if member (readEntry config "callGraph" "dwarf"
                            {[ (config, "callGraph") := Entry "fp" ]})
                         (unwindMethods true)
               then readEntry config "callGraph" "dwarf"
                      {[ (config, "callGraph") := Entry "fp" ]}
               else "dwarf").
Proof.
  assert (H0 : constructible blankForm) by (split; reflexivity).
  assert (H1 : QComboBox.items (Ui.callGraphComboBox blankForm) = [])
    by reflexivity.
  assert (H2 : isIntel intelHost = Ok true) by reflexivity.
  split; [exact H0|]. split; [exact H1|]. split; [exact H2|].
  exact (RecordPage_new_restores_unwind_method demo blankForm intelHost
           {[ (config, "callGraph") := Entry "fp" ]} true H0 H1 H2).
Defined.

(** X20.  The unwind method makes a round trip through the
    configuration: a page constructed on the same host from the
    configuration a start has left shows the method that start was made
    with, when the form is one the constructor can be run on, brings no
    call graph items of its own, and the method is one the host offers. *)
Theorem unwind_method_survives_restart
  (P : Platform) (form : Ui.t) (devices : list Solid.Device) (intel : bool)
  (method : string) (s : RecordPage.t) :
  constructible form ->
  QComboBox.items (Ui.callGraphComboBox form) = [] ->
  isIntel devices = Ok intel ->
  QComboBox.currentData (Ui.callGraphComboBox (RecordPage.ui s))
  = StringData method ->
  member method (unwindMethods intel) = true ->
  exists s',
    RecordPage_new P form devices
      (RecordPage.sharedConfig (onStartRecordingButtonClicked P true s)) = Ok s'
    /\ QComboBox.currentData (Ui.callGraphComboBox (RecordPage.ui s'))
       = StringData method.
Proof.
  intros Hform Hitems Hi Hdata Hmember.
  set (c := RecordPage.sharedConfig (onStartRecordingButtonClicked P true s)).
  destruct (RecordPage_new_returns P form devices c intel Hform Hi) as [s' Hs].
  exists s'. split; [exact Hs|].
  destruct (callGraph_RecordPage_new P form devices c intel s' Hitems Hi Hs)
    as [_ H].
  cbv zeta in H. rewrite H. unfold c.
  rewrite callGraph_onStartRecordingButtonClicked, Hdata.
  cbn [QVariant_toString]. now rewrite Hmember.
Qed.

(** X20, on the example page with the frame pointer chosen. *)
Lemma unwind_method_survives_restart_witness :
  constructible blankForm
  /\ QComboBox.items (Ui.callGraphComboBox blankForm) = []
  /\ isIntel intelHost = Ok true
  /\ QComboBox.currentData
       (Ui.callGraphComboBox
          (RecordPage.ui (step demo (CallGraphSelected 2) freshPage)))
     = StringData "fp"
  /\ member "fp" (unwindMethods true) = true
  /\ exists s',
       RecordPage_new demo blankForm intelHost
         (RecordPage.sharedConfig
            (onStartRecordingButtonClicked demo true
               (step demo (CallGraphSelected 2) freshPage))) = Ok s'
       /\ QComboBox.currentData (Ui.callGraphComboBox (RecordPage.ui s'))
          = StringData "fp".
Proof.
  assert (H1 : QComboBox.items (Ui.callGraphComboBox blankForm) = [])
    by reflexivity.
  assert (H2 : isIntel intelHost = Ok true) by reflexivity.
  assert (H3 : QComboBox.currentData
                 (Ui.callGraphComboBox
                    (RecordPage.ui (step demo (CallGraphSelected 2) freshPage)))
               = StringData "fp") by (vm_compute; reflexivity).
  assert (H4 : member "fp" (unwindMethods true) = true) by reflexivity.
  assert (H0 : constructible blankForm) by (split; reflexivity).
  split; [exact H0|]. split; [exact H1|]. split; [exact H2|].
  split; [exact H3|]. split; [exact H4|].
  exact (unwind_method_survives_restart demo blankForm intelHost true "fp"
           (step demo (CallGraphSelected 2) freshPage) H0 H1 H2 H3 H4).
Defined.

(** ** The calls made on the recorder *)

Lemma alternates_snoc recording calls call :
  alternates recording (calls ++ [call])
  = match alternates recording calls with
    | Some now => if Bool.eqb (isStop call) now then Some (negb now) else None
    | None => None
    end.
Proof.
  revert recording. induction calls as [|c calls IH]; intros recording; simpl.
  - destruct (Bool.eqb _ _); reflexivity.
  - destruct (Bool.eqb (isStop c) recording); [apply IH|reflexivity].
Qed.

Lemma session_behind s s' :
  behindValidation s' = behindValidation s -> session s' = session s.
Proof.
  unfold behindValidation, session, startChecked. intros H. injection H.
  intros. congruence.
Qed.

Lemma session_onStartRecordingButtonClicked P checked s :
  exists call,
    isStop call = negb checked
    /\ session (onStartRecordingButtonClicked P checked s)
       = (RecordPage.m_perfRecord s ++ [call], startChecked s).
Proof.
  pose proof (modeView_onStartRecordingButtonClicked P checked s) as Hm.
  assert (Hc : startChecked (onStartRecordingButtonClicked P checked s)
               = startChecked s).
  { unfold modeView in Hm. injection Hm. auto. }
  unfold session. rewrite Hc. destruct checked.
  - rewrite onStartRecordingButtonClicked_call. eexists. split; [|reflexivity].
    destruct (QVariant_eqb _ _); reflexivity.
  - exists stopRecording. split; reflexivity.
Qed.

Lemma session_startRecordingButton_setChecked P checked s :
  session (startRecordingButton_setChecked P checked s) = session s
  /\ startChecked s = checked
  \/ exists call,
       isStop call = negb checked
       /\ startChecked s = negb checked
       /\ session (startRecordingButton_setChecked P checked s)
          = (RecordPage.m_perfRecord s ++ [call], checked).
Proof.
  unfold startRecordingButton_setChecked. fold (startChecked s).
  destruct (Bool.eqb (startChecked s) checked) eqn:E.
  - left. split; [reflexivity|]. now apply Bool.eqb_prop.
  - right.
    destruct (session_onStartRecordingButtonClicked P checked
                (RecordPage.on_ui
                   (Ui.on_startRecordingButton (QPushButton.setChecked checked)) s))
      as (call & Hk & Hs).
    exists call. split; [exact Hk|]. split.
    + destruct (startChecked s), checked; try reflexivity; discriminate E.
    + rewrite Hs. reflexivity.
Qed.

Lemma session_ProcessModel_mergeProcesses P incoming s :
  session (ProcessModel_mergeProcesses P incoming s) = session s.
Proof.
  unfold ProcessModel_mergeProcesses. cbv beta zeta.
  destruct (bool_decide _); reflexivity.
Qed.

Lemma session_updateProcessesFinished P s :
  session (updateProcessesFinished P s) = session s.
Proof.
  unfold updateProcessesFinished. cbv beta zeta.
  destruct (Page_eqb _ _).
  - etransitivity; [|apply (session_ProcessModel_mergeProcesses P
                              (result (RecordPage.m_watcher s)) s)].
    reflexivity.
  - apply session_ProcessModel_mergeProcesses.
Qed.

Lemma session_outputFile_setText P text s :
  session (outputFile_setText P text s) = session s.
Proof.
  unfold outputFile_setText. destruct (String.eqb _ _); [reflexivity|].
  now rewrite (session_behind _ _ (behind_onOutputFileNameChanged P text _)).
Qed.

Lemma session_onOutputFileNameSelected P filePath s :
  session (onOutputFileNameSelected P filePath s) = session s.
Proof.
  unfold onOutputFileNameSelected. destruct (negb _); [|reflexivity].
  apply session_outputFile_setText.
Qed.

Lemma session_step (P : Platform) (e : Event) (s : RecordPage.t) :
  match e with
  | StartRecordingButtonClicked
  | PerfRecordingFinished _ | PerfRecordingFailed _ => True
  | _ => session (step P e s) = session s
  end.
Proof.
  destruct e; simpl; try exact I; try reflexivity.
  - destruct (_ && _); [|reflexivity].
    unfold currentIndexChanged.
    destruct (index =? LaunchApplication); [reflexivity|].
    destruct (index =? AttachToProcess); reflexivity.
  - destruct (String.eqb _ _); [reflexivity|].
    now rewrite (session_behind _ _ (behind_onApplicationNameChanged P text _)).
  - apply (session_behind _ _ (behind_workingDirectory_setText P text s)).
  - apply session_outputFile_setText.
  - apply session_onOutputFileNameSelected.
  - unfold onOutputFileUrlChanged.
    now rewrite session_onOutputFileNameSelected, session_outputFile_setText.
  - destruct (_ && _); reflexivity.
  - destruct (_ && _); reflexivity.
  - destruct (isRunning _ _); [|reflexivity].
    destruct (future (RecordPage.m_watcher s)) as [watched|]; [|reflexivity].
    destruct (Nat.eqb _ _); [|reflexivity].
    now rewrite session_updateProcessesFinished.
  - destruct (RecordPage.timers s) as [|deadline armed]; [reflexivity|].
    destruct (_ <=? _)%N; reflexivity.
Qed.

Lemma inSession_session s s' : session s' = session s -> inSession s -> inSession s'.
Proof. unfold inSession, session. intros [= -> ->]. auto. Qed.

Lemma inSession_setChecked P checked s :
  inSession s -> inSession (startRecordingButton_setChecked P checked s).
Proof.
  intros H.
  destruct (session_startRecordingButton_setChecked P checked s)
    as [[Hs _]|(call & Hk & Hc & Hs)].
  - exact (inSession_session _ _ Hs H).
  - unfold inSession in *. unfold session in Hs. injection Hs as -> ->.
    rewrite alternates_snoc, H, Hk, Hc, Bool.eqb_reflx, Bool.negb_involutive.
    reflexivity.
Qed.

Lemma inSession_step (P : Platform) (e : Event) (s : RecordPage.t) :
  inSession s -> inSession (step P e s).
Proof.
  intros H. pose proof (session_step P e s) as Hf.
  destruct e; try exact (inSession_session _ _ Hf H).
  - cbn [step]. destruct (QPushButton.enabled _); [|exact H].
    now apply inSession_setChecked.
  - cbn [step]. unfold recordingFinished. cbv beta zeta.
    eapply inSession_session; [|apply (inSession_setChecked P false s H)].
    reflexivity.
  - cbn [step]. unfold recordingFailed. cbv beta zeta.
    eapply inSession_session; [|apply (inSession_setChecked P false s H)].
    reflexivity.
Qed.

(** X21.  The page asks the recorder to record and to stop in turns: on
    every page a run passes through, no recording was asked for while one
    was started, no stop was asked for while none was started, and the
    start button is checked exactly when the last call asked the recorder
    to record.  This holds for a start and a stop by the button and for
    the end of a recording that the recorder reports itself. *)
Theorem recorder_calls_alternate
  (P : Platform) (events : list Event) (s : RecordPage.t) :
  inSession s -> List.Forall inSession (visited P events s).
Proof.
  revert s. induction events as [|e events IH]; intros s H; simpl.
  - constructor; [exact H|constructor].
  - constructor; [exact H|]. apply IH. now apply inSession_step.
Qed.

(** X21, on the example page: a recording that finishes by itself, one
    that the user stops, and one that fails. *)
Lemma recorder_calls_alternate_witness :
  inSession freshPage
  /\ List.Forall inSession
       (visited demo
          [ApplicationNameEdited "/usr/bin/ls"; StartRecordingButtonClicked;
           PerfRecordingFinished "/tmp/perf.data"; StartRecordingButtonClicked;
           StartRecordingButtonClicked; StartRecordingButtonClicked;
           PerfRecordingFailed "perf: no permission"] freshPage).
Proof.
  assert (H : inSession freshPage) by (vm_compute; reflexivity).
  split; [exact H|].
  exact (recorder_calls_alternate demo _ freshPage H).
Defined.

(** ** What a start records *)

Lemma modeConsistent_modeView s :
  modeConsistent s
  <-> map snd (QComboBox.items (fst (fst (modeView s))))
      = [IntData LaunchApplication; IntData AttachToProcess]
      /\ (QComboBox.currentIndex (fst (fst (modeView s))) = LaunchApplication
          /\ snd (fst (modeView s)) = launchAppPage
          \/ QComboBox.currentIndex (fst (fst (modeView s))) = AttachToProcess
             /\ snd (fst (modeView s)) = attachAppPage).
Proof. reflexivity. Qed.

Lemma modeConsistent_step (P : Platform) (e : Event) (s : RecordPage.t) :
  modeConsistent s -> modeConsistent (step P e s).
Proof.
  rewrite !modeConsistent_modeView. intros H.
  pose proof (modeView_step P e s) as Hf.
  destruct e; try (rewrite Hf; exact H).
  - destruct (modeView_ModeSelected P index s) as [->|[Hi ->]]; [exact H|].
    destruct H as [Hitems _].
    cbn [fst snd]. rewrite items_setCurrentIndex.
    rewrite (currentIndex_setCurrentIndex _ _ Hi).
    split; [exact Hitems|].
    apply andb_prop in Hi. destruct Hi as [Hi1 Hi2].
    apply Z.leb_le in Hi1. apply Z.ltb_lt in Hi2.
    unfold QComboBox.count in Hi2.
    rewrite <- (length_map snd), Hitems in Hi2. cbn [length] in Hi2.
    assert (Hc : index = 0 \/ index = 1) by lia.
    destruct Hc as [->| ->]; [left|right]; split; reflexivity.
  - cbn [step]. destruct (QPushButton.enabled _); [|exact H].
    rewrite modeView_startRecordingButton_setChecked.
    destruct (Bool.eqb _ _); exact H.
  - cbn [step]. rewrite modeView_recordingFinished. exact H.
  - cbn [step]. rewrite modeView_recordingFailed. exact H.
Qed.

Lemma recordsForShownPage_modeConsistent P s :
  modeConsistent s -> recordsForShownPage P s.
Proof.
  intros [Hitems Hmode]. unfold recordsForShownPage.
  rewrite onStartRecordingButtonClicked_call. eexists. split; [reflexivity|].
  assert (Hd : QVariant_eqb
                 (QComboBox.currentData (Ui.recordTypeComboBox (RecordPage.ui s)))
                 (IntData LaunchApplication)
               = Page_eqb (shownPage s) launchAppPage
               /\ Page_eqb (shownPage s) attachAppPage
                  = negb (Page_eqb (shownPage s) launchAppPage)).
  { unfold QComboBox.currentData, QComboBox.itemData, QComboBox.item.
    destruct (QComboBox.items (Ui.recordTypeComboBox (RecordPage.ui s)))
      as [|[a x] [|[b y] [|? ?]]]; try discriminate Hitems.
    injection Hitems as -> ->.
    destruct Hmode as [[-> ->]|[-> ->]]; split; reflexivity. }
  destruct Hd as [-> ->].
  destruct (Page_eqb (shownPage s) launchAppPage); split; reflexivity.
Qed.

Lemma modeConsistent_RecordPage_new P form devices c s :
  QComboBox.items (Ui.recordTypeComboBox form) = [] ->
  Ui.stackedWidget form = launchAppPage ->
  RecordPage_new P form devices c = Ok s ->
  modeConsistent s.
Proof.
  intros Hitems Hpage. enter_constructor intel. intros [= <-].
  match goal with
  | |- context [fold_left ?f ?l ?S2] =>
      pose proof (modeView_behind _ _ (behind_announced P l S2)) as Hb;
      set (S := S2) in *;
      set (v := fold_left f l S) in *
  end.
  clearbody v.
  assert (Hm : map snd (QComboBox.items (fst (fst (modeView S))))
               = [IntData LaunchApplication; IntData AttachToProcess]
               /\ QComboBox.currentIndex (fst (fst (modeView S)))
                  = LaunchApplication
               /\ snd (fst (modeView S)) = launchAppPage).
  { destruct form as [page box ? ? ? ? ? ? ? ? ? ? ?].
    destruct box as [items cur ed le en]. cbn in Hitems, Hpage. subst items page.
    unfold S. destruct intel; repeat split; reflexivity. }
  clearbody S. destruct Hm as (Hi & Hc & Hp).
  rewrite <- Hb in Hi, Hc, Hp.
  apply modeConsistent_modeView.
  match goal with
  | |- context [if ?b then _ else _] => destruct b
  end.
  all: match goal with
       | |- context [modeView ?t] => change (modeView t) with (modeView v)
       end.
  all: split; [exact Hi|left; split; [exact Hc|exact Hp]].
Qed.

(** X22.  A start records for the page in front.  On every page a run
    from the constructor passes through, for a form whose mode selector
    brings no entries and whose launch page is in front, a start asks the
    recorder to launch the application when the launch page is shown and
    to attach to the selected processes when the attach page is shown:
    the page that decides whether the start button is enabled and the
    entry of the mode selector that decides what is recorded agree. *)
Theorem start_records_for_the_page_in_front
  (P : Platform) (form : Ui.t) (devices : list Solid.Device) (c : KConfig)
  (events : list Event) (s : RecordPage.t) :
  QComboBox.items (Ui.recordTypeComboBox form) = [] ->
  Ui.stackedWidget form = launchAppPage ->
  RecordPage_new P form devices c = Ok s ->
  List.Forall (recordsForShownPage P) (visited P events s).
Proof.
  intros Hitems Hpage Hs.
  pose proof (modeConsistent_RecordPage_new P form devices c s Hitems Hpage Hs)
    as H.
  clear Hs. revert s H.
  induction events as [|e events IH]; intros s H; simpl.
  - constructor; [now apply recordsForShownPage_modeConsistent|constructor].
  - constructor; [now apply recordsForShownPage_modeConsistent|].
    apply IH. now apply modeConsistent_step.
Qed.

(** X22, on the example page. *)
Lemma start_records_for_the_page_in_front_witness :
  QComboBox.items (Ui.recordTypeComboBox blankForm) = []
  /\ Ui.stackedWidget blankForm = launchAppPage
  /\ RecordPage_new demo blankForm intelHost ∅ = Ok freshPage
  /\ List.Forall (recordsForShownPage demo) (visited demo toggling freshPage).
Proof.
  assert (H1 : QComboBox.items (Ui.recordTypeComboBox blankForm) = [])
    by reflexivity.
  assert (H2 : Ui.stackedWidget blankForm = launchAppPage) by reflexivity.
  assert (H3 : RecordPage_new demo blankForm intelHost ∅ = Ok freshPage)
    by (vm_compute; reflexivity).
  split; [exact H1|]. split; [exact H2|]. split; [exact H3|].
  exact (start_records_for_the_page_in_front demo blankForm intelHost ∅
           toggling freshPage H1 H2 H3).
Defined.

(** ** The fields of the launch page across a start *)

Lemma editable_rememberCombobox group entryName value c w :
  QComboBox.editable (snd (fst (rememberCombobox group entryName value c w)))
  = QComboBox.editable w.
Proof.
  unfold rememberCombobox. cbn [fst snd].
  assert (Hset : forall i x, QComboBox.editable (QComboBox.setCurrentIndex i x)
                             = QComboBox.editable x).
  { intros i x. unfold QComboBox.setCurrentIndex. destruct (_ && _); reflexivity. }
  assert (Hins : forall i t d x, QComboBox.editable (QComboBox.insertItemData i t d x)
                                 = QComboBox.editable x).
  { intros i t d x. unfold QComboBox.insertItemData. cbv zeta.
    destruct (QComboBox.items x); reflexivity. }
  assert (Hrem : forall i x, QComboBox.editable (QComboBox.removeItem i x)
                             = QComboBox.editable x).
  { intros i x. unfold QComboBox.removeItem. cbv zeta.
    destruct (_ && _); [|reflexivity].
    destruct (_ <? _); [reflexivity|]. destruct (_ =? _); reflexivity. }
  rewrite Hset. unfold QComboBox.insertItem. rewrite Hins.
  destruct (negb _); [apply Hrem|reflexivity].
Qed.

(** What a line edit announces over three operations ends with the text it
    holds at the end. *)
Lemma textChanged_chain (a b c d : QComboBox.t) :
  let announced := textChanged a b ++ textChanged b c ++ textChanged c d in
  announced = [] \/ exists l, announced = l ++ [QComboBox.lineEdit d].
Proof.
  cbv zeta. unfold textChanged.
  destruct (String.eqb_spec (QComboBox.lineEdit c) (QComboBox.lineEdit d)) as [Ecd|_].
  - destruct (String.eqb_spec (QComboBox.lineEdit b) (QComboBox.lineEdit c)) as [Ebc|_].
    + destruct (String.eqb_spec (QComboBox.lineEdit a) (QComboBox.lineEdit b)) as [Eab|_].
      * left. reflexivity.
      * right. exists []. rewrite Ebc, Ecd. reflexivity.
    + right. exists (if String.eqb (QComboBox.lineEdit a) (QComboBox.lineEdit b)
                     then [] else [QComboBox.lineEdit b]).
      rewrite Ecd, app_nil_r. reflexivity.
  - right. eexists. rewrite app_assoc. reflexivity.
Qed.

Lemma announced_rememberCombobox group entryName value c w :
  QComboBox.editable w = true ->
  let announced := snd (rememberCombobox group entryName value c w) in
  announced = [] \/ exists l, announced = l ++ [value].
Proof.
  intros He. cbv zeta.
  assert (Hlast : QComboBox.lineEdit
                    (snd (fst (rememberCombobox group entryName value c w)))
                  = value).
  { pose proof (editable_rememberCombobox group entryName value c w) as E.
    rewrite He in E.
    assert (Ht : QComboBox.currentText
                   (snd (fst (rememberCombobox group entryName value c w)))
                 = value).
    { unfold rememberCombobox. cbn [fst snd].
      eapply currentText_setCurrentIndex_front. apply items_insertItem_front. }
    unfold QComboBox.currentText in Ht. now rewrite E in Ht. }
  revert Hlast. unfold rememberCombobox. cbn [fst snd]. cbv zeta.
  set (combo1 := if negb (QComboBox.findText w value =? -1)
                 then QComboBox.removeItem (QComboBox.findText w value) w
                 else w).
  set (combo2 := QComboBox.insertItem 0 value combo1).
  set (combo3 := QComboBox.setCurrentIndex 0 combo2).
  intros Hlast.
  pose proof (textChanged_chain w combo1 combo2 combo3) as H.
  cbv zeta in H. rewrite Hlast in H. exact H.
Qed.

Lemma restoredOrUntouched_rememberApplication
  (P : Platform) (application appParameters workingDir : string)
  (s : RecordPage.t) :
  let found := fileInfo P (findExecutable P (tildeExpand P application)) in
  QComboBox.editable (Ui.applicationName (RecordPage.ui s)) = true ->
  exists_ found && isFile found && isExecutable found = true ->
  restoredOrUntouched appParameters workingDir s
    (rememberApplication P application appParameters workingDir s).
Proof.
  intros found He Hvalid.
  unfold rememberApplication. cbv zeta.
  match goal with
  | |- context [rememberCombobox ?g ?e ?v ?c ?w] =>
      pose proof (announced_rememberCombobox g e v c w He) as Ha;
      destruct (config_rememberCombobox g e v c w) as [values Hc];
      destruct (rememberCombobox g e v c w) as [[c' combo] announced]
  end.
  cbn [fst snd] in Ha, Hc. cbv zeta in Ha.
  destruct Ha as [->|[l ->]].
  - right. repeat split; reflexivity.
  - left. rewrite fold_left_app. cbn [fold_left].
    match goal with
    | |- context [fold_left ?f l ?base] =>
        pose proof (behind_sharedConfig _ _ (behind_announced P l base)) as Hs;
        generalize dependent (fold_left f l base)
    end.
    intros X Hs.
    destruct (onApplicationNameChanged_restores P application X Hvalid)
      as (Hp & Hw & Herr & _).
    rewrite Hp, Hw, Hs.
    subst c'. unfold readEntry, writeEntry.
    cbn [RecordPage.sharedConfig RecordPage.on_ui RecordPage.on_sharedConfig].
    split; [|split; [|exact Herr]].
    + rewrite lookup_insert_ne by (intros [= _ H]; discriminate H).
      rewrite lookup_insert_ne by (intros [= H]; discriminate H).
      now rewrite lookup_insert_eq.
    + rewrite lookup_insert_ne by (intros [= _ H]; discriminate H).
      now rewrite lookup_insert_eq.
Qed.

(** X23.  A start does not lose the input of the launch page.  With an
    editable application box and an application that validates, a start
    leaves the parameters field as it was, and the working directory field
    keeps its text or, where it was empty, takes on the placeholder, the
    directory the recording runs in.  This is what [rememberApplication]
    stores the settings for before it changes the box: the validation the
    box triggers reads them back. *)
Theorem start_keeps_launch_fields (P : Platform) (s : RecordPage.t) :
  let u := RecordPage.ui s in
  let application := tildeExpand P (QComboBox.currentText (Ui.applicationName u)) in
  let found := fileInfo P (findExecutable P (tildeExpand P application)) in
  QComboBox.editable (Ui.applicationName u) = true ->
  exists_ found && isFile found && isExecutable found = true ->
  let s' := onStartRecordingButtonClicked P true s in
  Ui.applicationParametersBox (RecordPage.ui s') = Ui.applicationParametersBox u
  /\ (KUrlRequester.text (Ui.workingDirectory (RecordPage.ui s'))
      = KUrlRequester.text (Ui.workingDirectory u)
      \/ KUrlRequester.text (Ui.workingDirectory u) = ""
         /\ KUrlRequester.text (Ui.workingDirectory (RecordPage.ui s'))
            = KUrlRequester.placeholderText (Ui.workingDirectory u)).
Proof.
  intros u application found He Hvalid. cbv zeta.
  unfold onStartRecordingButtonClicked.
  destruct (rememberCombobox config "eventType" _ _ _) as [[c combo] announced].
  cbv beta iota zeta.
  set (t0 := showRecordPage s).
  assert (H0 : Ui.applicationName (RecordPage.ui t0) = Ui.applicationName u
               /\ Ui.applicationParametersBox (RecordPage.ui t0)
                  = Ui.applicationParametersBox u
               /\ Ui.workingDirectory (RecordPage.ui t0) = Ui.workingDirectory u)
    by (repeat split; reflexivity).
  clearbody t0.
  set (s2 := RecordPage.on_ui (Ui.on_eventTypeBox _) _).
  assert (H2 : Ui.applicationName (RecordPage.ui s2)
               = Ui.applicationName (RecordPage.ui t0)
               /\ Ui.applicationParametersBox (RecordPage.ui s2)
                  = Ui.applicationParametersBox (RecordPage.ui t0)
               /\ Ui.workingDirectory (RecordPage.ui s2)
                  = Ui.workingDirectory (RecordPage.ui t0))
    by (repeat split; reflexivity).
  clearbody s2.
  destruct H0 as (Ha0 & Hp0 & Hw0). destruct H2 as (Ha & Hp & Hw).
  rewrite Ha0 in Ha. rewrite Hp0 in Hp. rewrite Hw0 in Hw.
  clear Ha0 Hp0 Hw0.
  destruct (QVariant_eqb _ _).
  - rewrite Ha, Hp, Hw. fold application.
    assert (He2 : QComboBox.editable (Ui.applicationName (RecordPage.ui s2)) = true)
      by (rewrite Ha; exact He).
    match goal with
    | |- context [rememberApplication P application ?b ?w s2] =>
        destruct (restoredOrUntouched_rememberApplication P application b w s2
                    He2 Hvalid) as [(Rp & Rw & _)|(Rp & Rw & _)];
        generalize dependent (rememberApplication P application b w s2)
    end.
    + intros r Rp Rw.
      cbn [RecordPage.ui RecordPage.on_ui RecordPage.on_m_perfRecord
           Ui.applicationParametersBox Ui.workingDirectory
           Ui.on_recordTypeComboBox].
      rewrite Rp, Rw. split; [reflexivity|].
      destruct (QString.isEmpty (KUrlRequester.text (Ui.workingDirectory u)))
        eqn:E; [right|left; reflexivity].
      split; [now apply isEmpty_true|reflexivity].
    + intros r Rp Rw.
      cbn [RecordPage.ui RecordPage.on_ui RecordPage.on_m_perfRecord
           Ui.applicationParametersBox Ui.workingDirectory
           Ui.on_recordTypeComboBox].
      rewrite Rp, Rw, Hp, Hw. split; [reflexivity|left; reflexivity].
  - generalize dependent s2. intros s2 Ha Hp Hw.
    cbn [RecordPage.ui RecordPage.on_ui RecordPage.on_m_perfRecord
         Ui.applicationParametersBox Ui.workingDirectory
         Ui.on_recordTypeComboBox].
    rewrite Hp, Hw. split; [reflexivity|left; reflexivity].
Qed.

(** X23, on the example page with an application and parameters entered. *)
Lemma start_keeps_launch_fields_witness :
  QComboBox.editable
    (Ui.applicationName
       (RecordPage.ui
          (run demo [ApplicationNameEdited "/usr/bin/ls";
                     ApplicationParametersEdited "-l /tmp"] freshPage)))
  = true
  /\ Ui.applicationParametersBox
       (RecordPage.ui
          (onStartRecordingButtonClicked demo true
             (run demo [ApplicationNameEdited "/usr/bin/ls";
                        ApplicationParametersEdited "-l /tmp"] freshPage)))
     = Ui.applicationParametersBox
         (RecordPage.ui
            (run demo [ApplicationNameEdited "/usr/bin/ls";
                       ApplicationParametersEdited "-l /tmp"] freshPage)).
Proof.
  assert (H1 : QComboBox.editable
                 (Ui.applicationName
                    (RecordPage.ui
                       (run demo [ApplicationNameEdited "/usr/bin/ls";
                                  ApplicationParametersEdited "-l /tmp"]
                          freshPage)))
               = true) by (vm_compute; reflexivity).
  split; [exact H1|].
  apply (start_keeps_launch_fields demo
           (run demo [ApplicationNameEdited "/usr/bin/ls";
                      ApplicationParametersEdited "-l /tmp"] freshPage) H1).
  vm_compute. reflexivity.
Defined.

(** * The claims on the shared error message *)

(** ** A failed recording and the retry *)

(** A click on the start button of an idle page starts a session exactly
    when the button is enabled. *)
Lemma retryStarts_enabled (P : Platform) (s : RecordPage.t) :
  startChecked s = false -> (retryStarts P s <-> startEnabled s = true).
Proof.
  intros Hc. unfold retryStarts. cbn [step]. cbv zeta.
  fold (startEnabled s). fold (startChecked s).
  destruct (startEnabled s).
  - split; [reflexivity|]. intros _. rewrite Hc. cbn [negb].
    destruct (session_startRecordingButton_setChecked P true s)
      as [[_ H]|(call & _ & _ & H)].
    + rewrite Hc in H. discriminate H.
    + unfold session in H. injection H as _ H. exact H.
  - rewrite Hc. split; discriminate.
Qed.

(** C4 (as amended).  When the recorder reports a failure, the start
    button is no longer checked, the mode selector is enabled, the error
    message is set, the message is shown, and the button that opens the
    results is disabled.  The slot leaves the enabled state of the start
    button as it was, so the click that retries starts a session exactly
    when the button was enabled before the failure.  The message the slot
    sets is held by the label that [updateStartRecordingButtonState]
    tests, so the next update of the button disables it for as long as the
    message is there, and the click that retries is then ignored.  For a
    session that was active the button falls back to its start text and
    the recorder is told to stop. *)
Theorem recordingFailed_returns_to_idle
  (P : Platform) (errorMessage : string) (s : RecordPage.t) :
  let s' := recordingFailed P errorMessage s in
  let u' := RecordPage.ui s' in
  startChecked s' = false
  /\ QComboBox.enabled (Ui.recordTypeComboBox u') = true
  /\ errorText s' = errorMessage
  /\ KMessageWidget.visible (Ui.applicationRecordErrorMessage u') = true
  /\ QPushButton.enabled (Ui.viewPerfRecordResultsButton u') = false
  /\ startEnabled s' = startEnabled s
  /\ (retryStarts P s' <-> startEnabled s = true)
  /\ (errorMessage <> "" ->
      startEnabled (updateStartRecordingButtonState P s') = false
      /\ blocked (updateStartRecordingButtonState P s')
      /\ ~ retryStarts P (updateStartRecordingButtonState P s'))
  /\ (startChecked s = true ->
      QPushButton.text (Ui.startRecordingButton u') = "Start Recording"
      /\ QPushButton.icon (Ui.startRecordingButton u') = "media-playback-start"
      /\ RecordPage.m_perfRecord s'
         = (RecordPage.m_perfRecord s ++ [stopRecording])%list).
Proof.
  cbv zeta.
  assert (H : startChecked (recordingFailed P errorMessage s) = false
    /\ QComboBox.enabled
         (Ui.recordTypeComboBox (RecordPage.ui (recordingFailed P errorMessage s)))
       = true
    /\ errorText (recordingFailed P errorMessage s) = errorMessage
    /\ KMessageWidget.visible
         (Ui.applicationRecordErrorMessage
            (RecordPage.ui (recordingFailed P errorMessage s))) = true
    /\ QPushButton.enabled
         (Ui.viewPerfRecordResultsButton
            (RecordPage.ui (recordingFailed P errorMessage s))) = false
    /\ startEnabled (recordingFailed P errorMessage s) = startEnabled s
    /\ (startChecked s = true ->
        QPushButton.text
          (Ui.startRecordingButton
             (RecordPage.ui (recordingFailed P errorMessage s)))
        = "Start Recording"
        /\ QPushButton.icon
             (Ui.startRecordingButton
                (RecordPage.ui (recordingFailed P errorMessage s)))
           = "media-playback-start"
        /\ RecordPage.m_perfRecord (recordingFailed P errorMessage s)
           = (RecordPage.m_perfRecord s ++ [stopRecording])%list)).
  { unfold recordingFailed, startRecordingButton_setChecked, startChecked,
      startEnabled.
    destruct (QPushButton.checked (Ui.startRecordingButton (RecordPage.ui s)))
      eqn:E;
      simpl; rewrite ?E; repeat split; try reflexivity; discriminate. }
  destruct H as (H1 & H2 & H3 & H4 & H5 & H6 & H7).
  split; [exact H1|]. split; [exact H2|]. split; [exact H3|].
  split; [exact H4|]. split; [exact H5|]. split; [exact H6|].
  split; [rewrite <- H6; exact (retryStarts_enabled P _ H1)|].
  split; [|exact H7].
  intros Hne.
  assert (E : errorText
                (updateStartRecordingButtonState P
                   (recordingFailed P errorMessage s)) <> "")
    by (rewrite errorText_updateStartRecordingButtonState, H3; exact Hne).
  pose proof (updateStartRecordingButtonState_needs_no_error P _ E) as Hd.
  split; [exact Hd|].
  split; [apply blocked_updateStartRecordingButtonState|].
  assert (Hc : startChecked
                 (updateStartRecordingButtonState P
                    (recordingFailed P errorMessage s)) = false)
    by exact H1.
  intros Hr. apply (retryStarts_enabled P _ Hc) in Hr.
  rewrite Hd in Hr. discriminate Hr.
Qed.

(** C4, on the example page while it records. *)
Lemma recordingFailed_returns_to_idle_witness :
  startChecked recordingPage = true
  /\ QPushButton.text
       (Ui.startRecordingButton
          (RecordPage.ui (recordingFailed demo "perf not found" recordingPage)))
     = "Start Recording".
Proof.
  split; [reflexivity|].
  destruct (recordingFailed_returns_to_idle demo "perf not found" recordingPage)
    as (_ & _ & _ & _ & _ & _ & _ & _ & H).
  exact (proj1 (H eq_refl)).
Defined.

(** C4 (as stated) fails: the user is not left free to retry.  On
    [attachFailedPage] a recording of the selected process has failed;
    the page is idle and the process is still selected, but the result of
    the next poll has updated the start button, which is disabled beside
    the message of the failure, so the click that would retry is
    ignored. *)
Lemma retry_after_failed_recording_is_ignored :
  ~ retryStarts demo attachFailedPage.
Proof. unfold retryStarts. vm_compute. discriminate. Qed.

(** The page of that example: idle, the process still selected, the
    message of the failure shown, the start button disabled. *)
Example attachFailedPage_state :
  startChecked attachFailedPage = false
  /\ RecordPage.selectionModel attachFailedPage = [7%N]
  /\ errorText attachFailedPage = "perf: no permission"
  /\ startEnabled attachFailedPage = false
  /\ step demo StartRecordingButtonClicked attachFailedPage = attachFailedPage.
Proof.
  split; [vm_compute; reflexivity|]. split; [vm_compute; reflexivity|].
  split; [vm_compute; reflexivity|]. split; vm_compute; reflexivity.
Qed.

(** ** Validation and the start button *)

(** C5 (as stated) fails: a session can be started before the rejected
    input is corrected.  On [stalePage] the application field holds a path
    that does not exist; the check of the output file, which passed, has
    cleared the message, and the start button is enabled. *)
Lemma start_enabled_with_rejected_application :
  ~ rejectedInputBlocksStart demo stalePage.
Proof.
  intros H.
  assert (E : startEnabled stalePage = false)
    by (apply H; vm_compute; discriminate).
  vm_compute in E. discriminate E.
Qed.

(** On that page a click on the start button has the recorder launch the
    path that does not exist. *)
Example stalePage_start :
  QComboBox.currentText (Ui.applicationName (RecordPage.ui stalePage))
  = "/opt/tool/run"
  /\ exists_ (fileInfo demo (findExecutable demo
                (tildeExpand demo "/opt/tool/run"))) = false
  /\ startChecked (step demo StartRecordingButtonClicked stalePage) = true
  /\ RecordPage.m_perfRecord (step demo StartRecordingButtonClicked stalePage)
     = [record_launch ["--call-graph"; "dwarf"] "/tmp/out.data"
          "/opt/tool/run" [] "/usr/bin"].
Proof.
  split; [vm_compute; reflexivity|]. split; [vm_compute; reflexivity|].
  split; vm_compute; reflexivity.
Qed.

(** C5 (as amended).  After each of the three validation slots has run, a
    non-empty error message means that the start button is disabled, and
    no later event other than the failure signal of the recorder, which
    sets a message of its own, enables the button beside a non-empty
    message.  The message is one label shared by the fields: a check of
    any field that passes empties it, and with an empty message the start
    button is enabled by the condition of the mode alone (a valid url of
    the application on the launch page, a selected process on the attach
    page), whether or not the input another check has rejected is still
    in its field. *)
Theorem validation_error_disables_start
  (P : Platform) (text : string) (s s' : RecordPage.t) :
  let application := fileInfo P (findExecutable P (tildeExpand P text)) in
  let folder :=
    fileInfo P (toLocalFile
      (url P (KUrlRequester.text (Ui.workingDirectory (RecordPage.ui s))))) in
  let file := fileInfo P (toLocalFile (url P (storedOutputPath s))) in
  let outputFolder := fileInfo P (absolutePath file) in
  (In s' [onApplicationNameChanged P text s;
          onWorkingDirectoryNameChanged P text s;
          onOutputFileNameChanged P text s] ->
   (errorText s' <> "" -> startEnabled s' = false)
   /\ (errorText s' = "" -> startEnabled s' = startable P s'))
  /\ (forall e,
        (forall errorMessage, e <> PerfRecordingFailed errorMessage) ->
        blocked s -> blocked (step P e s))
  /\ (exists_ application && isFile application && isExecutable application
      = true ->
      errorText (onApplicationNameChanged P text s) = "")
  /\ (exists_ folder && isDir folder && isWritable folder = true ->
      errorText (onWorkingDirectoryNameChanged P text s) = "")
  /\ (exists_ outputFolder && isDir outputFolder && isWritable outputFolder
      && QString.endsWith (absoluteFilePath file) ".data" = true ->
      errorText (onOutputFileNameChanged P text s) = "").
Proof.
  intros application folder file outputFolder.
  split; [|split; [|split; [|split]]].
  - assert (Hv : forall t,
              (errorText (updateStartRecordingButtonState P (showErrorIfAny t))
               <> "" ->
               startEnabled (updateStartRecordingButtonState P (showErrorIfAny t))
               = false)
              /\ (errorText (updateStartRecordingButtonState P (showErrorIfAny t))
                  = "" ->
                  startEnabled
                    (updateStartRecordingButtonState P (showErrorIfAny t))
                  = startable P
                      (updateStartRecordingButtonState P (showErrorIfAny t)))).
    { intros t. split.
      - apply updateStartRecordingButtonState_needs_no_error.
      - intros E.
        destruct (validated_updateStartRecordingButtonState P t) as [_ Hs].
        rewrite Hs, E. apply andb_true_r. }
    simpl. intros [<-|[<-|[<-|[]]]]; apply Hv.
  - intros e. apply blocked_step.
  - intros H.
    now destruct (onApplicationNameChanged_restores P text s H)
      as (_ & _ & He & _).
  - intros H.
    apply andb_prop in H. destruct H as [H H3].
    apply andb_prop in H. destruct H as [H1 H2].
    unfold onWorkingDirectoryNameChanged. fold folder.
    rewrite H1, H2, H3. reflexivity.
  - intros H.
    apply andb_prop in H. destruct H as [H H4].
    apply andb_prop in H. destruct H as [H H3].
    apply andb_prop in H. destruct H as [H1 H2].
    unfold onOutputFileNameChanged. fold (storedOutputPath s).
    fold file. fold outputFolder.
    rewrite H1, H2, H3, H4. reflexivity.
Qed.

(** C5, on the example page: a path that does not exist is rejected. *)
Lemma validation_error_disables_start_witness :
  errorText (onApplicationNameChanged demo "/opt/tool/run" freshPage) <> ""
  /\ startEnabled (onApplicationNameChanged demo "/opt/tool/run" freshPage) = false.
Proof.
  assert (E : errorText (onApplicationNameChanged demo "/opt/tool/run" freshPage)
              <> "") by (vm_compute; discriminate).
  split; [exact E|].
  refine (proj1 (proj1 (validation_error_disables_start demo "/opt/tool/run"
                          freshPage
                          (onApplicationNameChanged demo "/opt/tool/run"
                             freshPage)) _) E).
  left. reflexivity.
Defined.

(** * The histories on the page *)

Lemma histories_behind s s' :
  behindValidation s' = behindValidation s -> histories s' = histories s.
Proof.
  unfold behindValidation, histories. intros H. injection H. intros. congruence.
Qed.

Lemma NoDup_remembered (value : string) (h : list string) :
  List.NoDup h -> List.NoDup (value :: removeFirst value h).
Proof.
  intros H. destruct (removeFirst_NoDup value h H). now constructor.
Qed.

Lemma historiesDistinct_histories s s' :
  histories s' = histories s -> historiesDistinct s -> historiesDistinct s'.
Proof. unfold historiesDistinct. now intros ->. Qed.

Lemma historiesDistinct_rememberApplication P application appParameters
  workingDir s :
  historiesDistinct s ->
  historiesDistinct (rememberApplication P application appParameters workingDir s).
Proof.
  intros [Ha He]. unfold rememberApplication.
  match goal with
  | |- context [rememberCombobox ?g ?e ?v ?c ?w] =>
      pose proof (history_rememberCombobox g e v c w) as Hh;
      destruct (rememberCombobox g e v c w) as [[c' combo] announced]
  end.
  cbn [fst snd] in Hh.
  unfold historiesDistinct.
  rewrite (histories_behind _ _ (behind_announced P announced _)).
  unfold histories.
  cbn [fst snd RecordPage.ui RecordPage.on_ui RecordPage.on_sharedConfig
       Ui.applicationName Ui.eventTypeBox Ui.on_applicationName].
  rewrite Hh. split; [|exact He].
  apply NoDup_remembered. exact Ha.
Qed.

Lemma histories_on_sharedConfig g s :
  histories (RecordPage.on_sharedConfig g s) = histories s.
Proof. reflexivity. Qed.

Lemma histories_on_m_perfRecord g s :
  histories (RecordPage.on_m_perfRecord g s) = histories s.
Proof. reflexivity. Qed.

Lemma histories_on_startRecordingButton g s :
  histories (RecordPage.on_ui (Ui.on_startRecordingButton g) s) = histories s.
Proof. reflexivity. Qed.

Lemma histories_on_recordTypeComboBox g s :
  histories (RecordPage.on_ui (Ui.on_recordTypeComboBox g) s) = histories s.
Proof. reflexivity. Qed.

Lemma histories_showRecordPage s : histories (showRecordPage s) = histories s.
Proof. reflexivity. Qed.

Lemma histories_on_eventTypeBox combo s :
  histories (RecordPage.on_ui (Ui.on_eventTypeBox (fun _ => combo)) s)
  = (fst (histories s), history combo).
Proof. reflexivity. Qed.

Lemma historiesDistinct_onStartRecordingButtonClicked P checked s :
  historiesDistinct s ->
  historiesDistinct (onStartRecordingButtonClicked P checked s).
Proof.
  intros H. unfold onStartRecordingButtonClicked. destruct checked.
  - generalize (histories_showRecordPage s). generalize (showRecordPage s).
    intros t0 H0. cbv zeta.
    match goal with
    | |- context [rememberCombobox ?g ?e ?v ?c (Ui.eventTypeBox (RecordPage.ui ?x))] =>
        pose proof (history_rememberCombobox g e v c
                      (Ui.eventTypeBox (RecordPage.ui x))) as Hh;
        change (history (Ui.eventTypeBox (RecordPage.ui x)))
          with (snd (histories x)) in Hh;
        rewrite histories_on_sharedConfig, !histories_on_startRecordingButton,
          H0 in Hh;
        destruct (rememberCombobox g e v c (Ui.eventTypeBox (RecordPage.ui x)))
          as [[c' combo] announced]
    end.
    cbn [fst snd] in Hh. cbv beta iota zeta.
    unfold historiesDistinct. rewrite histories_on_recordTypeComboBox.
    assert (D2 : forall x, histories x = histories s ->
                 historiesDistinct
                   (RecordPage.on_ui (Ui.on_eventTypeBox (fun _ => combo)) x)).
    { intros x Hx. unfold historiesDistinct.
      rewrite histories_on_eventTypeBox, Hx, Hh. cbn [fst snd].
      split; [apply H|apply NoDup_remembered, H]. }
    match goal with
    | |- context [RecordPage.on_ui (Ui.on_eventTypeBox (fun _ => combo)) ?x] =>
        assert (Hx : histories x = histories s)
          by (rewrite !histories_on_sharedConfig,
                !histories_on_startRecordingButton; exact H0);
        specialize (D2 x Hx);
        generalize dependent
          (RecordPage.on_ui (Ui.on_eventTypeBox (fun _ => combo)) x)
    end.
    intros s2 D2.
    destruct (QVariant_eqb _ _); rewrite histories_on_m_perfRecord.
    + match goal with
      | |- context [rememberApplication P ?a ?b ?w s2] =>
          pose proof (historiesDistinct_rememberApplication P a b w s2 D2) as D3;
          generalize dependent (rememberApplication P a b w s2)
      end.
      intros r D3. exact D3.
    + exact D2.
  - cbv zeta. unfold historiesDistinct.
    rewrite histories_on_recordTypeComboBox, histories_on_m_perfRecord,
      !histories_on_startRecordingButton.
    exact H.
Qed.

Lemma historiesDistinct_startRecordingButton_setChecked P checked s :
  historiesDistinct s ->
  historiesDistinct (startRecordingButton_setChecked P checked s).
Proof.
  intros H. unfold startRecordingButton_setChecked.
  destruct (Bool.eqb _ _); [exact H|].
  apply historiesDistinct_onStartRecordingButtonClicked. exact H.
Qed.

Lemma histories_ProcessModel_mergeProcesses P incoming s :
  histories (ProcessModel_mergeProcesses P incoming s) = histories s.
Proof.
  unfold ProcessModel_mergeProcesses. cbv beta zeta.
  destruct (bool_decide _); reflexivity.
Qed.

Lemma histories_updateProcessesFinished P s :
  histories (updateProcessesFinished P s) = histories s.
Proof.
  unfold updateProcessesFinished. cbv beta zeta.
  destruct (Page_eqb _ _).
  - etransitivity; [|apply (histories_ProcessModel_mergeProcesses P
                              (result (RecordPage.m_watcher s)) s)].
    reflexivity.
  - apply histories_ProcessModel_mergeProcesses.
Qed.

Lemma histories_outputFile_setText P text s :
  histories (outputFile_setText P text s) = histories s.
Proof.
  unfold outputFile_setText. destruct (String.eqb _ _); [reflexivity|].
  now rewrite (histories_behind _ _ (behind_onOutputFileNameChanged P text _)).
Qed.

Lemma histories_onOutputFileNameSelected P filePath s :
  histories (onOutputFileNameSelected P filePath s) = histories s.
Proof.
  unfold onOutputFileNameSelected. destruct (negb _); [|reflexivity].
  apply histories_outputFile_setText.
Qed.

Lemma histories_step (P : Platform) (e : Event) (s : RecordPage.t) :
  match e with
  | StartRecordingButtonClicked
  | PerfRecordingFinished _ | PerfRecordingFailed _ => True
  | _ => histories (step P e s) = histories s
  end.
Proof.
  destruct e; simpl; try exact I; try reflexivity.
  - destruct (_ && _); [|reflexivity].
    unfold currentIndexChanged.
    destruct (index =? LaunchApplication); [reflexivity|].
    destruct (index =? AttachToProcess); reflexivity.
  - destruct (String.eqb _ _); [reflexivity|].
    now rewrite (histories_behind _ _ (behind_onApplicationNameChanged P text _)).
  - apply (histories_behind _ _ (behind_workingDirectory_setText P text s)).
  - apply histories_outputFile_setText.
  - apply histories_onOutputFileNameSelected.
  - unfold onOutputFileUrlChanged.
    now rewrite histories_onOutputFileNameSelected, histories_outputFile_setText.
  - destruct (_ && _); [|reflexivity].
    unfold histories. cbn [RecordPage.ui RecordPage.on_ui Ui.applicationName
      Ui.eventTypeBox Ui.on_callGraphComboBox]. reflexivity.
  - destruct (_ && _); reflexivity.
  - destruct (isRunning _ _); [|reflexivity].
    destruct (future (RecordPage.m_watcher s)) as [watched|]; [|reflexivity].
    destruct (Nat.eqb _ _); [|reflexivity].
    now rewrite histories_updateProcessesFinished.
  - destruct (RecordPage.timers s) as [|deadline armed]; [reflexivity|].
    destruct (_ <=? _)%N; reflexivity.
Qed.

Lemma historiesDistinct_step (P : Platform) (e : Event) (s : RecordPage.t) :
  historiesDistinct s -> historiesDistinct (step P e s).
Proof.
  intros H. pose proof (histories_step P e s) as Hf.
  destruct e; try exact (historiesDistinct_histories _ _ Hf H).
  - cbn [step]. destruct (QPushButton.enabled _); [|exact H].
    now apply historiesDistinct_startRecordingButton_setChecked.
  - cbn [step]. unfold recordingFinished. cbv beta zeta.
    eapply historiesDistinct_histories;
      [|apply (historiesDistinct_startRecordingButton_setChecked P false s H)].
    reflexivity.
  - cbn [step]. unfold recordingFailed. cbv beta zeta.
    eapply historiesDistinct_histories;
      [|apply (historiesDistinct_startRecordingButton_setChecked P false s H)].
    reflexivity.
Qed.

(** X24.  The histories of the page name no value twice.  On every page
    a run from the constructor passes through, for a configuration whose
    stored histories name no value twice (an empty configuration, or one
    the page has written), neither the history of the application box nor
    that of the event type box holds a duplicate: [restoreCombobox] lists
    what is stored, [rememberCombobox] removes the earlier occurrence of
    what it puts in front, and nothing else changes the items of the two
    boxes. *)
Theorem histories_without_duplicates
  (P : Platform) (form : Ui.t) (devices : list Solid.Device) (c : KConfig)
  (events : list Event) (s : RecordPage.t) :
  storedDistinct c ->
  RecordPage_new P form devices c = Ok s ->
  List.Forall historiesDistinct (visited P events s).
Proof.
  intros [Ha He] Hs.
  assert (H : historiesDistinct s).
  { destruct (made_RecordPage_new P form devices c s Hs)
      as (_ & _ & _ & _ & H5 & H6).
    unfold historiesDistinct, histories. cbn [fst snd]. rewrite H5, H6.
    split; [exact Ha|apply He]. }
  clear Hs. revert s H.
  induction events as [|e events IH]; intros s H; simpl.
  - constructor; [exact H|constructor].
  - constructor; [exact H|]. apply IH. now apply historiesDistinct_step.
Qed.

(** X24, on the example page. *)
Lemma histories_without_duplicates_witness :
  storedDistinct ∅
  /\ RecordPage_new demo blankForm intelHost ∅ = Ok freshPage
  /\ List.Forall historiesDistinct
       (visited demo
          [ApplicationNameEdited "/usr/bin/ls"; StartRecordingButtonClicked;
           StartRecordingButtonClicked; StartRecordingButtonClicked]
          freshPage).
Proof.
  assert (H1 : storedDistinct ∅).
  { split; [constructor|]. intros default.
    constructor; [intros []|constructor]. }
  assert (H2 : RecordPage_new demo blankForm intelHost ∅ = Ok freshPage)
    by (vm_compute; reflexivity).
  split; [exact H1|]. split; [exact H2|].
  exact (histories_without_duplicates demo blankForm intelHost ∅ _ freshPage
           H1 H2).
Defined.
